(** * The WebDAV client of [installer/install.py]

    A shallow embedding of the request dispatcher, the multistatus parser,
    the chunked transfer loops and the directory synchronizer of
    [ModuleInstaller], and the properties of them the specification states.

    Python strings are Rocq strings of single-byte characters, Python
    integers are [Z], dictionaries are association lists in insertion
    order.  A method that raises returns [inl] of the exception; a method
    with effects is a function of the [World] (the server behind the
    transport, the local file system, the trace of what was done). *)

From Stdlib Require Import String Ascii List ZArith Bool Lia Sorted.
From Stdlib Require Import DecimalString.
Import ListNotations.
Local Open Scope string_scope.
Local Open Scope Z_scope.

(** ** Python strings *)

Module Py.

(** [bool(s)] for a string. *)
Definition truthy (s : string) : bool :=
  match s with EmptyString => false | _ => true end.

(** [s.startswith(p)] *)
Definition startswith (s p : string) : bool := String.prefix p s.

Fixpoint rev_string (s : string) : string :=
  match s with
  | EmptyString => EmptyString
  | String c r => rev_string r ++ String c EmptyString
  end.

(** [s.endswith(p)] *)
Definition endswith (s p : string) : bool :=
  String.prefix (rev_string p) (rev_string s).

(** [needle in hay] for strings. *)
Fixpoint contains (needle hay : string) : bool :=
  if String.prefix needle hay then true
  else match hay with
       | EmptyString => false
       | String _ r => contains needle r
       end.

(** [x in l] for a list of strings. *)
Definition mem (x : string) (l : list string) : bool :=
  existsb (String.eqb x) l.

(** [str.isspace] on one character (code points below 256). *)
Definition is_space (c : ascii) : bool :=
  let n := nat_of_ascii c in
  ((9 <=? n) && (n <=? 13) || (28 <=? n) && (n <=? 32)
   || (n =? 133) || (n =? 160))%nat.

Fixpoint lstrip (s : string) : string :=
  match s with
  | EmptyString => EmptyString
  | String c r => if is_space c then lstrip r else s
  end.

(** [s.strip()] *)
Definition strip (s : string) : string :=
  rev_string (lstrip (rev_string (lstrip s))).

(** [s.split(':', 1)]: [None] when the result has a single element. *)
Fixpoint split_colon (s : string) : option (string * string) :=
  match s with
  | EmptyString => None
  | String c r =>
      if Ascii.eqb c ":" then Some (EmptyString, r)
      else match split_colon r with
           | Some (a, b) => Some (String c a, b)
           | None => None
           end
  end.

(** [s.replace('\\', '')] *)
Fixpoint drop_backslash (s : string) : string :=
  match s with
  | EmptyString => EmptyString
  | String c r =>
      if Ascii.eqb c "\" then drop_backslash r else String c (drop_backslash r)
  end.

Definition digit (c : ascii) : option Z :=
  let n := nat_of_ascii c in
  if ((48 <=? n) && (n <=? 57))%nat then Some (Z.of_nat n - 48) else None.

(** Digits of a decimal literal; one underscore may separate two digits. *)
Fixpoint digits (after_digit : bool) (acc : Z) (s : string) : option Z :=
  match s with
  | EmptyString => if after_digit then Some acc else None
  | String c r =>
      match digit c with
      | Some d => digits true (10 * acc + d) r
      | None =>
          if Ascii.eqb c "_" && after_digit then
            match r with
            | String c' _ =>
                match digit c' with
                | Some _ => digits false acc r
                | None => None
                end
            | EmptyString => None
            end
          else None
      end
  end.

(** [int(s)] for a string: [None] is [ValueError]. *)
Definition int (s : string) : option Z :=
  match strip s with
  | String "-" r => option_map Z.opp (digits false 0 r)
  | String "+" r => digits false 0 r
  | r => digits false 0 r
  end.

Definition lower_char (c : ascii) : ascii :=
  let n := nat_of_ascii c in
  if ((65 <=? n) && (n <=? 90))%nat then ascii_of_nat (n + 32) else c.

(** [s.lower()] on ASCII letters. *)
Fixpoint lower (s : string) : string :=
  match s with
  | EmptyString => EmptyString
  | String c r => String (lower_char c) (lower r)
  end.

(** [len(s)] *)
Definition len (s : string) : Z := Z.of_nat (String.length s).

(** Dictionaries with string keys, in insertion order. *)
Definition dict (V : Type) := list (string * V).

Fixpoint get {V} (d : dict V) (k : string) : option V :=
  match d with
  | [] => None
  | (k', v) :: r => if String.eqb k k' then Some v else get r k
  end.

(** [d[k] = v] *)
Fixpoint set {V} (d : dict V) (k : string) (v : V) : dict V :=
  match d with
  | [] => [(k, v)]
  | (k', v') :: r =>
      if String.eqb k k' then (k, v) :: r else (k', v') :: set r k v
  end.

(** [dict(pairs)] *)
Definition of_pairs {V} (l : list (string * V)) : dict V :=
  fold_left (fun d kv => set d (fst kv) (snd kv)) l [].

(** [posixpath.join(a, b)] *)
Definition path_join (a b : string) : string :=
  if startswith b "/" then b
  else if negb (truthy a) || endswith a "/" then a ++ b
  else a ++ "/" ++ b.

(** [str(n)], also [format] and [%d] of an integer. *)
Definition str_of_int (n : Z) : string := NilZero.string_of_int (Z.to_int n).

End Py.

(** ** XML documents as [lxml.etree] presents them *)

#[warnings="-register-all"]
Inductive Element : Type :=
  Elem (tag : string) (attrib : list (string * string))
       (text : option string) (children : list Element).

Definition tag_of (e : Element) : string := let (t, _, _, _) := e in t.
Definition text_of (e : Element) : option string := let (_, _, t, _) := e in t.
Definition children_of (e : Element) : list Element := let (_, _, _, c) := e in c.

(** All proper descendants, in document order. *)
Fixpoint descendants (e : Element) : list Element :=
  match e with
  | Elem _ _ _ cs => flat_map (fun c => c :: descendants c) cs
  end.

Definition has_tag (t : string) (e : Element) : bool := String.eqb (tag_of e) t.

(** [e.findall(".//" + t)] *)
Definition findall_desc (t : string) (e : Element) : list Element :=
  filter (has_tag t) (descendants e).

(** [e.findall(t)]: children only. *)
Definition findall_child (t : string) (e : Element) : list Element :=
  filter (has_tag t) (children_of e).

(** [e.find(".//" + t)] *)
Definition find_desc (t : string) (e : Element) : option Element :=
  hd_error (findall_desc t e).

(** [e.find(t)] *)
Definition find_child (t : string) (e : Element) : option Element :=
  hd_error (findall_child t e).

(** [el.text or ''] of the first match, [None] without a match. *)
Definition text_or_empty (o : option Element) : option string :=
  match o with
  | None => None
  | Some el => Some (match text_of el with Some s => s | None => "" end)
  end.

(** [e.findtext(".//" + t)] *)
Definition findtext_desc (t : string) (e : Element) : option string :=
  text_or_empty (find_desc t e).

(** [e.findtext(t)] *)
Definition findtext_child (t : string) (e : Element) : option string :=
  text_or_empty (find_child t e).

(** A response body: text that [etree.fromstring] rejects, or the tree it
    builds. *)
Inductive Content : Type :=
| Malformed (raw : string)
| Xml (root : Element).

(** ** Exceptions *)

Inductive Exc : Type :=
| NotEnoughSpace
| RemoteResourceNotFound (path : string)
| ResourceLocked (path : string)
| MethodNotSupported (name server : string)
| ResponseErrorCode (url : string) (code : Z) (message : Content)
| RemoteParentNotFound (path : string)
| OptionNotValid (name value : string)
| LocalResourceNotFound (path : string)
| NoConnection (hostname : string)
| ConnectionException (cause : string)
(* raised by the transport *)
| RequestsConnectionError (cause : string)
| RequestsRequestException (cause : string)
(* built in *)
| ValueError
| KeyError
| TypeError
| AttributeError
| RuntimeWarning
| OverflowError
| OSError (path : string)
| RecursionError
| XMLSyntaxError
| ReError.

(** The exceptions of the transport library, which the decorator of the
    public methods translates. *)
Definition is_transport_error (e : Exc) : bool :=
  match e with
  | RequestsConnectionError _ | RequestsRequestException _ => true
  | _ => false
  end.

(** The errors the dispatcher raises by the status of a response. *)
Definition is_dispatcher_error (e : Exc) : bool :=
  match e with
  | NotEnoughSpace | RemoteResourceNotFound _ | ResourceLocked _
  | MethodNotSupported _ _ | ResponseErrorCode _ _ _ => true
  | _ => false
  end.

Definition Result (A : Type) : Type := Exc + A.

(** [etree.fromstring(content)] *)
Definition fromstring (c : Content) : Result Element :=
  match c with
  | Malformed _ => inl XMLSyntaxError
  | Xml e => inr e
  end.

(** ** What the client imports *)

(** Library functions: [urllib.parse], [dateutil], [re]. *)
Class Externals := {
  (** [unquote(s)] *)
  unquote : string -> string;
  (** [urlsplit(s).path], already text; the argument is an element's [text] *)
  urlsplit_path : option string -> string;
  (** [urlparse(s).path] *)
  urlparse_path : string -> string;
  (** [int(dateutil_parser.parse(s).timestamp())] *)
  dateutil_timestamp : option string -> Result Z;
  (** [re.sub(pattern, "", s)] *)
  re_sub_empty : string -> string -> Result string
}.

(** The [Urn] class of [installer/urn.py]. *)
Class UrnModel := {
  Urn : Type;
  (** [Urn(path, directory)] *)
  mkUrn : string -> bool -> Urn;
  urn_path : Urn -> string;
  urn_quote : Urn -> string;
  urn_filename : Urn -> string;
  urn_parent : Urn -> string;
  urn_is_dir : Urn -> bool;
  (** [Urn.normalize_path] *)
  normalize_path : string -> string;
  (** [Urn.compare_path(path, href)] *)
  compare_path : string -> option string -> bool
}.

(** [Urn.separate] *)
Definition separate : string := "/".

(** The fields of [WebDAVSettings] the client reads. *)
Module WebDAVSettings.
Record t : Type := {
  hostname : string;
  root : string;
  login : string;
  password : string;
  token : string;
  cert_path : string;
  key_path : string;
  timeout : Z;
  disable_check : bool;
  override_methods : Py.dict string
}.
End WebDAVSettings.
Import WebDAVSettings.

(** ** Requests, responses and the world *)

Inductive Body : Type :=
| BodyNone
| BodyText (s : string)
| BodyXml (doc : Element)
| BodyFile (data : string)             (* an open file handle *)
(* a generator: what it yields, and the calls it makes while it is consumed *)
| BodyChunks (chunks : list string) (calls : list (string * Z * option Z)).

Record Request : Type := {
  req_method : string;
  req_url : string;
  req_auth : option (string * string);
  req_headers : Py.dict string;
  req_timeout : Z;
  req_cert : option (string * string);
  req_data : Body;
  req_stream : bool;
  req_verify : bool
}.

Record Response : Type := {
  status_code : Z;
  content : Content;
  headers : Py.dict string;
  (** what [iter_content] yields *)
  chunks : list string
}.

(** [response.headers.get(name)]: the keys are case-insensitive. *)
Definition header_get (r : Response) (name : string) : option string :=
  Py.get (map (fun kv => (Py.lower (fst kv), snd kv)) (headers r)) (Py.lower name).

Inductive LNode : Type :=
| LFile (mtime : Z) (data : string)
| LDir (mtime : Z) (names : list string).

Inductive Sink : Type :=
| SinkBuffer (name : string)
| SinkFile (path : string).

Inductive Event : Type :=
| EvRequest (action : string) (r : Request)   (* sent, and for which action *)
| EvProgress (callback : string) (current : Z) (total : option Z)
| EvWrite (to : Sink) (chunk : string)
| EvPrint (s : string)
| EvPipInstall.

(** What the transport raises when no response arrives:
    [requests.ConnectionError], or another [requests.RequestException]. *)
Inductive TransportError : Type :=
| ConnectionError (cause : string)
| RequestException (cause : string).

Record World : Type := {
  (** the server, as a function of the requests it has seen *)
  server : list Request -> Request -> TransportError + Response;
  (** the local file system, by path *)
  lfs : string -> option LNode;
  (** the time new files are stamped with *)
  clock : Z;
  trace : list Event
}.

(** The subprocesses [pip_install] starts: what [pip] leaves of the local
    files it finds. *)
Class Subprocess := {
  pip : (string -> option LNode) -> (string -> option LNode)
}.

Definition request_of (e : Event) : option Request :=
  match e with EvRequest _ r => Some r | _ => None end.

Fixpoint requests_of (t : list Event) : list Request :=
  match t with
  | [] => []
  | e :: r =>
      match request_of e with
      | Some q => q :: requests_of r
      | None => requests_of r
      end
  end.

(** The requests sent so far, oldest first. *)
Definition sent (w : World) : list Request := requests_of (trace w).

Definition emit (e : Event) (w : World) : World :=
  {| server := server w; lfs := lfs w; clock := clock w;
     trace := app (trace w) [e] |}.

Definition set_file (p : string) (n : LNode) (w : World) : World :=
  {| server := server w;
     lfs := fun q => if String.eqb q p then Some n else lfs w q;
     clock := clock w; trace := trace w |}.

(** ** The local file system: [os] and [os.path] *)

Module os.

Fixpoint rstrip_sep (rev : string) : string :=
  match rev with
  | String "/" r => rstrip_sep r
  | _ => rev
  end.

(** The node a path names: a trailing separator asks for a directory. *)
Definition node (w : World) (p : string) : option LNode :=
  if Py.endswith p "/" then
    let q := Py.rev_string (rstrip_sep (Py.rev_string p)) in
    match lfs w (if Py.truthy q then q else "/") with
    | Some (LDir m l) => Some (LDir m l)
    | _ => None
    end
  else lfs w p.

Definition exists_ (w : World) (p : string) : bool :=
  match node w p with Some _ => true | None => false end.

Definition isdir (w : World) (p : string) : bool :=
  match node w p with Some (LDir _ _) => true | _ => false end.

(** [os.listdir(p)] *)
Definition listdir (w : World) (p : string) : Exc + list string :=
  match node w p with
  | Some (LDir _ l) => inr l
  | _ => inl (OSError p)
  end.

(** [int(os.stat(p).st_mtime)] *)
Definition stat_mtime (w : World) (p : string) : Exc + Z :=
  match node w p with
  | Some (LFile m _) => inr m
  | Some (LDir m _) => inr m
  | None => inl (OSError p)
  end.

(** [open(p, 'rb')], read whole. *)
Definition read (w : World) (p : string) : Exc + string :=
  match node w p with
  | Some (LFile _ d) => inr d
  | _ => inl (OSError p)
  end.

(** [os.path.getsize(p)] of a file. *)
Definition getsize (w : World) (p : string) : Exc + Z :=
  match read w p with
  | inr d => inr (Py.len d)
  | inl e => inl e
  end.

(** The text before the last separator and the text after it. *)
Fixpoint rsplit_sep (rev : string) : string * string :=
  match rev with
  | EmptyString => (EmptyString, EmptyString)
  | String c r =>
      if Ascii.eqb c "/" then (rev, EmptyString)
      else let (head, tail) := rsplit_sep r in (head, String c tail)
  end.

(** [os.path.dirname(p)] *)
Definition dirname (p : string) : string :=
  let head := fst (rsplit_sep (Py.rev_string p)) in
  if Py.truthy (rstrip_sep head) then Py.rev_string (rstrip_sep head)
  else Py.rev_string head.

(** [os.path.basename(p)] *)
Definition basename (p : string) : string :=
  Py.rev_string (snd (rsplit_sep (Py.rev_string p))).

(** [os.mkdir(p)]: the directory is made, empty, and entered in the
    listing of the directory above it, which has to be there; the
    relative path of no directory is the working directory, kept at the
    empty path. *)
Definition mkdir (w : World) (p : string) : Exc + World :=
  let q :=
    if Py.truthy (rstrip_sep (Py.rev_string p))
    then Py.rev_string (rstrip_sep (Py.rev_string p)) else p in
  match lfs w q, lfs w (dirname q) with
  | None, Some (LDir m names) =>
      inr (set_file q (LDir (clock w) [])
             (set_file (dirname q) (LDir m (names ++ [basename q])%list) w))
  | _, _ => inl (OSError p)
  end.

End os.

(** ** The monad of methods: state and exceptions *)

Definition M (A : Type) : Type := World -> World * Result A.

Definition ret {A} (a : A) : M A := fun w => (w, inr a).

Definition raise {A} (e : Exc) : M A := fun w => (w, inl e).

Definition bind {A B} (m : M A) (k : A -> M B) : M B :=
  fun w =>
    match m w with
    | (w', inr a) => k a w'
    | (w', inl e) => (w', inl e)
    end.

Definition lift {A} (r : Result A) : M A := fun w => (w, r).

(** [try: m  except <those h answers>: h e] *)
Definition try_except {A} (m : M A) (h : Exc -> option (M A)) : M A :=
  fun w =>
    match m w with
    | (w', inl e) =>
        match h e with
        | Some k => k w'
        | None => (w', inl e)
        end
    | r => r
    end.

Definition tell (e : Event) : M unit := fun w => (emit e w, inr tt).

Declare Scope method_scope.
Delimit Scope method_scope with method.
Notation "x <- m ;; k" := (bind m (fun x => k))
  (at level 61, m at next level, right associativity) : method_scope.
Notation "m ;; k" := (bind m (fun _ => k))
  (at level 61, right associativity) : method_scope.
Local Open Scope method_scope.

(** [for x in l: body x] *)
Fixpoint for_each {A} (l : list A) (body : A -> M unit) : M unit :=
  match l with
  | [] => ret tt
  | x :: r => body x ;; for_each r body
  end.

(** A loop that carries one variable. *)
Fixpoint for_fold {A St} (l : list A) (s : St) (body : St -> A -> M St) : M St :=
  match l with
  | [] => ret s
  | x :: r => s' <- body s x ;; for_fold r s' body
  end.

(** ** The multistatus codec: [WebDavXmlUtils] *)

Record Info : Type := {
  created : option string;
  name : option string;
  size : option string;
  modified : option string;
  etag : option string;
  content_type : option string
}.

(** An entry of [parse_get_list_info_response]: the dictionary of [Info]
    with its two further keys. *)
Record ListInfo : Type := {
  li_info : Info;
  li_isdir : bool;
  li_path : string
}.

(** What [parse_free_space_response] returns: an [int], or a [str]. *)
Inductive FreeSpace : Type :=
| FreeInt (n : Z)
| FreeStr (s : string).

Module WebDavXmlUtils.
Section Codec.
Context {ext : Externals} {urn : UrnModel}.

Definition get_info_from_response (response : Element) : Info :=
  {| created := findtext_desc "{DAV:}creationdate" response;
     name := findtext_desc "{DAV:}displayname" response;
     size := findtext_desc "{DAV:}getcontentlength" response;
     modified := findtext_desc "{DAV:}getlastmodified" response;
     etag := findtext_desc "{DAV:}getetag" response;
     content_type := findtext_desc "{DAV:}getcontenttype" response |}.

(** The body of the loop of [parse_get_list_info_response]. *)
Definition list_info_of (response : Element) : list ListInfo :=
  match hd_error (findall_desc "{DAV:}href" response) with
  | None => []
  | Some href_el =>
      let path := unquote (urlsplit_path (text_of href_el)) in
      let is_dir :=
        (0 <? Z.of_nat (length (findall_desc "{DAV:}collection" response))) in
      [ {| li_info := get_info_from_response response;
           li_isdir := is_dir; li_path := path |} ]
  end.

Definition parse_get_list_info_response (content : Content) : list ListInfo :=
  match fromstring content with
  | inr tree => flat_map list_info_of (findall_desc "{DAV:}response" tree)
  | inl _ => []
  end.

(** The body of the loop of [parse_get_list_response]. *)
Definition urn_of (response : Element) : list Urn :=
  match hd_error (findall_desc "{DAV:}href" response) with
  | None => []
  | Some href_el =>
      let href := separate ++ unquote (urlsplit_path (text_of href_el)) in
      let is_dir :=
        (0 <? Z.of_nat (length (findall_desc "{DAV:}collection" response))) in
      [ mkUrn href is_dir ]
  end.

Definition parse_get_list_response (content : Content) : list Urn :=
  match fromstring content with
  | inr tree => flat_map urn_of (findall_desc "{DAV:}response" tree)
  | inl _ => []
  end.

Definition create_free_space_request_content : Element :=
  Elem "propfind" [("xmlns", "DAV:")] None
    [Elem "prop" [] None
       [Elem "quota-available-bytes" [] None [];
        Elem "quota-used-bytes" [] None []]].

(** [int(node.text)] *)
Definition int_of_text (t : option string) : Result Z :=
  match t with
  | None => inl TypeError
  | Some s => match Py.int s with Some n => inr n | None => inl ValueError end
  end.

Definition parse_free_space_response (content : Content) (hostname : string)
  : Result FreeSpace :=
  let body :=
    match fromstring content with
    | inl e => inl e
    | inr tree =>
        match find_desc "{DAV:}quota-available-bytes" tree with
        | Some node =>
            match int_of_text (text_of node) with
            | inr n => inr (FreeInt n)
            | inl e => inl e
            end
        | None => inl (MethodNotSupported "free" hostname)
        end
    end in
  match body with
  | inl TypeError => inl (MethodNotSupported "free" hostname)
  | inl XMLSyntaxError => inr (FreeStr "")
  | r => r
  end.

(** [href[len(prefix):] if href.startswith(prefix) else href] *)
Definition without_prefix (prefix href : string) : string :=
  if Py.startswith href prefix
  then String.substring (String.length prefix)
         (String.length href - String.length prefix) href
  else href.

(** The loop of [extract_response_for_path]. *)
Fixpoint first_response_for (n_path prefix path : string)
    (responses : list Element) : Result Element :=
  match responses with
  | [] => inl (RemoteResourceNotFound path)
  | resp :: rest =>
      let href := findtext_child "{DAV:}href" resp in
      if compare_path n_path href then inr resp
      else
        match href with
        | None => inl AttributeError
        | Some h =>
            if compare_path n_path (Some (without_prefix prefix h))
            then inr resp
            else first_response_for n_path prefix path rest
        end
  end.

Definition extract_response_for_path (content : Content)
    (path hostname : string) : Result Element :=
  let prefix := urlparse_path hostname in
  match fromstring content with
  | inl XMLSyntaxError => inl (MethodNotSupported "is_dir" hostname)
  | inl e => inl e
  | inr tree =>
      let responses := findall_child "{DAV:}response" tree in
      let n_path := normalize_path path in
      first_response_for n_path prefix path responses
  end.

Definition parse_info_response (content : Content) (path hostname : string)
  : Result Info :=
  match extract_response_for_path content path hostname with
  | inl e => inl e
  | inr response => inr (get_info_from_response response)
  end.

Definition parse_is_dir_response (content : Content) (path hostname : string)
  : Result bool :=
  match extract_response_for_path content path hostname with
  | inl e => inl e
  | inr response =>
      match find_desc "{DAV:}resourcetype" response with
      | None => inl (MethodNotSupported "is_dir" hostname)
      | Some resource_type =>
          match find_child "{DAV:}collection" resource_type with
          | Some _ => inr true
          | None => inr false
          end
      end
  end.

End Codec.
End WebDavXmlUtils.

(** ** Options *)

(** [get_options(option_type, from_options)], with [option_type.keys] and
    [option_type.prefix] given. *)
Definition get_options (keys : list string) (prefix : string)
    (from_options : Py.dict string) : Py.dict string :=
  fold_left
    (fun _options key =>
       let key_with_prefix := prefix ++ key in
       match Py.get from_options key, Py.get from_options key_with_prefix with
       | None, None => Py.set _options key ""
       | Some v, _ => Py.set _options key v
       | None, Some v => Py.set _options key v
       end)
    keys [].

(** ** The client: [ModuleInstaller] *)

Record Client : Type := {
  webdav : WebDAVSettings.t;
  (** [self.session.auth] *)
  session_auth : option (string * string);
  http_header : Py.dict (list string);
  requests : Py.dict string;
  timeout : Z;
  chunk_size : Z;
  verify : bool;
  (** the lock token of a [LockClient], [None] for a plain client *)
  lock_token : option string
}.

(** A [LockClient]: the client it is, and the path it locks. *)
Record LockClient : Type := {
  lock_self : Client;
  lock_path : string
}.

(** What [upload_directory] leaves out. *)
Definition lista : list string :=
  ["abi"; "utils"; "venv"; "Constants.py"; "self_mixer.py"; "idea";
   "__pycache__"; "git"; "nft.py"; "holograph_nft.py"; "eth_bridge.py";
   ".DS_Store"; "self_mixer.py"; "orbiter.py"].

Module ModuleInstaller.
Section Methods.
Context {ext : Externals} {urn : UrnModel} {sub : Subprocess}.

Definition root : string := "/".

Definition default_http_header : Py.dict (list string) :=
  [("list", ["Accept: */*"; "Depth: 1"]);
   ("free", ["Accept: */*"; "Depth: 0"; "Content-Type: text/xml"]);
   ("copy", ["Accept: */*"]);
   ("move", ["Accept: */*"]);
   ("mkdir", ["Accept: */*"; "Connection: Keep-Alive"]);
   ("clean", ["Accept: */*"; "Connection: Keep-Alive"]);
   ("check", ["Accept: */*"]);
   ("info", ["Accept: */*"; "Depth: 1"]);
   ("get_property",
     ["Accept: */*"; "Depth: 1";
      "Content-Type: application/x-www-form-urlencoded"]);
   ("set_property",
     ["Accept: */*"; "Depth: 1";
      "Content-Type: application/x-www-form-urlencoded"])].

Definition default_requests : Py.dict string :=
  [("options", "OPTIONS"); ("download", "GET"); ("upload", "PUT");
   ("copy", "COPY"); ("move", "MOVE"); ("mkdir", "MKCOL");
   ("clean", "DELETE"); ("check", "HEAD"); ("list", "PROPFIND");
   ("free", "PROPFIND"); ("info", "PROPFIND"); ("publish", "PROPPATCH");
   ("unpublish", "PROPPATCH"); ("published", "PROPPATCH");
   ("get_property", "PROPFIND"); ("set_property", "PROPPATCH");
   ("lock", "LOCK"); ("unlock", "UNLOCK")].

(** [__init__], from the settings object [WebDAVSettings(...)] built. *)
Definition init (settings : WebDAVSettings.t) : Client :=
  {| webdav := settings;
     session_auth := None;
     http_header := default_http_header;
     requests :=
       fold_left (fun d kv => Py.set d (fst kv) (snd kv))
         (override_methods settings) default_requests;
     timeout := WebDAVSettings.timeout settings;
     chunk_size := 65536;
     verify := true;
     lock_token := None |}.

(** The last line of [get_headers]: the dictionary of the [Key: value]
    strings; a string without a colon is a [ValueError]. *)
Fixpoint header_pairs (hs : list string) : Result (list (string * string)) :=
  match hs with
  | [] => inr []
  | h :: r =>
      match Py.split_colon h with
      | None => inl ValueError
      | Some (k, v) =>
          match header_pairs r with
          | inl e => inl e
          | inr ps => inr ((Py.strip k, Py.strip v) :: ps)
          end
      end
  end.

(** The list of header strings [get_headers] builds. *)
Definition header_lines (c : Client) (action : string)
    (headers_ext : option (list string)) : list string :=
  let headers :=
    match Py.get (http_header c) action with
    | Some h => h
    | None => []
    end in
  let headers :=
    match headers_ext with
    | Some (x :: l) => app headers (x :: l)
    | _ => headers
    end in
  if Py.truthy (token (webdav c))
  then app headers ["Authorization: Bearer " ++ token (webdav c)]
  else headers.

Definition get_headers (c : Client) (action : string)
    (headers_ext : option (list string)) : Result (Py.dict string) :=
  match header_pairs (header_lines c action headers_ext) with
  | inl e => inl e
  | inr ps => inr (Py.of_pairs ps)
  end.

(** [LockClient.get_headers] *)
Definition lock_get_headers (lock : string) (c : Client) (action : string)
    (headers_ext : option (list string)) : Result (Py.dict string) :=
  match get_headers c action headers_ext with
  | inl e => inl e
  | inr headers =>
      let headers := Py.set headers "Lock-Token" lock in
      inr (Py.set headers "If" ("(" ++ lock ++ ")"))
  end.

(** [self.get_headers], by the class of [self]. *)
Definition self_get_headers (c : Client) :=
  match lock_token c with
  | None => get_headers c
  | Some lock => lock_get_headers lock c
  end.

Definition get_url (c : Client) (path : string) : string :=
  hostname (webdav c) ++ WebDAVSettings.root (webdav c) ++ path.

Definition get_full_path (c : Client) (u : Urn) : string :=
  unquote (WebDAVSettings.root (webdav c)) ++ urn_path u.

(** The [auth] argument of [execute_request]. *)
Definition request_auth (c : Client) : option (string * string) :=
  if (negb (Py.truthy (token (webdav c)))
      && match session_auth c with None => true | Some _ => false end)
     && (Py.truthy (login (webdav c)) && Py.truthy (password (webdav c)))
  then Some (login (webdav c), password (webdav c))
  else None.

(** The arguments [execute_request] passes to [session.request]. *)
Definition build_request (c : Client) (action path : string) (data : Body)
    (headers_ext : option (list string)) : Result Request :=
  match Py.get (requests c) action with
  | None => inl KeyError
  | Some method =>
      match self_get_headers c action headers_ext with
      | inl e => inl e
      | inr hdrs =>
          inr {| req_method := method;
                 req_url := get_url c path;
                 req_auth := request_auth c;
                 req_headers := hdrs;
                 req_timeout := timeout c;
                 req_cert :=
                   if Py.truthy (cert_path (webdav c))
                      && Py.truthy (key_path (webdav c))
                   then Some (cert_path (webdav c), key_path (webdav c))
                   else None;
                 req_data := data;
                 req_stream := true;
                 req_verify := verify c |}
      end
  end.

(** [self.session.request(...)]: the request reaches the server, which
    answers or fails. *)
Definition session_request (action : string) (r : Request) : M Response :=
  fun w =>
    let w1 := emit (EvRequest action r) w in
    let w2 :=
      match req_data r with
      | BodyChunks _ calls =>
          fold_left (fun w' k =>
                       let '(cb, current, total) := k in
                       emit (EvProgress cb current total) w')
            calls w1
      | _ => w1
      end in
    (w2,
     match server w (sent w) r with
     | inl (ConnectionError cause) => inl (RequestsConnectionError cause)
     | inl (RequestException cause) => inl (RequestsRequestException cause)
     | inr response => inr response
     end).

Definition execute_request (c : Client) (action path : string) (data : Body)
    (headers_ext : option (list string)) : M Response :=
  req <- lift (build_request c action path data headers_ext) ;;
  response <- session_request action req ;;
  if status_code response =? 507 then raise NotEnoughSpace
  else if status_code response =? 404 then raise (RemoteResourceNotFound path)
  else if status_code response =? 423 then raise (ResourceLocked path)
  else if status_code response =? 405
       then raise (MethodNotSupported action (hostname (webdav c)))
  else if status_code response >=? 400
       then raise (ResponseErrorCode (get_url c path) (status_code response)
                     (content response))
  else ret response.

(** The decorator of the public methods. *)
Definition wrap_connection_error {A} (c : Client) (fn : M A) : M A :=
  try_except fn (fun e =>
    match e with
    | RequestsConnectionError _ => Some (raise (NoConnection (hostname (webdav c))))
    | RequestsRequestException re => Some (raise (ConnectionException re))
    | _ => None
    end).

Definition check (c : Client) (remote_path : string) : M bool :=
  wrap_connection_error c (
    if disable_check (webdav c) then ret true
    else
      let u := mkUrn remote_path false in
      try_except
        (response <- execute_request c "check" (urn_quote u) BodyNone None ;;
         if status_code response =? 200 then ret true else ret false)
        (fun e =>
           match e with
           | RemoteResourceNotFound _ => Some (ret false)
           | _ => None
           end)).

(** [depth] bounds the nesting of the calls of the methods that call
    themselves or one another, as the interpreter's recursion limit does:
    at the bottom such a call raises [RecursionError]. *)
Fixpoint mkdir (depth : nat) (c : Client) (remote_path : string)
    (recursive : bool) : M bool :=
  match depth with
  | O => raise RecursionError
  | S depth' =>
      wrap_connection_error c (
        let directory_urn := mkUrn remote_path true in
        exists_ <- check c (urn_parent directory_urn) ;;
        (if negb exists_ then
           if recursive
           then mkdir depth' c (urn_parent directory_urn) true ;; ret tt
           else raise (RemoteParentNotFound (urn_path directory_urn))
         else ret tt) ;;
        try_except
          (response <- execute_request c "mkdir" (urn_quote directory_urn)
                         BodyNone None ;;
           ret ((status_code response =? 200) || (status_code response =? 201)))
          (fun e =>
             match e with
             | MethodNotSupported _ _ => Some (ret true)
             | _ => None
             end))
  end.

Definition clean (c : Client) (remote_path : string) : M unit :=
  wrap_connection_error c (
    let u := mkUrn remote_path false in
    execute_request c "clean" (urn_quote u) BodyNone None ;; ret tt).

(** The type of what [list] returns, by [get_info]. *)
Definition ListOut (get_info : bool) : Type :=
  if get_info then list ListInfo else list string.

Definition list_ (c : Client) (remote_path : string)
    (get_info recursive : bool) : M (ListOut get_info) :=
  wrap_connection_error c (
    let headers := if recursive then ["Depth:infinity"] else [] in
    let directory_urn := mkUrn remote_path true in
    missing <-
      (if negb (String.eqb (urn_path directory_urn) root)
       then found <- check c (urn_path directory_urn) ;; ret (negb found)
       else ret false) ;;
    (if missing : bool
     then raise (RemoteResourceNotFound (urn_path directory_urn))
     else ret tt) ;;
    let path := normalize_path (get_full_path c directory_urn) in
    response <- execute_request c "list" (urn_quote directory_urn) BodyNone
                  (Some headers) ;;
    match get_info return M (ListOut get_info) with
    | true =>
        let subfiles :=
          WebDavXmlUtils.parse_get_list_info_response (content response) in
        ret (filter (fun subfile =>
                       negb (compare_path path (Some (li_path subfile))))
               subfiles)
    | false =>
        let urns := WebDavXmlUtils.parse_get_list_response (content response) in
        ret (map urn_filename
               (filter (fun u => negb (compare_path path (Some (urn_path u))))
                  urns))
    end).

Definition free (c : Client) : M FreeSpace :=
  wrap_connection_error c (
    let data := WebDavXmlUtils.create_free_space_request_content in
    response <- execute_request c "free" "" (BodyXml data) None ;;
    lift (WebDavXmlUtils.parse_free_space_response (content response)
            (hostname (webdav c)))).

Definition _check_remote_resource (c : Client) (remote_path : string)
    (u : Urn) : M unit :=
  a <- check c (urn_path u) ;;
  if a then ret tt
  else
    b <- check c (urn_path (mkUrn remote_path true)) ;;
    if b then ret tt else raise (RemoteResourceNotFound remote_path).

Definition info (c : Client) (remote_path : string) : M Info :=
  wrap_connection_error c (
    let u := mkUrn remote_path false in
    _check_remote_resource c remote_path u ;;
    response <- execute_request c "info" (urn_quote u) BodyNone None ;;
    let path := get_full_path c u in
    lift (WebDavXmlUtils.parse_info_response (content response) path
            (hostname (webdav c)))).

Definition is_dir (c : Client) (remote_path : string) : M bool :=
  wrap_connection_error c (
    let u := mkUrn remote_path false in
    _check_remote_resource c remote_path u ;;
    response <- execute_request c "info" (urn_quote u) BodyNone
                  (Some ["Depth: 0"]) ;;
    let path := get_full_path c u in
    lift (WebDavXmlUtils.parse_is_dir_response (content response) path
            (hostname (webdav c)))).

(** *** Local helpers *)

(** Reads the local file system. *)
Definition ask {A} (f : World -> A) : M A := fun w => (w, inr (f w)).

Definition ask_result {A} (f : World -> Result A) : M A := fun w => (w, f w).

(** The module's [listdir]. *)
Definition listdir (directory : string) : M (list string) :=
  fun w =>
    match os.listdir w directory with
    | inl e => (w, inl e)
    | inr names =>
        (w, inr (map (fun filename =>
                        let file_path := Py.path_join directory filename in
                        if os.isdir w file_path then filename ++ "/"
                        else filename)
                   names))
    end.

(** [if callable(progress): progress(current, total, ...)] *)
Definition call_progress (progress : option string) (current : Z)
    (total : option Z) : M unit :=
  match progress with
  | Some cb => tell (EvProgress cb current total)
  | None => ret tt
  end.

(** [int(clen_str) if clen_str is not None else None] *)
Definition total_of (clen_str : option string) : Result (option Z) :=
  match clen_str with
  | Some s =>
      match Py.int s with
      | Some n => inr (Some n)
      | None => inl ValueError
      end
  | None => inr None
  end.

(** [open(p, 'wb')]: the file is created, or emptied, in the directory
    above it, which has to be there and lists a new file from then on; a
    path that names a directory, or ends in the separator, is refused. *)
Definition open_wb (p : string) : M unit :=
  fun w =>
    if os.isdir w p || Py.endswith p "/" then (w, inl (OSError p))
    else
      match lfs w (os.dirname p) with
      | Some (LDir m names) =>
          let w1 :=
            match lfs w p with
            | None =>
                set_file (os.dirname p)
                  (LDir m (app names [os.basename p])) w
            | Some _ => w
            end in
          (set_file p (LFile (clock w) "") w1, inr tt)
      | _ => (w, inl (OSError p))
      end.

(** [sink.write(chunk)] *)
Definition write (to : Sink) (chunk : string) : M unit :=
  fun w =>
    let w1 := emit (EvWrite to chunk) w in
    match to with
    | SinkBuffer _ => (w1, inr tt)
    | SinkFile p =>
        match lfs w1 p with
        | Some (LFile m d) => (set_file p (LFile m (d ++ chunk)) w1, inr tt)
        | _ => (set_file p (LFile (clock w1) chunk) w1, inr tt)
        end
    end.

(** The loop over [response.iter_content(chunk_size=self.chunk_size)] of
    [download_from] and [download_file]. *)
Definition write_chunks (c : Client) (to : Sink) (progress : option string)
    (total : option Z) (response : Response) (current : Z) : M Z :=
  for_fold (chunks response) current (fun current chunk =>
    write to chunk ;;
    let current := current + chunk_size c in
    call_progress progress current total ;;
    ret current).

(** *** Download *)

Definition download_from (c : Client) (buff remote_path : string)
    (progress : option string) : M unit :=
  wrap_connection_error c (
    let u := mkUrn remote_path false in
    d <- is_dir c (urn_path u) ;;
    (if d : bool then raise (OptionNotValid "remote_path" remote_path)
     else ret tt) ;;
    found <- check c (urn_path u) ;;
    (if negb found then raise (RemoteResourceNotFound (urn_path u))
     else ret tt) ;;
    response <- execute_request c "download" (urn_quote u) BodyNone None ;;
    let clen_str := header_get response "content-length" in
    total <- lift (total_of clen_str) ;;
    let current := 0 in
    call_progress progress current total ;;
    write_chunks c (SinkBuffer buff) progress total response current ;;
    ret tt).

Definition download_file (c : Client) (remote_path local_path : string)
    (progress : option string) : M unit :=
  wrap_connection_error c (
    let u := mkUrn remote_path false in
    d <- is_dir c (urn_path u) ;;
    (if d : bool then raise (OptionNotValid "remote_path" remote_path)
     else ret tt) ;;
    ld <- ask (fun w => os.isdir w local_path) ;;
    (if ld : bool then raise (OptionNotValid "local_path" local_path)
     else ret tt) ;;
    found <- check c (urn_path u) ;;
    (if negb found then raise (RemoteResourceNotFound (urn_path u))
     else ret tt) ;;
    open_wb local_path ;;
    response <- execute_request c "download" (urn_quote u) BodyNone None ;;
    let clen_str := header_get response "content-length" in
    total <- lift (total_of clen_str) ;;
    let current := 0 in
    call_progress progress current total ;;
    write_chunks c (SinkFile local_path) progress total response current ;;
    ret tt).

(** *** Upload *)

(** [file_object.read(n)]: what is read, and what is left. *)
Definition file_read (n : Z) (rest : string) : string * string :=
  if n <? 0 then (rest, "")
  else
    let k := Z.to_nat n in
    (String.substring 0 k rest,
     String.substring k (String.length rest - k) rest).

(** The [while] loop of [read_in_chunks]; [steps] bounds its turns. *)
Fixpoint read_loop (steps : nat) (cb : string) (n : Z) (rest : string)
    (current total : Z) : list string * list (string * Z * option Z) :=
  match steps with
  | O => ([], [])
  | S steps' =>
      if current <? total then
        let (data, rest') := file_read n rest in
        let call := (cb, current, Some total) in
        let current := current + Py.len data in
        if negb (Py.truthy data) then ([], [call])
        else
          let (ch, calls) := read_loop steps' cb n rest' current total in
          (data :: ch, call :: calls)
      else ([], [])
  end.

(** The generator [read_in_chunks(local_file)] of [upload_file]. *)
Definition read_in_chunks (c : Client) (cb : string) (total : Z)
    (file_object : string) : Body :=
  let (ch, calls) :=
    read_loop (S (String.length file_object)) cb (chunk_size c)
      file_object 0 total in
  BodyChunks ch ((cb, 0, Some total) :: calls).

Definition print (isprint : bool) (s : string) : M unit :=
  if isprint then tell (EvPrint s) else ret tt.

(** [depth] is what is left for the calls of [mkdir] below. *)
Definition upload_file (depth : nat) (c : Client)
    (remote_path local_path : string) (progress : option string)
    (force isprint : bool) : M unit :=
  wrap_connection_error c (
    present <- ask (fun w => os.exists_ w local_path) ;;
    (if negb present then raise (LocalResourceNotFound local_path)
     else ret tt) ;;
    let u := mkUrn remote_path false in
    (if urn_is_dir u then raise (OptionNotValid "remote_path" remote_path)
     else ret tt) ;;
    ld <- ask (fun w => os.isdir w local_path) ;;
    (if ld : bool then raise (OptionNotValid "local_path" local_path)
     else ret tt) ;;
    found <- check c (urn_parent u) ;;
    (if negb found then
       if force then mkdir depth c (urn_parent u) true ;; ret tt
       else raise (RemoteParentNotFound (urn_path u))
     else ret tt) ;;
    print isprint "Installing packages" ;;
    local_file <- ask_result (fun w => os.read w local_path) ;;
    total <- ask_result (fun w => os.getsize w local_path) ;;
    print isprint "Installed packages" ;;
    match progress with
    | Some cb =>
        execute_request c "upload" (urn_quote u)
          (read_in_chunks c cb total local_file) None ;; ret tt
    | None =>
        execute_request c "upload" (urn_quote u) (BodyFile local_file) None ;;
        ret tt
    end).

(** [pip_install]: the subprocesses run and change the local files;
    whatever is raised is swallowed. *)
Definition pip_install : M unit :=
  fun w =>
    (emit EvPipInstall
       {| server := server w; lfs := pip (lfs w); clock := clock w;
          trace := trace w |},
     inr tt).

(** The first loop in the body of [upload_directory]'s loop. *)
Definition aboba (resource_name : string) : bool :=
  existsb (fun i => Py.contains i resource_name) lista.

Fixpoint upload (depth : nat) (c : Client) (remote_path local_path : string)
    (progress : option string) (isprint : bool) {struct depth} : M unit :=
  match depth with
  | O => raise RecursionError
  | S depth' =>
      ld <- ask (fun w => os.isdir w local_path) ;;
      if ld : bool
      then upload_directory depth' c remote_path local_path progress isprint
      else upload_file depth' c remote_path local_path progress false isprint
  end
with upload_directory (depth : nat) (c : Client)
    (remote_path local_path : string) (progress : option string)
    (isprint : bool) {struct depth} : M unit :=
  match depth with
  | O => raise RecursionError
  | S depth' =>
      let u := mkUrn remote_path true in
      (if negb (urn_is_dir u)
       then raise (OptionNotValid "remote_path" remote_path) else ret tt) ;;
      ld <- ask (fun w => os.isdir w local_path) ;;
      (if negb ld then raise (OptionNotValid "local_path" local_path)
       else ret tt) ;;
      present <- ask (fun w => os.exists_ w local_path) ;;
      (if negb present then raise (LocalResourceNotFound local_path)
       else ret tt) ;;
      found <- check c (urn_path u) ;;
      (if found : bool then clean c (urn_path u) else ret tt) ;;
      mkdir depth' c remote_path false ;;
      names <- listdir local_path ;;
      for_each names (fun resource_name =>
        if aboba resource_name then ret tt
        else
          let _remote_path :=
            Py.drop_backslash (urn_path u ++ resource_name) in
          let _local_path := Py.path_join local_path resource_name in
          upload depth' c _remote_path _local_path progress isprint) ;;
      if isprint then pip_install else ret tt
  end.

(** *** Synchronisation *)

Definition is_local_more_recent (c : Client)
    (local_path remote_path : string) : M (option bool) :=
  try_except
    (remote_info <- info c remote_path ;;
     let remote_last_mod_date := modified remote_info in
     remote_last_mod_date_unix_ts <-
       lift (dateutil_timestamp remote_last_mod_date) ;;
     local_last_mod_date_unix_ts <-
       ask_result (fun w => os.stat_mtime w local_path) ;;
     ret (Some (remote_last_mod_date_unix_ts <? local_last_mod_date_unix_ts)))
    (fun e =>
       match e with
       | ValueError | RuntimeWarning | KeyError => Some (ret None)
       | _ => None
       end).

Definition _validate_remote_directory (c : Client) (u : Urn) : M unit :=
  d <- is_dir c (urn_path u) ;;
  if negb d then raise (OptionNotValid "remote_path" (urn_path u))
  else ret tt.

Definition _validate_local_directory (local_directory : string) : M unit :=
  ld <- ask (fun w => os.isdir w local_directory) ;;
  (if negb ld then raise (OptionNotValid "local_path" local_directory)
   else ret tt) ;;
  present <- ask (fun w => os.exists_ w local_directory) ;;
  if negb present then raise (LocalResourceNotFound local_directory)
  else ret tt.

(** [prune(src, exp)] *)
Fixpoint prune (src : list string) (exp : string) : Result (list string) :=
  match src with
  | [] => inr []
  | item :: r =>
      match re_sub_empty exp item with
      | inl e => inl e
      | inr x =>
          match prune r exp with
          | inl e => inl e
          | inr xs => inr (x :: xs)
          end
      end
  end.

(** [not x] for what [is_local_more_recent] returns. *)
Definition not_ (x : option bool) : bool :=
  match x with Some true => false | _ => true end.

(** The body of the loop of [push]; [recurse] is [self.push]. *)
Definition push_entry (recurse : string -> string -> M bool) (depth : nat)
    (c : Client) (u : Urn) (local_directory : string)
    (remote_resource_names : list string) (updated : bool)
    (local_resource_name : string) : M bool :=
  let local_path := Py.path_join local_directory local_resource_name in
  let remote_path := urn_path u ++ local_resource_name in
  ld <- ask (fun w => os.isdir w local_path) ;;
  if ld : bool then
    found <- check c remote_path ;;
    (if negb found then mkdir depth c remote_path false ;; ret tt
     else ret tt) ;;
    result <- recurse remote_path local_path ;;
    ret (updated || result)
  else
    skip <-
      (if Py.mem local_resource_name remote_resource_names
       then r <- is_local_more_recent c local_path remote_path ;;
            ret (not_ r)
       else ret false) ;;
    if skip : bool then ret updated
    else
      upload_file depth c remote_path local_path None false true ;;
      ret true.

Fixpoint push (depth : nat) (c : Client)
    (remote_directory local_directory : string) : M bool :=
  match depth with
  | O => raise RecursionError
  | S depth' =>
      let updated := false in
      let u := mkUrn remote_directory true in
      _validate_remote_directory c u ;;
      _validate_local_directory local_directory ;;
      paths <- list_ c (urn_path u) false false ;;
      let expression := "^" ++ urn_path u in
      remote_resource_names <- lift (prune paths expression) ;;
      names <- listdir local_directory ;;
      for_fold names updated
        (push_entry (push depth' c) depth' c u local_directory
           remote_resource_names)
  end.

(** *** The other transfers *)

(** What is returned stands for the generator of the chunks. *)
Definition download_iter (c : Client) (remote_path : string)
  : M (list string) :=
  wrap_connection_error c (
    let u := mkUrn remote_path false in
    d <- is_dir c (urn_path u) ;;
    (if d : bool then raise (OptionNotValid "remote_path" remote_path)
     else ret tt) ;;
    found <- check c (urn_path u) ;;
    (if negb found then raise (RemoteResourceNotFound (urn_path u))
     else ret tt) ;;
    response <- execute_request c "download" (urn_quote u) BodyNone None ;;
    ret (chunks response)).

(** [buff] is the content of the buffer. *)
Definition upload_to (c : Client) (buff remote_path : string) : M unit :=
  wrap_connection_error c (
    let u := mkUrn remote_path false in
    (if urn_is_dir u then raise (OptionNotValid "remote_path" remote_path)
     else ret tt) ;;
    found <- check c (urn_parent u) ;;
    (if negb found then raise (RemoteParentNotFound (urn_path u))
     else ret tt) ;;
    execute_request c "upload" (urn_quote u) (BodyFile buff) None ;;
    ret tt).

Definition copy (c : Client) (remote_path_from remote_path_to : string)
    (depth : Z) : M unit :=
  wrap_connection_error c (
    let urn_from := mkUrn remote_path_from false in
    found <- check c (urn_path urn_from) ;;
    (if negb found then raise (RemoteResourceNotFound (urn_path urn_from))
     else ret tt) ;;
    let urn_to := mkUrn remote_path_to false in
    found <- check c (urn_parent urn_to) ;;
    (if negb found then raise (RemoteParentNotFound (urn_path urn_to))
     else ret tt) ;;
    let headers := ["Destination: " ++ get_url c (urn_quote urn_to)] in
    d <- is_dir c (urn_path urn_from) ;;
    let headers :=
      if d : bool then app headers ["Depth: " ++ Py.str_of_int depth]
      else headers in
    execute_request c "copy" (urn_quote urn_from) BodyNone (Some headers) ;;
    ret tt).

Definition move (c : Client) (remote_path_from remote_path_to : string)
    (overwrite : bool) : M unit :=
  wrap_connection_error c (
    let urn_from := mkUrn remote_path_from false in
    found <- check c (urn_path urn_from) ;;
    (if negb found then raise (RemoteResourceNotFound (urn_path urn_from))
     else ret tt) ;;
    let urn_to := mkUrn remote_path_to false in
    found <- check c (urn_parent urn_to) ;;
    (if negb found then raise (RemoteParentNotFound (urn_path urn_to))
     else ret tt) ;;
    let header_destination :=
      "Destination: " ++ get_url c (urn_quote urn_to) in
    let header_overwrite :=
      "Overwrite: " ++ (if overwrite then "T" else "F") in
    execute_request c "move" (urn_quote urn_from) BodyNone
      (Some [header_destination; header_overwrite]) ;;
    ret tt).

(** *** [pull] and [sync] *)

(** [os.mkdir(p)] *)
Definition os_mkdir (p : string) : M unit :=
  fun w =>
    match os.mkdir w p with
    | inl e => (w, inl e)
    | inr w' => (w', inr tt)
    end.

(** [bool(x)] for what [is_local_more_recent] returns. *)
Definition truth (x : option bool) : bool :=
  match x with Some true => true | _ => false end.

(** The body of the loop of [pull]; [recurse] is [self.pull]. *)
Definition pull_entry (recurse : string -> string -> M bool) (c : Client)
    (u : Urn) (local_directory : string) (local_resource_names : list string)
    (updated : bool) (remote_resource_name : string) : M bool :=
  if Py.endswith (urn_path u) remote_resource_name then ret updated
  else
    let local_path := Py.path_join local_directory remote_resource_name in
    let remote_path := urn_path u ++ remote_resource_name in
    let remote_urn := mkUrn remote_path false in
    if Py.endswith (urn_path remote_urn) "/" then
      present <- ask (fun w => os.exists_ w local_path) ;;
      updated <-
        (if negb present then os_mkdir local_path ;; ret true
         else ret updated) ;;
      result <- recurse remote_path local_path ;;
      ret (updated || result)
    else
      skip <-
        (if Py.mem remote_resource_name local_resource_names
         then r <- is_local_more_recent c local_path remote_path ;;
              ret (truth r)
         else ret false) ;;
      if skip : bool then ret updated
      else
        download_file c remote_path local_path None ;;
        ret true.

Fixpoint pull (depth : nat) (c : Client)
    (remote_directory local_directory : string) : M bool :=
  match depth with
  | O => raise RecursionError
  | S depth' =>
      let updated := false in
      let u := mkUrn remote_directory true in
      _validate_remote_directory c u ;;
      _validate_local_directory local_directory ;;
      local_resource_names <- listdir local_directory ;;
      paths <- list_ c (urn_path u) false false ;;
      let expression := "^" ++ remote_directory in
      remote_resource_names <- lift (prune paths expression) ;;
      for_fold remote_resource_names updated
        (pull_entry (pull depth' c) c u local_directory local_resource_names)
  end.

Definition sync (depth : nat) (c : Client)
    (remote_directory local_directory : string) : M unit :=
  pull depth c remote_directory local_directory ;;
  push depth c remote_directory local_directory ;;
  ret tt.

(** *** Locks *)

(** [LockClient.__init__]: a client of its own, with the session, the
    settings and the methods of [client]. *)
Definition lock_client (client : Client) (path lock : string) : LockClient :=
  {| lock_self :=
       {| webdav := webdav client;
          session_auth := session_auth client;
          http_header := default_http_header;
          requests := requests client;
          timeout := WebDAVSettings.timeout (webdav client);
          chunk_size := 65536;
          verify := true;
          lock_token := Some lock |};
     lock_path := path |}.

Definition lock (c : Client) (remote_path : string) (timeout : Z)
  : M LockClient :=
  wrap_connection_error c (
    let headers_ext :=
      if 0 <? timeout
      then Some ["Timeout: Second-" ++ Py.str_of_int timeout] else None in
    response <-
      execute_request c "lock" (urn_quote (mkUrn remote_path false))
        (BodyText
           "<D:lockinfo xmlns:D='DAV:'><D:lockscope><D:exclusive/></D:lockscope><D:locktype><D:write/></D:locktype></D:lockinfo>")
        headers_ext ;;
    match header_get response "Lock-Token" with
    | None => raise KeyError
    | Some lock =>
        ret (lock_client c (urn_quote (mkUrn remote_path false)) lock)
    end).

(** [LockClient.__exit__] *)
Definition lock_exit (l : LockClient) : M unit :=
  execute_request (lock_self l) "unlock" (lock_path l) BodyNone None ;;
  tell (EvPrint "Installed").

(** [with client.lock(remote_path, timeout) as l: body(l)] *)
Definition with_lock {A} (c : Client) (remote_path : string) (timeout : Z)
    (body : Client -> M A) : M A :=
  l <- lock c remote_path timeout ;;
  fun w =>
    match body (lock_self l) w with
    | (w1, inr a) =>
        match lock_exit l w1 with
        | (w2, inr _) => (w2, inr a)
        | (w2, inl e) => (w2, inl e)
        end
    | (w1, inl e) =>
        match lock_exit l w1 with
        | (w2, inr _) => (w2, inl e)
        | (w2, inl e') => (w2, inl e')
        end
    end.

End Methods.
End ModuleInstaller.

(** ** The path model *)

Module SpecUrn.

(** The segments of a path: what stands between separators. *)
Fixpoint segments_from (cur : string) (s : string) : list string :=
  match s with
  | EmptyString => if Py.truthy cur then [cur] else []
  | String c r =>
      if Ascii.eqb c "/" then
        if Py.truthy cur then cur :: segments_from "" r
        else segments_from "" r
      else segments_from (cur ++ String c "") r
  end.

Definition segments (s : string) : list string := segments_from "" s.

(** Modelled from the spec: [Urn.__init__] of installer/urn.py, which is
    not in the sources.  A normalized absolute path: a single leading
    separator, duplicate separators collapsed, a trailing separator
    exactly for a directory (the hint, or a path that ends in one). *)
Definition make (path : string) (directory : bool) : string :=
  let body := String.concat "/" (segments path) in
  if Py.truthy body then
    if directory || Py.endswith path "/" then "/" ++ body ++ "/"
    else "/" ++ body
  else "/".

Definition hex_digit (n : nat) : ascii :=
  if (n <? 10)%nat then ascii_of_nat (48 + n) else ascii_of_nat (55 + n).

Definition is_unreserved (c : ascii) : bool :=
  let n := nat_of_ascii c in
  ((48 <=? n) && (n <=? 57) || (65 <=? n) && (n <=? 90)
   || (97 <=? n) && (n <=? 122)
   || (n =? 45) || (n =? 46) || (n =? 95) || (n =? 126) || (n =? 47))%nat.

(** Modelled from the spec: [Urn.quote] of installer/urn.py, the
    percent-encoding of the reserved characters of the path. *)
Fixpoint quote (s : string) : string :=
  match s with
  | EmptyString => EmptyString
  | String c r =>
      if is_unreserved c then String c (quote r)
      else
        let n := nat_of_ascii c in
        String "%" (String (hex_digit (n / 16))
                      (String (hex_digit (n mod 16)) (quote r)))
  end.

(** Modelled from the spec: [Urn.filename] of installer/urn.py, the last
    segment of the path, without separators. *)
Definition filename (u : string) : string := last (segments u) "".

(** Modelled from the spec: [Urn.parent] of installer/urn.py, the
    normalized path one level up. *)
Definition parent (u : string) : string :=
  make (String.concat "/" (removelast (segments u))) true.

(** Modelled from the spec: [Urn.is_dir] of installer/urn.py, the
    directory flag: the path ends in a separator. *)
Definition is_dir (u : string) : bool := Py.endswith u "/".

(** Modelled from the spec: [Urn.normalize_path] of installer/urn.py. *)
Definition normalize_path (p : string) : string := make p false.

(** Modelled from the spec: [Urn.compare_path] of installer/urn.py: the
    two paths name the same node, a trailing separator apart. *)
Definition compare_path (a : string) (b : option string) : bool :=
  match b with
  | None => false
  | Some b =>
      if list_eq_dec string_dec (segments a) (segments b) then true else false
  end.

End SpecUrn.

Definition spec_urn : UrnModel := {|
  Urn := string;
  mkUrn := SpecUrn.make;
  urn_path := fun u => u;
  urn_quote := SpecUrn.quote;
  urn_filename := SpecUrn.filename;
  urn_parent := SpecUrn.parent;
  urn_is_dir := SpecUrn.is_dir;
  normalize_path := SpecUrn.normalize_path;
  compare_path := SpecUrn.compare_path
|}.

(** ** The libraries, on the inputs of the scenarios below *)

Module Lib.

Definition hex_value (c : ascii) : option nat :=
  let n := nat_of_ascii c in
  if ((48 <=? n) && (n <=? 57))%nat then Some (n - 48)%nat
  else if ((65 <=? n) && (n <=? 70))%nat then Some (n - 55)%nat
  else if ((97 <=? n) && (n <=? 102))%nat then Some (n - 87)%nat
  else None.

(** [urllib.parse.unquote] on single-byte escapes. *)
Fixpoint unquote (s : string) : string :=
  match s with
  | String "%" (String a (String b r) as r0) =>
      match hex_value a, hex_value b with
      | Some x, Some y => String (ascii_of_nat (16 * x + y)) (unquote r)
      | _, _ => String "%" (unquote r0)
      end
  | String c r => String c (unquote r)
  | EmptyString => EmptyString
  end.

(** The text before the first [?] or [#]. *)
Fixpoint before_query (s : string) : string :=
  match s with
  | EmptyString => EmptyString
  | String c r =>
      if Ascii.eqb c "?" || Ascii.eqb c "#" then EmptyString
      else String c (before_query r)
  end.

(** The text from the first separator on. *)
Fixpoint from_separator (s : string) : string :=
  match s with
  | EmptyString => EmptyString
  | String c r => if Ascii.eqb c "/" then s else from_separator r
  end.

(** What follows [scheme://], when the text has a scheme. *)
Fixpoint after_scheme (s : string) : option string :=
  match s with
  | String ":" (String "/" (String "/" r)) => Some r
  | String c r =>
      if Ascii.eqb c "/" then None else after_scheme r
  | EmptyString => None
  end.

(** [urlsplit(s).path] for [scheme://host/path?query#fragment] and for a
    bare path. *)
Definition url_path (s : string) : string :=
  match after_scheme s with
  | Some r => before_query (from_separator r)
  | None => before_query s
  end.

Definition month (m : string) : option Z :=
  if String.eqb m "Jan" then Some 1 else if String.eqb m "Feb" then Some 2
  else if String.eqb m "Mar" then Some 3 else if String.eqb m "Apr" then Some 4
  else if String.eqb m "May" then Some 5 else if String.eqb m "Jun" then Some 6
  else if String.eqb m "Jul" then Some 7 else if String.eqb m "Aug" then Some 8
  else if String.eqb m "Sep" then Some 9 else if String.eqb m "Oct" then Some 10
  else if String.eqb m "Nov" then Some 11 else if String.eqb m "Dec" then Some 12
  else None.

(** Days from 1970-01-01 to the given day of the Gregorian calendar. *)
Definition days_from_civil (y m d : Z) : Z :=
  let y := if m <=? 2 then y - 1 else y in
  let era := y / 400 in
  let yoe := y - era * 400 in
  let doy := (153 * (if 2 <? m then m - 3 else m + 9) + 2) / 5 + d - 1 in
  let doe := yoe * 365 + yoe / 4 - yoe / 100 + doy in
  era * 146097 + doe - 719468.

Definition field (s : string) (at_ len : nat) : option Z :=
  Py.digits false 0 (String.substring at_ len s).

(** The seconds since the epoch of an HTTP date,
    [Thu, 01 Jan 1970 00:00:00 GMT]; any other text is a [ValueError],
    no text a [TypeError]. *)
Definition http_date (t : option string) : Result Z :=
  match t with
  | None => inl TypeError
  | Some s =>
      match field s 5 2, month (String.substring 8 3 s), field s 12 4,
            field s 17 2, field s 20 2, field s 23 2 with
      | Some d, Some m, Some y, Some hh, Some mm, Some ss =>
          if String.eqb (String.substring 25 4 s) " GMT"
             && (String.length s =? 29)%nat
          then inr (days_from_civil y m d * 86400 + hh * 3600 + mm * 60 + ss)
          else inl ValueError
      | _, _, _, _, _, _ => inl ValueError
      end
  end.

Definition is_meta (c : ascii) : bool :=
  existsb (Ascii.eqb c)
    ["^"; "$"; "*"; "+"; "?"; "{"; "}"; "["; "]"; "\"; "|"; "("; ")"]%char.

(** The rest of [s] after a match of the pattern at its start; the
    pattern is literal text where [.] stands for any character. *)
Fixpoint strip_match (pat s : string) : Result (option string) :=
  match pat with
  | EmptyString => inr (Some s)
  | String p pr =>
      if is_meta p then inl ReError
      else
        match s with
        | EmptyString =>
            match strip_match pr EmptyString with
            | inl e => inl e
            | inr _ => inr None
            end
        | String c r =>
            if Ascii.eqb p "." || Ascii.eqb p c then strip_match pr r
            else
              match strip_match pr r with
              | inl e => inl e
              | inr _ => inr None
              end
        end
  end.

(** [re.sub(pattern, "", s)] for an anchored pattern [^text]. *)
Definition re_sub_empty (pattern s : string) : Result string :=
  match pattern with
  | String "^" pat =>
      match strip_match pat s with
      | inl e => inl e
      | inr (Some r) => inr r
      | inr None => inr s
      end
  | _ => inl ReError
  end.

End Lib.

Definition lib : Externals := {|
  unquote := Lib.unquote;
  urlsplit_path := fun t => match t with Some s => Lib.url_path s | None => "" end;
  urlparse_path := Lib.url_path;
  dateutil_timestamp := Lib.http_date;
  re_sub_empty := Lib.re_sub_empty
|}.

(** ** Concrete clients, servers and file systems *)

Module Scenario.

Definition settings : WebDAVSettings.t :=
  {| hostname := "https://dav.example.org";
     WebDAVSettings.root := "";
     login := "user";
     password := "secret";
     token := "";
     cert_path := "";
     key_path := "";
     WebDAVSettings.timeout := 30;
     disable_check := false;
     override_methods := [] |}.

Definition client : Client := ModuleInstaller.init settings.

Definition reply (status : Z) : Response :=
  {| status_code := status; content := Malformed ""; headers := [];
     chunks := [] |}.

Definition no_files : string -> option LNode := fun _ => None.

(** A world whose server answers by the request alone. *)
Definition world (answer : Request -> Response)
    (files : string -> option LNode) : World :=
  {| server := fun _ r => inr (answer r);
     lfs := files;
     clock := 0;
     trace := [] |}.

Definition url (path : string) : string := "https://dav.example.org" ++ path.

(** One [response] element of a multistatus document. *)
Definition entry (e : string * bool * option string) : Element :=
  let '(href, isdir, modified) := e in
  Elem "{DAV:}response" [] None
    [Elem "{DAV:}href" [] (Some href) [];
     Elem "{DAV:}propstat" [] None
       [Elem "{DAV:}prop" [] None
          [Elem "{DAV:}resourcetype" [] None
             (if isdir : bool then [Elem "{DAV:}collection" [] None []]
              else []);
           Elem "{DAV:}getlastmodified" [] modified []]]].

Definition multistatus (l : list (string * bool * option string)) : Content :=
  Xml (Elem "{DAV:}multistatus" [] None (map entry l)).

(** A server that has the resources at the URLs [present], answers
    every PROPFIND with [listing] and every GET with [body]. *)
Definition dav (present : list string) (listing : Content)
    (body : list string) (r : Request) : Response :=
  let m := req_method r in
  if String.eqb m "HEAD"
  then reply (if Py.mem (req_url r) present then 200 else 404)
  else if String.eqb m "PROPFIND" then
    {| status_code := 207; content := listing; headers := []; chunks := [] |}
  else if String.eqb m "GET" then
    {| status_code := 200; content := Malformed "";
       headers := [("Content-Length", "5")]; chunks := body |}
  else if String.eqb m "MKCOL" then reply 201
  else if String.eqb m "PUT" then reply 201
  else if String.eqb m "DELETE" then reply 204
  else reply 405.

(** Every request is answered with the one status. *)
Definition always (status : Z) : World := world (fun _ => reply status) no_files.

(** The directory [/docs/] with one file. *)
Definition docs : World :=
  world (dav [url "/docs/"]
           (multistatus [("/docs/", true, None);
                         ("/docs/file.txt", false, None)]) [])
    no_files.

(** The local directory [local] with the file [c.txt], last changed at
    second 10. *)
Definition one_file (p : string) : option LNode :=
  if String.eqb p "local" then Some (LDir 0 ["c.txt"])
  else if String.eqb p "local/c.txt" then Some (LFile 10 "hello")
  else None.

(** A server with the root alone. *)
Definition bare : World := world (dav [url "/"] (Malformed "") []) one_file.

(** The local directory [proj] with two files. *)
Definition project (p : string) : option LNode :=
  if String.eqb p "proj" then Some (LDir 0 ["main.py"; "utils.py"])
  else if String.eqb p "proj/main.py" then Some (LFile 10 "print")
  else if String.eqb p "proj/utils.py" then Some (LFile 10 "x")
  else None.

(** A server with the root and [/backup/]. *)
Definition backup : World :=
  world (dav [url "/"; url "/backup/"] (Malformed "") []) project.

(** The remote root with the file [/c.txt] of the given [modified] text,
    its content one chunk of five bytes. *)
Definition remote_file (modified : string) : World :=
  world (dav [url "/"; url "/c.txt"]
           (multistatus [("/", true, None);
                         ("/c.txt", false, Some modified)]) ["hello"])
    one_file.

(** A server without MKCOL. *)
Definition no_mkcol : World :=
  world (fun r => if String.eqb (req_method r) "MKCOL" then reply 405
                  else reply 200) no_files.

(** An answer to the free-space request: the node is there, empty. *)
Definition empty_quota : Element :=
  Elem "{DAV:}multistatus" [] None
    [Elem "{DAV:}response" [] None
       [Elem "{DAV:}quota-available-bytes" [] None []]].

Definition token_client : Client :=
  ModuleInstaller.init
    {| hostname := "https://dav.example.org";
       WebDAVSettings.root := "";
       login := "user";
       password := "secret";
       token := "abc";
       cert_path := "";
       key_path := "";
       WebDAVSettings.timeout := 30;
       disable_check := false;
       override_methods := [] |}.

(** A [pip] that leaves one more package among the local files. *)
Definition installing : Subprocess :=
  {| pip := fun files p =>
       if String.eqb p "site-packages/telebot" then Some (LDir 0 [])
       else files p |}.

(** The client of the scenarios with the checks turned off. *)
Definition unchecked : Client :=
  ModuleInstaller.init
    {| hostname := "https://dav.example.org";
       WebDAVSettings.root := "";
       login := "user";
       password := "secret";
       token := "";
       cert_path := "";
       key_path := "";
       WebDAVSettings.timeout := 30;
       disable_check := true;
       override_methods := [] |}.

(** The server of [bare], which answers 409 to a PUT below a directory
    that is not there. *)
Definition refusing : World :=
  world (fun r => if String.eqb (req_method r) "PUT" then reply 409
                  else dav [url "/"] (Malformed "") [] r) one_file.

(** The remote file [/c.txt], listed without a modification time. *)
Definition undated : World :=
  world (dav [url "/"; url "/c.txt"]
           (Xml (Elem "{DAV:}multistatus" [] None
                   [Elem "{DAV:}response" [] None
                      [Elem "{DAV:}href" [] (Some "/c.txt") [];
                       Elem "{DAV:}propstat" [] None
                         [Elem "{DAV:}prop" [] None
                            [Elem "{DAV:}resourcetype" [] None []]]]]))
           ["hello"])
    one_file.

(** A server that cannot be reached. *)
Definition offline : World :=
  {| server := fun _ _ => inl (ConnectionError "refused");
     lfs := no_files; clock := 0; trace := [] |}.

(** The remote file of [remote_file], sent in two chunks. *)
Definition chunked : World :=
  world (dav [url "/"; url "/c.txt"]
           (multistatus [("/", true, None); ("/c.txt", false, None)])
           ["hel"; "lo!"])
    one_file.

(** The file [/c.txt] is there for the first two requests only. *)
Definition vanishing : World :=
  {| server := fun sent_so_far r =>
       inr (dav (if (length sent_so_far <? 2)%nat
                 then [url "/"; url "/c.txt"] else [url "/"])
              (multistatus [("/", true, None); ("/c.txt", false, None)])
              ["hello"] r);
     lfs := one_file; clock := 0; trace := [] |}.

(** A server that grants every lock, with the one token. *)
Definition locking : World :=
  world (fun r => if String.eqb (req_method r) "LOCK"
                  then {| status_code := 200; content := Malformed "";
                          headers := [("Lock-Token", "opaque-1")];
                          chunks := [] |}
                  else reply 204) no_files.

End Scenario.

(** ** Reading a trace *)

Module Trace.

(** The calls of the progress callback in a trace: [(current, total)]. *)
Fixpoint progress_calls (t : list Event) : list (Z * option Z) :=
  match t with
  | [] => []
  | EvProgress _ current total :: r => (current, total) :: progress_calls r
  | _ :: r => progress_calls r
  end.

(** A write of each chunk, each followed by a call of the callback with
    [step] more than the last. *)
Fixpoint chunk_events (to : Sink) (cb : string) (total : option Z)
    (step current : Z) (chunks : list string) : list Event :=
  match chunks with
  | [] => []
  | ch :: r =>
      EvWrite to ch :: EvProgress cb (current + step) total
        :: chunk_events to cb total step (current + step) r
  end.

(** The bytes of the chunks. *)
Definition received (chunks : list string) : Z :=
  fold_right (fun ch n => Py.len ch + n) 0 chunks.

(** What a download with a callback adds to the trace, and what the
    callback is told. *)
Definition reports (cb : string) (to : Sink) (total : option Z)
    (chunks : list string) (before after : World) : Prop :=
  let n := Z.of_nat (length chunks) in
  let added :=
    EvProgress cb 0 total :: chunk_events to cb total 65536 0 chunks in
  trace after = (trace before ++ added)%list /\
  progress_calls added
    = map (fun k => (Z.of_nat k * 65536, total)) (seq 0 (S (length chunks))) /\
  StronglySorted Z.lt (map fst (progress_calls added)) /\
  ((forall ch, In ch chunks -> Py.len ch <= 65536) ->
   received chunks <= n * 65536) /\
  ((forall ch, In ch chunks -> Py.len ch <= 65536) ->
   (exists ch, In ch chunks /\ Py.len ch < 65536) ->
   received chunks < n * 65536).

(** The requests of a trace sent for the actions to [keep], in order:
    the action and the URL of each. *)
Fixpoint log (keep : string -> bool) (t : list Event)
  : list (string * string) :=
  match t with
  | [] => []
  | EvRequest a r :: rest =>
      if keep a then (a, req_url r) :: log keep rest else log keep rest
  | _ :: rest => log keep rest
  end.

Section Chain.
Context {urn : UrnModel}.

(** The directory [mkdir] looks for above [p]. *)
Definition above (p : string) : string := urn_parent (mkUrn p true).

(** [p] under its [k] nearest ancestors, the topmost first. *)
Fixpoint ancestors (k : nat) (p : string) : list string :=
  match k with
  | O => [p]
  | S k' => (ancestors k' (above p) ++ [p])%list
  end.

(** From the world [w] on, the checks of the directories above [p],
    each made in the world the one before left, answer [False] for
    the nearest [k] and [True] for the next. *)
Fixpoint missing_above (c : Client) (k : nat) (p : string) (w : World)
  : Prop :=
  match k with
  | O => exists w1, ModuleInstaller.check c (above p) w = (w1, inr true)
  | S k' =>
      exists w1,
        ModuleInstaller.check c (above p) w = (w1, inr false) /\
        missing_above c k' (above p) w1
  end.

(** The MKCOL requests for a list of directories, as the log has
    them. *)
Definition mkcols (c : Client) (l : list string)
  : list (string * string) :=
  map (fun q =>
         ("mkdir",
          hostname (webdav c) ++ WebDAVSettings.root (webdav c)
            ++ urn_quote (mkUrn q true)))
    l.
End Chain.

Definition creates_or_uploads (a : string) : bool :=
  String.eqb a "mkdir" || String.eqb a "upload".

Definition uploads (a : string) : bool := String.eqb a "upload".

(** The response is one [extract_response_for_path] takes for the path:
    its [href], as it is or without the prefix, compares equal. *)
Definition answers_for {ext : Externals} {urn : UrnModel}
    (n_path prefix : string) (resp : Element) : Prop :=
  let href := findtext_child "{DAV:}href" resp in
  compare_path n_path href = true \/
  exists h, href = Some h /\
            compare_path n_path
              (Some (WebDavXmlUtils.without_prefix prefix h)) = true.

(** What the callback is told before each of the chunks [ch] of an
    upload: the bytes of the chunks before it. *)
Fixpoint offsets (cb : string) (total current : Z) (ch : list string)
  : list (string * Z * option Z) :=
  match ch with
  | [] => []
  | x :: r => (cb, current, Some total) :: offsets cb total (current + Py.len x) r
  end.

Definition downloads (a : string) : bool := String.eqb a "download".

Definition moves (a : string) : bool := String.eqb a "move".

Definition unlocks (a : string) : bool := String.eqb a "unlock".

Definition changes (a : string) : bool :=
  String.eqb a "clean" || String.eqb a "mkdir" || String.eqb a "upload".

(** Every run of [m], however it ends, takes a world to one that [R]
    relates to it. *)
Definition keeps {A} (R : World -> World -> Prop) (m : M A) : Prop :=
  forall w w' r, m w = (w', r) -> R w w'.

(** No request for an action to [keep] was sent in between. *)
Definition same_log (keep : string -> bool) (w w' : World) : Prop :=
  log keep (trace w') = log keep (trace w).

(** The local file system is as it was. *)
Definition same_files (w w' : World) : Prop := lfs w' = lfs w.

(** The actions [push] sends requests for. *)
Definition push_actions : list string :=
  ["check"; "info"; "list"; "mkdir"; "upload"].

(** The actions [pull] sends requests for. *)
Definition pull_actions : list string :=
  ["check"; "info"; "list"; "download"].

(** [keep] leaves out every action of [l]. *)
Definition leaves_out (keep : string -> bool) (l : list string) : Prop :=
  forall a, In a l -> keep a = false.

End Trace.

(** * Properties *)

Section Dispatcher.
Context {ext : Externals} {urn : UrnModel} {sub : Subprocess}.
Import ModuleInstaller.

Lemma execute_request_run c action path data headers_ext w req response :
  build_request c action path data headers_ext = inr req ->
  server w (sent w) req = inr response ->
  exists w',
    session_request action req w = (w', inr response) /\
    execute_request c action path data headers_ext w =
      (if status_code response =? 507 then raise NotEnoughSpace
       else if status_code response =? 404
            then raise (RemoteResourceNotFound path)
       else if status_code response =? 423 then raise (ResourceLocked path)
       else if status_code response =? 405
            then raise (MethodNotSupported action (hostname (webdav c)))
       else if status_code response >=? 400
            then raise (ResponseErrorCode (get_url c path)
                          (status_code response) (content response))
       else ret response) w'.
Proof.
  intros Hb Hs.
  unfold execute_request, bind, lift, session_request.
  rewrite Hb, Hs. eexists. split; reflexivity.
Qed.

(** C1. Whatever response the transport obtains for the request that
    [execute_request] builds, the statuses are told apart in the order
    507, 404, 423, 405, any other status from 400 on, and each raises its
    own error with the data the specification names; a response with a
    status below 400 is returned as it is. *)
Theorem execute_request_classifies c action path data headers_ext w req
    response :
  build_request c action path data headers_ext = inr req ->
  server w (sent w) req = inr response ->
  let s := status_code response in
  let out := snd (execute_request c action path data headers_ext w) in
  (s = 507 -> out = inl NotEnoughSpace) /\
  (s = 404 -> out = inl (RemoteResourceNotFound path)) /\
  (s = 423 -> out = inl (ResourceLocked path)) /\
  (s = 405 -> out = inl (MethodNotSupported action (hostname (webdav c)))) /\
  (400 <= s -> s <> 507 -> s <> 404 -> s <> 423 -> s <> 405 ->
   out = inl (ResponseErrorCode (get_url c path) s (content response))) /\
  (s < 400 -> out = inr response).
Proof.
  intros Hb Hs s out.
  destruct (execute_request_run _ _ _ _ _ _ _ _ Hb Hs) as (w' & _ & Hrun).
  subst out. rewrite Hrun. fold s. clear Hrun.
  repeat split; intros.
  - subst s. rewrite H. reflexivity.
  - rewrite H. reflexivity.
  - rewrite H. reflexivity.
  - rewrite H. reflexivity.
  - destruct (Z.eqb_spec s 507); [lia|].
    destruct (Z.eqb_spec s 404); [lia|].
    destruct (Z.eqb_spec s 423); [lia|].
    destruct (Z.eqb_spec s 405); [lia|].
    destruct (Z.geb_spec s 400); [reflexivity | lia].
  - destruct (Z.eqb_spec s 507); [lia|].
    destruct (Z.eqb_spec s 404); [lia|].
    destruct (Z.eqb_spec s 423); [lia|].
    destruct (Z.eqb_spec s 405); [lia|].
    destruct (Z.geb_spec s 400); [lia | reflexivity].
Qed.

(** *** The decorator *)

Lemma wrap_returns {A} c (fn : M A) w w' a :
  fn w = (w', inr a) -> wrap_connection_error c fn w = (w', inr a).
Proof. intros H. unfold wrap_connection_error, try_except. now rewrite H. Qed.

Lemma wrap_raises {A} c (fn : M A) w w' e :
  fn w = (w', inl e) -> is_transport_error e = false ->
  wrap_connection_error c fn w = (w', inl e).
Proof.
  intros H He. unfold wrap_connection_error, try_except. rewrite H.
  destruct e; try reflexivity; discriminate.
Qed.

Lemma wrap_never_transport {A} c (fn : M A) w w' e :
  wrap_connection_error c fn w = (w', inl e) -> is_transport_error e = false.
Proof.
  unfold wrap_connection_error, try_except.
  destruct (fn w) as [w1 [e1 | a]]; [|discriminate].
  destruct e1; unfold raise; intros H; inversion H; reflexivity.
Qed.

Lemma dispatcher_not_transport e :
  is_dispatcher_error e = true -> is_transport_error e = false.
Proof. destruct e; simpl; congruence. Qed.

Lemma requests_of_app t1 t2 :
  requests_of (t1 ++ t2)%list = (requests_of t1 ++ requests_of t2)%list.
Proof.
  induction t1 as [|e t1 IH]; simpl; [reflexivity|].
  destruct (request_of e); simpl; now rewrite IH.
Qed.

Lemma sent_progress calls w :
  sent (fold_left (fun w' (k : string * Z * option Z) =>
                     let '(cb, current, total) := k in
                     emit (EvProgress cb current total) w') calls w)
  = sent w.
Proof.
  revert w. induction calls as [|[[cb cur] tot] calls IH]; intros w; simpl.
  - reflexivity.
  - rewrite IH. unfold sent, emit. simpl. rewrite requests_of_app. simpl.
    now rewrite app_nil_r.
Qed.

Lemma sent_session_request action req w :
  sent (fst (session_request action req w)) = (sent w ++ [req])%list.
Proof.
  unfold session_request. simpl.
  assert (H : sent (emit (EvRequest action req) w) = (sent w ++ [req])%list).
  { unfold sent, emit. simpl. now rewrite requests_of_app. }
  destruct (req_data req); try exact H.
  now rewrite sent_progress.
Qed.

(** What [execute_request] does once the transport has answered. *)
Lemma execute_request_status c action path data headers_ext w req response :
  build_request c action path data headers_ext = inr req ->
  server w (sent w) req = inr response ->
  execute_request c action path data headers_ext w =
    (fst (session_request action req w),
     if status_code response <? 400 then inr response
     else if status_code response =? 507 then inl NotEnoughSpace
     else if status_code response =? 404
          then inl (RemoteResourceNotFound path)
     else if status_code response =? 423 then inl (ResourceLocked path)
     else if status_code response =? 405
          then inl (MethodNotSupported action (hostname (webdav c)))
     else inl (ResponseErrorCode (get_url c path)
                 (status_code response) (content response))).
Proof.
  intros Hb Hs.
  destruct (execute_request_run _ _ _ _ _ _ _ _ Hb Hs) as (w' & Hw' & Hrun).
  rewrite Hrun, Hw'. simpl. clear Hrun Hw'.
  set (s := status_code response).
  destruct (Z.ltb_spec s 400);
    destruct (Z.eqb_spec s 507); try lia;
    destruct (Z.eqb_spec s 404); try lia;
    destruct (Z.eqb_spec s 423); try lia;
    destruct (Z.eqb_spec s 405); try lia;
    destruct (Z.geb_spec s 400); try lia; reflexivity.
Qed.

(** *** [check] *)

Lemma check_disabled c remote_path w :
  disable_check (webdav c) = true -> check c remote_path w = (w, inr true).
Proof. intros H. unfold check. rewrite H. reflexivity. Qed.

Lemma check_run c remote_path w req response :
  disable_check (webdav c) = false ->
  build_request c "check" (urn_quote (mkUrn remote_path false)) BodyNone None
    = inr req ->
  server w (sent w) req = inr response ->
  check c remote_path w =
    (fst (session_request "check" req w),
     if status_code response <? 400 then inr (status_code response =? 200)
     else if status_code response =? 404 then inr false
     else match snd (execute_request c "check"
                       (urn_quote (mkUrn remote_path false)) BodyNone None w)
          with
          | inl e => inl e
          | inr _ => inr false
          end).
Proof.
  intros Hd Hb Hs. unfold check. rewrite Hd.
  unfold wrap_connection_error, try_except at 1.
  unfold try_except, bind.
  rewrite (execute_request_status _ _ _ _ _ _ _ _ Hb Hs). simpl.
  destruct (status_code response <? 400); simpl.
  - destruct (status_code response =? 200); reflexivity.
  - destruct (Z.eqb_spec (status_code response) 507) as [E|_];
      [rewrite E; reflexivity|].
    destruct (status_code response =? 404); [reflexivity|].
    destruct (status_code response =? 423); [reflexivity|].
    destruct (status_code response =? 405); reflexivity.
Qed.

(** C9, as the code has it. With the toggle on, [check] answers [True]
    and leaves the world as it was: no request is sent. With the toggle
    off it sends one request; it answers [True] for the status 200,
    [False] for 404 and for every other status below 400, and for every
    other status from 400 on it raises the dispatcher's error. *)
Theorem check_answers c remote_path w :
  (disable_check (webdav c) = true ->
   check c remote_path w = (w, inr true)) /\
  (disable_check (webdav c) = false ->
   forall req response,
     build_request c "check" (urn_quote (mkUrn remote_path false))
       BodyNone None = inr req ->
     server w (sent w) req = inr response ->
     let s := status_code response in
     let out := snd (check c remote_path w) in
     sent (fst (check c remote_path w)) = (sent w ++ [req])%list /\
     (s = 200 -> out = inr true) /\
     (s = 404 -> out = inr false) /\
     (s < 400 -> s <> 200 -> out = inr false) /\
     (400 <= s -> s <> 404 ->
      exists e, out = inl e /\ is_dispatcher_error e = true /\
                snd (execute_request c "check"
                       (urn_quote (mkUrn remote_path false)) BodyNone None w)
                = inl e)).
Proof.
  split; [apply check_disabled|].
  intros Hd req response Hb Hs s out. subst out.
  rewrite (check_run _ _ _ _ _ Hd Hb Hs). simpl. fold s.
  split; [apply sent_session_request|].
  rewrite (execute_request_status _ _ _ _ _ _ _ _ Hb Hs). simpl. fold s.
  repeat split; intros.
  - subst s. rewrite H. reflexivity.
  - rewrite H. reflexivity.
  - destruct (Z.ltb_spec s 400); [|lia].
    destruct (Z.eqb_spec s 200); [lia|reflexivity].
  - destruct (Z.ltb_spec s 400); [lia|].
    destruct (Z.eqb_spec s 404); [lia|].
    destruct (Z.eqb_spec s 507); [eexists; repeat split; reflexivity|].
    destruct (Z.eqb_spec s 423); [eexists; repeat split; reflexivity|].
    destruct (Z.eqb_spec s 405); eexists; repeat split; reflexivity.
Qed.

(** *** [mkdir] *)

Lemma mkcol_phase c path w1 :
  try_except
    (response <- execute_request c "mkdir" path BodyNone None ;;
     ret ((status_code response =? 200) || (status_code response =? 201)))
    (fun e =>
       match e with
       | MethodNotSupported _ _ => Some (ret true)
       | _ => None
       end) w1
  = match execute_request c "mkdir" path BodyNone None w1 with
    | (w2, inr response) =>
        (w2, inr ((status_code response =? 200)
                  || (status_code response =? 201)))
    | (w2, inl (MethodNotSupported _ _)) => (w2, inr true)
    | (w2, inl e) => (w2, inl e)
    end.
Proof.
  unfold try_except, bind.
  destruct (execute_request c "mkdir" path BodyNone None w1) as [w2 [e|r]];
    [destruct e|]; reflexivity.
Qed.

(** [mkdir] up to its MKCOL request, when the parent is there or has just
    been made. *)
Lemma mkdir_reaches_mkcol depth c remote_path recursive w w1 :
  (check c (urn_parent (mkUrn remote_path true)) w = (w1, inr true) \/
   exists w0 b,
     check c (urn_parent (mkUrn remote_path true)) w = (w0, inr false) /\
     recursive = true /\
     mkdir depth c (urn_parent (mkUrn remote_path true)) true w0
       = (w1, inr b)) ->
  mkdir (S depth) c remote_path recursive w =
    wrap_connection_error c (fun _ =>
      match execute_request c "mkdir" (urn_quote (mkUrn remote_path true))
              BodyNone None w1 with
      | (w2, inr response) =>
          (w2, inr ((status_code response =? 200)
                    || (status_code response =? 201)))
      | (w2, inl (MethodNotSupported _ _)) => (w2, inr true)
      | (w2, inl e) => (w2, inl e)
      end) w.
Proof.
  intros H. simpl. unfold wrap_connection_error, try_except at 1 3.
  unfold bind at 1.
  destruct H as [H | (w0 & b & H & Hr & Hm)]; rewrite H; simpl.
  - unfold bind at 1. unfold ret at 1. now rewrite mkcol_phase.
  - subst recursive. unfold bind at 1. unfold bind at 1. rewrite Hm.
    unfold ret at 1. now rewrite mkcol_phase.
Qed.

(** C5, as the code has it. [mkdir] turns the dispatcher's
    method-not-supported error for its MKCOL request into [True]; any
    other error the dispatcher raises for that request leaves [mkdir]
    as it is; with the parent missing and [recursive] unset [mkdir]
    raises the parent-not-found error in the world the check left, so
    no MKCOL is sent.  [mkdir] is not alone in swallowing an error of the
    dispatcher: [check] turns its resource-not-found error into [False]. *)
Theorem mkdir_swallows_method_not_supported depth c remote_path recursive w :
  let directory_urn := mkUrn remote_path true in
  (forall w1,
     (check c (urn_parent directory_urn) w = (w1, inr true) \/
      exists w0 b,
        check c (urn_parent directory_urn) w = (w0, inr false) /\
        recursive = true /\
        mkdir depth c (urn_parent directory_urn) true w0 = (w1, inr b)) ->
     (forall w2 name server,
        execute_request c "mkdir" (urn_quote directory_urn) BodyNone None w1
          = (w2, inl (MethodNotSupported name server)) ->
        mkdir (S depth) c remote_path recursive w = (w2, inr true)) /\
     (forall w2 e,
        execute_request c "mkdir" (urn_quote directory_urn) BodyNone None w1
          = (w2, inl e) ->
        is_dispatcher_error e = true ->
        (forall name server, e <> MethodNotSupported name server) ->
        mkdir (S depth) c remote_path recursive w = (w2, inl e))) /\
  (forall w1,
     check c (urn_parent directory_urn) w = (w1, inr false) ->
     recursive = false ->
     mkdir (S depth) c remote_path recursive w
       = (w1, inl (RemoteParentNotFound (urn_path directory_urn)))) /\
  (forall path req response,
     disable_check (webdav c) = false ->
     build_request c "check" (urn_quote (mkUrn path false)) BodyNone None
       = inr req ->
     server w (sent w) req = inr response ->
     status_code response = 404 ->
     snd (execute_request c "check" (urn_quote (mkUrn path false))
            BodyNone None w)
       = inl (RemoteResourceNotFound (urn_quote (mkUrn path false))) /\
     snd (check c path w) = inr false).
Proof.
  intros directory_urn. repeat split.
  - intros w2 name server Hx.
    rewrite (mkdir_reaches_mkcol _ _ _ _ _ _ H).
    apply wrap_returns. fold directory_urn. now rewrite Hx.
  - intros w2 e Hx Hd Hn.
    rewrite (mkdir_reaches_mkcol _ _ _ _ _ _ H).
    apply wrap_raises; [|now apply dispatcher_not_transport].
    fold directory_urn. rewrite Hx.
    destruct e; try reflexivity. exfalso. eapply Hn. reflexivity.
  - intros w1 Hc Hr. subst recursive. simpl.
    apply wrap_raises; [|reflexivity].
    unfold bind at 1. fold directory_urn. rewrite Hc. simpl.
    reflexivity.
  - rewrite (execute_request_status _ _ _ _ _ _ _ _ H0 H1). simpl.
    rewrite H2. reflexivity.
  - rewrite (check_run _ _ _ _ _ H H0 H1). simpl. rewrite H2. reflexivity.
Qed.

(** *** Headers and authentication *)

Lemma truthy_iff s : Py.truthy s = true <-> s <> "".
Proof. destruct s; simpl; split; congruence. Qed.

Lemma get_set_same {V} (d : Py.dict V) k v : Py.get (Py.set d k v) k = Some v.
Proof.
  induction d as [|[k' v'] d IH]; simpl.
  - now rewrite String.eqb_refl.
  - destruct (String.eqb k k') eqn:E; simpl.
    + now rewrite String.eqb_refl.
    + now rewrite E.
Qed.

Lemma get_set_other {V} (d : Py.dict V) k k' v :
  k' <> k -> Py.get (Py.set d k v) k' = Py.get d k'.
Proof.
  intros Hk. induction d as [|[k0 v0] d IH]; simpl.
  - destruct (String.eqb_spec k' k); [contradiction|reflexivity].
  - destruct (String.eqb_spec k k0) as [->|]; simpl.
    + destruct (String.eqb_spec k' k0); [contradiction|reflexivity].
    + destruct (String.eqb k' k0); [reflexivity|exact IH].
Qed.

Lemma get_of_pairs_last {V} (ps : list (string * V)) k v :
  Py.get (Py.of_pairs (ps ++ [(k, v)])%list) k = Some v.
Proof.
  unfold Py.of_pairs. rewrite fold_left_app. simpl. apply get_set_same.
Qed.

Lemma header_pairs_last hs line ps :
  header_pairs (hs ++ [line])%list = inr ps ->
  exists k v ps',
    Py.split_colon line = Some (k, v) /\
    ps = (ps' ++ [(Py.strip k, Py.strip v)])%list.
Proof.
  revert ps. induction hs as [|h hs IH]; simpl; intros ps H.
  - destruct (Py.split_colon line) as [[k v]|]; [|discriminate].
    inversion H. now exists k, v, [].
  - destruct (Py.split_colon h) as [[k0 v0]|]; [|discriminate].
    destruct (header_pairs (hs ++ [line])%list) as [e|qs]; [discriminate|].
    destruct (IH qs eq_refl) as (k & v & ps' & Hs & ->).
    inversion H. now exists k, v, ((Py.strip k0, Py.strip v0) :: ps').
Qed.

Lemma bearer_header c action headers_ext d :
  token (webdav c) <> "" ->
  get_headers c action headers_ext = inr d ->
  Py.get d "Authorization"
    = Some (Py.strip ("Bearer " ++ token (webdav c))).
Proof.
  intros Ht. unfold get_headers, header_lines.
  apply truthy_iff in Ht. rewrite Ht.
  match goal with
  | |- context [header_pairs (app ?hs [?l])] =>
      destruct (header_pairs (app hs [l])) as [e|ps] eqn:E; [discriminate|];
      destruct (header_pairs_last hs l ps E) as (k & v & ps' & Hs & ->)
  end.
  simpl in Hs. inversion Hs; subst k v.
  intros H. inversion H. apply get_of_pairs_last.
Qed.

(** C8. In every request [execute_request] builds, a configured token
    puts the line [Authorization: Bearer <token>] last among the header
    lines, the headers sent carry it under [Authorization], and no
    credentials are passed; the login and the password are passed exactly
    when no token is configured, the session has no authentication of its
    own, and both are non-empty. *)
Theorem token_takes_precedence c action path data headers_ext req :
  build_request c action path data headers_ext = inr req ->
  (token (webdav c) <> "" ->
   last (header_lines c action headers_ext) ""
     = "Authorization: Bearer " ++ token (webdav c) /\
   Py.get (req_headers req) "Authorization"
     = Some (Py.strip ("Bearer " ++ token (webdav c))) /\
   req_auth req = None) /\
  (forall cred,
     req_auth req = Some cred <->
     token (webdav c) = "" /\ session_auth c = None /\
     login (webdav c) <> "" /\ password (webdav c) <> "" /\
     cred = (login (webdav c), password (webdav c))).
Proof.
  unfold build_request. intros H.
  destruct (Py.get (requests c) action) as [method|]; [|discriminate].
  destruct (self_get_headers c action headers_ext) as [e|hdrs] eqn:Eh;
    [discriminate|].
  inversion H; subst req; clear H. simpl. split.
  - intros Ht. repeat split.
    + unfold header_lines. pose proof (proj2 (truthy_iff _) Ht) as Ht'.
      rewrite Ht'. apply last_last.
    + unfold self_get_headers, lock_get_headers in Eh.
      destruct (lock_token c) as [lock|].
      * destruct (get_headers c action headers_ext) as [e|d] eqn:Eg;
          [discriminate|].
        inversion Eh. rewrite !get_set_other by discriminate.
        now apply (bearer_header c action headers_ext).
      * now apply (bearer_header c action headers_ext).
    + unfold request_auth. apply truthy_iff in Ht. now rewrite Ht.
  - intros cred. unfold request_auth.
    destruct (token (webdav c)) as [|a t]; simpl.
    + destruct (session_auth c) as [sa|]; simpl.
      * split; [discriminate|]. intros (_ & Hs & _). discriminate.
      * destruct (login (webdav c)) as [|a l]; simpl.
        { split; [discriminate|]. intros (_ & _ & Hl & _). now destruct Hl. }
        destruct (password (webdav c)) as [|b q]; simpl.
        { split; [discriminate|].
          intros (_ & _ & _ & Hp & _). now destruct Hp. }
        split.
        { intros Hc. inversion Hc. repeat split; discriminate. }
        { intros (_ & _ & _ & _ & ->). reflexivity. }
    + split; [discriminate|]. intros (Ht & _). discriminate.
Qed.

End Dispatcher.

Section Codec.
Context {ext : Externals} {urn : UrnModel} {sub : Subprocess}.
Import ModuleInstaller WebDavXmlUtils.

Lemma parse_free_space_malformed raw hostname :
  parse_free_space_response (Malformed raw) hostname = inr (FreeStr "").
Proof. reflexivity. Qed.

Lemma parse_free_space_not_supported tree hostname :
  parse_free_space_response (Xml tree) hostname
    = inl (MethodNotSupported "free" hostname)
  <-> (find_desc "{DAV:}quota-available-bytes" tree = None \/
       exists node,
         find_desc "{DAV:}quota-available-bytes" tree = Some node /\
         text_of node = None).
Proof.
  unfold parse_free_space_response, fromstring, int_of_text.
  destruct (find_desc "{DAV:}quota-available-bytes" tree) as [node|].
  - destruct (text_of node) as [s|] eqn:Et.
    + destruct (Py.int s); split; try discriminate.
      * intros [H | (n & H & Hn)]; [discriminate|].
        inversion H; subst n. congruence.
      * intros [H | (n & H & Hn)]; [discriminate|].
        inversion H; subst n. congruence.
    + split; [|reflexivity]. intros _. right. now exists node.
  - split; [|reflexivity]. intros _. now left.
Qed.

(** C10, as the code has it. A body that is not XML makes
    [parse_free_space_response] return the empty string, and [free]
    returns it to its caller; a body that is XML raises the
    method-not-supported error exactly when it has no
    quota-available-bytes node or that node has no text. *)
Theorem free_space_parsing hostname :
  (forall raw,
     parse_free_space_response (Malformed raw) hostname = inr (FreeStr "")) /\
  (forall c w req response raw,
     build_request c "free" ""
       (BodyXml create_free_space_request_content) None = inr req ->
     server w (sent w) req = inr response ->
     status_code response < 400 ->
     content response = Malformed raw ->
     snd (free c w) = inr (FreeStr "")) /\
  (forall tree,
     parse_free_space_response (Xml tree) hostname
       = inl (MethodNotSupported "free" hostname)
     <-> (find_desc "{DAV:}quota-available-bytes" tree = None \/
          exists node,
            find_desc "{DAV:}quota-available-bytes" tree = Some node /\
            text_of node = None)).
Proof.
  split; [reflexivity|]. split; [|intros; apply parse_free_space_not_supported].
  intros c w req response raw Hb Hs Hlt Hc.
  unfold free, wrap_connection_error, try_except, bind.
  rewrite (execute_request_status _ _ _ _ _ _ _ _ Hb Hs). simpl.
  destruct (Z.ltb_spec (status_code response) 400); [|lia].
  rewrite Hc. reflexivity.
Qed.

(** *** Listing *)

(** [list] up to its PROPFIND request and past it. *)
Lemma list_run c remote_path (get_info recursive : bool) w w1 w2 response :
  (urn_path (mkUrn remote_path true) = root /\ w1 = w \/
   urn_path (mkUrn remote_path true) <> root /\
   check c (urn_path (mkUrn remote_path true)) w = (w1, inr true)) ->
  execute_request c "list" (urn_quote (mkUrn remote_path true)) BodyNone
    (Some (if recursive then ["Depth:infinity"] else [])) w1
    = (w2, inr response) ->
  list_ c remote_path get_info recursive w =
    (w2,
     inr (match get_info return ListOut get_info with
          | true =>
              filter (fun subfile =>
                        negb (compare_path
                                (normalize_path
                                   (get_full_path c (mkUrn remote_path true)))
                                (Some (li_path subfile))))
                (parse_get_list_info_response (content response))
          | false =>
              map urn_filename
                (filter (fun u =>
                           negb (compare_path
                                   (normalize_path
                                      (get_full_path c
                                         (mkUrn remote_path true)))
                                   (Some (urn_path u))))
                   (parse_get_list_response (content response)))
          end)).
Proof.
  intros Hpre Hx. unfold list_. apply wrap_returns.
  unfold bind at 1.
  destruct Hpre as [[Hr ->] | [Hr Hc]].
  - destruct (String.eqb_spec (urn_path (mkUrn remote_path true)) root);
      [|contradiction]. simpl.
    unfold bind at 1. simpl. unfold bind at 1.
    rewrite Hx. destruct get_info; reflexivity.
  - destruct (String.eqb_spec (urn_path (mkUrn remote_path true)) root);
      [contradiction|]. simpl.
    unfold bind at 1. rewrite Hc. simpl. unfold bind at 1. simpl.
    unfold bind at 1. rewrite Hx. destruct get_info; reflexivity.
Qed.

(** C7. Once the PROPFIND of [list] is answered, the names returned are
    those of the parsed entries whose path does not compare equal to the
    normalized path of the queried directory, and so are the
    descriptions returned with [get_info]; when the answer has two
    entries, the first comparing equal to the queried directory and the
    second not, the list is the second entry's name alone. *)
Theorem list_excludes_queried_directory c remote_path (recursive : bool)
    w w1 w2 response :
  let directory_urn := mkUrn remote_path true in
  let path := normalize_path (get_full_path c directory_urn) in
  (urn_path directory_urn = root /\ w1 = w \/
   urn_path directory_urn <> root /\
   check c (urn_path directory_urn) w = (w1, inr true)) ->
  execute_request c "list" (urn_quote directory_urn) BodyNone
    (Some (if recursive then ["Depth:infinity"] else [])) w1
    = (w2, inr response) ->
  (exists kept,
     list_ c remote_path false recursive w = (w2, inr (map urn_filename kept))
     /\ forall u,
          In u kept <->
          In u (parse_get_list_response (content response)) /\
          compare_path path (Some (urn_path u)) = false) /\
  (exists kept,
     list_ c remote_path true recursive w = (w2, inr kept)
     /\ forall i,
          In i kept <->
          In i (parse_get_list_info_response (content response)) /\
          compare_path path (Some (li_path i)) = false) /\
  (forall tree r1 r2 h1 h2,
     content response = Xml tree ->
     findall_desc "{DAV:}response" tree = [r1; r2] ->
     hd_error (findall_desc "{DAV:}href" r1) = Some h1 ->
     hd_error (findall_desc "{DAV:}href" r2) = Some h2 ->
     let u1 :=
       mkUrn (separate ++ unquote (urlsplit_path (text_of h1)))
         (0 <? Z.of_nat (length (findall_desc "{DAV:}collection" r1))) in
     let u2 :=
       mkUrn (separate ++ unquote (urlsplit_path (text_of h2)))
         (0 <? Z.of_nat (length (findall_desc "{DAV:}collection" r2))) in
     compare_path path (Some (urn_path u1)) = true ->
     compare_path path (Some (urn_path u2)) = false ->
     list_ c remote_path false recursive w = (w2, inr [urn_filename u2])).
Proof.
  intros directory_urn path Hpre Hx. repeat split.
  - eexists. split; [apply (list_run _ _ false _ _ _ _ _ Hpre Hx)|].
    intros u. rewrite filter_In, negb_true_iff. reflexivity.
  - eexists. split; [apply (list_run _ _ true _ _ _ _ _ Hpre Hx)|].
    intros i. rewrite filter_In, negb_true_iff. reflexivity.
  - intros tree r1 r2 h1 h2 Hc Hrs Hh1 Hh2 u1 u2 H1 H2.
    rewrite (list_run _ _ false _ _ _ _ _ Hpre Hx).
    unfold parse_get_list_response, fromstring. rewrite Hc, Hrs.
    unfold flat_map, urn_of. rewrite Hh1, Hh2.
    subst u1 u2 path directory_urn.
    cbn [app filter]. rewrite H1. cbn [negb filter]. rewrite H2.
    reflexivity.
Qed.

End Codec.

Section Transfer.
Context {ext : Externals} {urn : UrnModel} {sub : Subprocess}.
Import ModuleInstaller Trace.

Lemma write_run to chunk w :
  exists w',
    write to chunk w = (w', inr tt) /\
    trace w' = (trace w ++ [EvWrite to chunk])%list.
Proof.
  unfold write. destruct to as [b|p]; simpl.
  - eexists; split; reflexivity.
  - destruct (lfs w p) as [[m d|m l]|]; eexists; split; reflexivity.
Qed.

Lemma for_fold_cons {A St} (x : A) r (s : St) body w :
  for_fold (x :: r) s body w =
    match body s x w with
    | (w', inr s') => for_fold r s' body w'
    | (w', inl e) => (w', inl e)
    end.
Proof. reflexivity. Qed.

Lemma for_each_cons {A} (x : A) r body w :
  for_each (x :: r) body w =
    match body x w with
    | (w', inr _) => for_each r body w'
    | (w', inl e) => (w', inl e)
    end.
Proof. reflexivity. Qed.

Lemma write_chunks_run c to cb total chunks current w :
  exists w',
    for_fold chunks current (fun current chunk =>
      write to chunk ;;
      let current := current + chunk_size c in
      call_progress (Some cb) current total ;;
      ret current) w
    = (w', inr (current + Z.of_nat (length chunks) * chunk_size c)) /\
    trace w' =
      (trace w ++ chunk_events to cb total (chunk_size c) current chunks)%list.
Proof.
  set (body := fun current chunk =>
      write to chunk ;;
      let current := current + chunk_size c in
      call_progress (Some cb) current total ;;
      ret current).
  revert current w.
  induction chunks as [|ch chunks IH]; intros current w.
  - exists w. simpl. split; [unfold ret; f_equal; f_equal; lia|].
    now rewrite app_nil_r.
  - destruct (write_run to ch w) as (w1 & Hw & Ht).
    destruct (IH (current + chunk_size c)
                (emit (EvProgress cb (current + chunk_size c) total) w1))
      as (w' & Hrun & Htr).
    assert (Hb : body current ch w =
                 (emit (EvProgress cb (current + chunk_size c) total) w1,
                  inr (current + chunk_size c))).
    { unfold body, bind. rewrite Hw. reflexivity. }
    exists w'. split.
    + rewrite for_fold_cons, Hb, Hrun. f_equal. f_equal.
      change (length (ch :: chunks)) with (S (length chunks)). lia.
    + rewrite Htr. simpl. rewrite Ht, <- !app_assoc. reflexivity.
Qed.

Lemma progress_calls_chunk_events to cb total step current chunks :
  progress_calls (chunk_events to cb total step current chunks)
  = map (fun k => (current + Z.of_nat k * step, total))
      (seq 1 (length chunks)).
Proof.
  revert current. induction chunks as [|ch chunks IH]; intros current.
  - reflexivity.
  - cbn [chunk_events progress_calls length seq map]. rewrite IH.
    f_equal; [f_equal; lia|].
    rewrite <- (seq_shift (length chunks) 1), map_map. apply map_ext.
    intros k. f_equal. lia.
Qed.

Lemma multiples_sorted step start len :
  0 < step ->
  StronglySorted Z.lt (map (fun k => Z.of_nat k * step) (seq start len)).
Proof.
  intros Hs. revert start. induction len as [|len IH]; intros start; simpl.
  - constructor.
  - constructor; [apply IH|].
    apply Forall_forall. intros x Hx. apply in_map_iff in Hx.
    destruct Hx as (k & <- & Hk). apply in_seq in Hk. nia.
Qed.

Lemma received_bound chunks :
  (forall ch, In ch chunks -> Py.len ch <= 65536) ->
  received chunks <= Z.of_nat (length chunks) * 65536 /\
  ((exists ch, In ch chunks /\ Py.len ch < 65536) ->
   received chunks < Z.of_nat (length chunks) * 65536).
Proof.
  induction chunks as [|ch chunks IH]; intros Hall.
  - split; [simpl; lia|]. intros (x & [] & _).
  - assert (Hch : Py.len ch <= 65536) by (apply Hall; now left).
    destruct IH as [IH1 IH2]; [intros x Hx; apply Hall; now right|].
    change (received (ch :: chunks)) with (Py.len ch + received chunks).
    change (length (ch :: chunks)) with (S (length chunks)).
    split; [lia|].
    intros (x & [<- | Hx] & Hlt); [lia|].
    assert (received chunks < Z.of_nat (length chunks) * 65536)
      by (apply IH2; now exists x).
    lia.
Qed.

Lemma reports_intro cb to total chunks before after :
  trace after =
    (trace before
     ++ EvProgress cb 0 total :: chunk_events to cb total 65536 0 chunks)%list
  -> reports cb to total chunks before after.
Proof.
  intros Ht. unfold reports.
  assert (Hcalls :
    progress_calls
      (EvProgress cb 0 total :: chunk_events to cb total 65536 0 chunks)
    = map (fun k => (Z.of_nat k * 65536, total))
        (seq 0 (S (length chunks)))).
  { cbn [progress_calls]. rewrite progress_calls_chunk_events.
    cbn [seq map]. f_equal. }
  split; [exact Ht|]. split; [exact Hcalls|]. split.
  - rewrite Hcalls, map_map. simpl fst.
    apply (multiples_sorted 65536 0 (S (length chunks))). lia.
  - split; intros; now apply received_bound.
Qed.

Lemma bind_returns {A B} (m : M A) (k : A -> M B) w w' a :
  m w = (w', inr a) -> bind m k w = k a w'.
Proof. intros H. unfold bind. now rewrite H. Qed.

Lemma bind_raises {A B} (m : M A) (k : A -> M B) w w' e :
  m w = (w', inl e) -> bind m k w = (w', inl e).
Proof. intros H. unfold bind. now rewrite H. Qed.

(** C3. A download with a callback, once the local file is open (for
    [download_file]), its request is answered and the length header
    read, calls the callback with [(0, total)], then
    writes each chunk and calls the callback after it with 65536 more
    than before, whatever the length of the chunk: the values told are
    the multiples of 65536 from 0 up to the number of chunks, strictly
    increasing, and the last exceeds the bytes received as soon as one
    chunk is shorter than 65536.  [total] is the length header read as an
    integer, or [None] without that header. *)
Theorem download_reports_progress c cb remote_path :
  chunk_size c = 65536 ->
  let u := mkUrn remote_path false in
  (forall buff w w1 w2 w3 response total,
     is_dir c (urn_path u) w = (w1, inr false) ->
     check c (urn_path u) w1 = (w2, inr true) ->
     execute_request c "download" (urn_quote u) BodyNone None w2
       = (w3, inr response) ->
     total_of (header_get response "content-length") = inr total ->
     exists w',
       download_from c buff remote_path (Some cb) w = (w', inr tt) /\
       reports cb (SinkBuffer buff) total (chunks response) w3 w') /\
  (forall local_path w w1 w2 w2' w3 response total,
     is_dir c (urn_path u) w = (w1, inr false) ->
     os.isdir w1 local_path = false ->
     check c (urn_path u) w1 = (w2, inr true) ->
     open_wb local_path w2 = (w2', inr tt) ->
     execute_request c "download" (urn_quote u) BodyNone None w2'
       = (w3, inr response) ->
     total_of (header_get response "content-length") = inr total ->
     exists w',
       download_file c remote_path local_path (Some cb) w = (w', inr tt) /\
       reports cb (SinkFile local_path) total (chunks response) w3 w') /\
  (forall response,
     (header_get response "content-length" = None ->
      total_of (header_get response "content-length") = inr None) /\
     (forall s n,
        header_get response "content-length" = Some s ->
        Py.int s = Some n ->
        total_of (header_get response "content-length") = inr (Some n))).
Proof.
  intros Hc u. repeat split.
  - intros buff w w1 w2 w3 response total H1 H2 H3 H4.
    destruct (write_chunks_run c (SinkBuffer buff) cb total (chunks response)
                0 (emit (EvProgress cb 0 total) w3)) as (w' & Hrun & Htr).
    exists w'. split.
    + unfold download_from. apply wrap_returns. fold u.
      rewrite (bind_returns _ _ _ _ _ H1). cbv beta iota.
      erewrite bind_returns by reflexivity.
      rewrite (bind_returns _ _ _ _ _ H2). cbv beta iota. cbn [negb].
      erewrite bind_returns by reflexivity.
      rewrite (bind_returns _ _ _ _ _ H3). cbv beta zeta. rewrite H4.
      erewrite bind_returns by reflexivity.
      erewrite bind_returns by reflexivity.
      unfold write_chunks.
      erewrite bind_returns by exact Hrun. reflexivity.
    + apply reports_intro. rewrite Htr, Hc. simpl.
      now rewrite <- app_assoc.
  - intros local_path w w1 w2 w2' w3 response total H1 Hl1 H2 Hl2 H3 H4.
    destruct (write_chunks_run c (SinkFile local_path) cb total
                (chunks response) 0 (emit (EvProgress cb 0 total) w3))
      as (w' & Hrun & Htr).
    exists w'. split.
    + unfold download_file. apply wrap_returns. fold u.
      rewrite (bind_returns _ _ _ _ _ H1). cbv beta iota.
      erewrite bind_returns by reflexivity.
      erewrite bind_returns by (unfold ask; rewrite Hl1; reflexivity).
      cbv beta iota.
      erewrite bind_returns by reflexivity.
      rewrite (bind_returns _ _ _ _ _ H2). cbv beta iota. cbn [negb].
      erewrite bind_returns by reflexivity.
      rewrite (bind_returns _ _ _ _ _ Hl2).
      rewrite (bind_returns _ _ _ _ _ H3). cbv beta zeta. rewrite H4.
      erewrite bind_returns by reflexivity.
      erewrite bind_returns by reflexivity.
      unfold write_chunks.
      erewrite bind_returns by exact Hrun. reflexivity.
    + apply reports_intro. rewrite Htr, Hc. simpl.
      now rewrite <- app_assoc.
  - intros H. now rewrite H.
  - intros s n H Hn. rewrite H. simpl. now rewrite Hn.
Qed.

End Transfer.

Section Sync.
Context {ext : Externals} {urn : UrnModel} {sub : Subprocess}.
Import ModuleInstaller Trace.

(** What the comparison does. [is_local_more_recent] returns [None] when
    reading the time of the remote [modified] text raises [ValueError];
    an error of the dispatcher raised while the remote metadata is
    fetched is not turned into [None], it reaches the caller; with the
    metadata fetched and both times read it returns whether the remote
    time is strictly less than the local one, so [False] on equal times.
    In the loop of [push], a local file whose name is among the remote
    names is passed over, with nothing sent beyond the comparison and
    [updated] as it was, whenever the comparison returns anything but
    [True]. *)
Theorem comparison_decides_push c :
  (forall local_path remote_path w w1 e,
     info c remote_path w = (w1, inl e) ->
     is_dispatcher_error e = true ->
     is_local_more_recent c local_path remote_path w = (w1, inl e)) /\
  (forall local_path remote_path w w1 i,
     info c remote_path w = (w1, inr i) ->
     (dateutil_timestamp (modified i) = inl ValueError ->
      is_local_more_recent c local_path remote_path w = (w1, inr None)) /\
     (forall r l,
        dateutil_timestamp (modified i) = inr r ->
        os.stat_mtime w1 local_path = inr l ->
        is_local_more_recent c local_path remote_path w
          = (w1, inr (Some (r <? l))) /\
        ((r <? l) = true <-> r < l) /\
        (r = l -> (r <? l) = false))) /\
  (forall recurse depth u local_directory names updated name rest w w1 r,
     os.isdir w (Py.path_join local_directory name) = false ->
     Py.mem name names = true ->
     is_local_more_recent c (Py.path_join local_directory name)
       (urn_path u ++ name) w = (w1, inr r) ->
     r <> Some true ->
     push_entry recurse depth c u local_directory names updated name w
       = (w1, inr updated) /\
     for_fold (name :: rest) updated
       (push_entry recurse depth c u local_directory names) w
     = for_fold rest updated
         (push_entry recurse depth c u local_directory names) w1).
Proof.
  split; [|split].
  - intros local_path remote_path w w1 e Hi He.
    unfold is_local_more_recent, try_except.
    rewrite (bind_raises _ _ _ _ _ Hi).
    destruct e; try discriminate; reflexivity.
  - intros local_path remote_path w w1 i Hi. split.
    + intros Hp. unfold is_local_more_recent, try_except.
      rewrite (bind_returns _ _ _ _ _ Hi). cbv beta zeta.
      unfold bind, lift. rewrite Hp. reflexivity.
    + intros r l Hp Hl. split; [|split].
      * unfold is_local_more_recent, try_except.
        rewrite (bind_returns _ _ _ _ _ Hi). cbv beta zeta.
        unfold bind, lift, ask_result. rewrite Hp, Hl. reflexivity.
      * apply Z.ltb_lt.
      * intros ->. apply Z.ltb_irrefl.
  - intros recurse depth u local_directory names updated name rest w w1 r
      Hd Hm Hr Hn.
    assert (Hskip :
      push_entry recurse depth c u local_directory names updated name w
        = (w1, inr updated)).
    { unfold push_entry.
      erewrite bind_returns by (unfold ask; rewrite Hd; reflexivity).
      cbv beta iota. rewrite Hm.
      erewrite bind_returns
        by (erewrite bind_returns by exact Hr; reflexivity).
      destruct r as [[|]|]; [now destruct Hn | reflexivity | reflexivity]. }
    split; [exact Hskip|]. now rewrite for_fold_cons, Hskip.
Qed.

End Sync.

Section Upload.
Context {ext : Externals} {urn : UrnModel} {sub : Subprocess}.
Import ModuleInstaller Trace.

(** *** The log of a run *)

Lemma log_app keep t1 t2 :
  log keep (t1 ++ t2)%list = (log keep t1 ++ log keep t2)%list.
Proof.
  induction t1 as [|e t1 IH]; simpl; [reflexivity|].
  destruct e; try exact IH. destruct (keep action); simpl; now rewrite IH.
Qed.

Lemma log_session keep action req w :
  log keep (trace (fst (session_request action req w)))
  = (log keep (trace w)
     ++ if keep action then [(action, req_url req)] else [])%list.
Proof.
  unfold session_request. cbn [fst].
  assert (H : log keep (trace (emit (EvRequest action req) w))
              = (log keep (trace w)
                 ++ if keep action then [(action, req_url req)] else [])%list).
  { unfold emit. cbn [trace]. rewrite log_app. simpl.
    now destruct (keep action). }
  destruct (req_data req); try exact H.
  rewrite <- H. generalize (emit (EvRequest action req) w). clear H.
  induction calls as [|[[cb cur] tot] calls IH]; intros w0; simpl.
  - reflexivity.
  - rewrite IH. unfold emit. cbn [trace]. rewrite log_app. simpl.
    now rewrite app_nil_r.
Qed.

Lemma build_request_url c action path data headers_ext req :
  build_request c action path data headers_ext = inr req ->
  req_url req = get_url c path.
Proof.
  unfold build_request.
  destruct (Py.get (requests c) action); [|discriminate].
  destruct (self_get_headers c action headers_ext); [discriminate|].
  intros H. inversion H. reflexivity.
Qed.

Lemma header_pairs_error hs e : header_pairs hs = inl e -> e = ValueError.
Proof.
  induction hs as [|h hs IH]; simpl; [discriminate|].
  destruct (Py.split_colon h) as [[k v]|]; [|congruence].
  destruct (header_pairs hs); [|discriminate].
  intros H. inversion H. subst. now apply IH.
Qed.

Lemma build_request_error c action path data headers_ext e :
  build_request c action path data headers_ext = inl e ->
  is_dispatcher_error e = false.
Proof.
  unfold build_request.
  destruct (Py.get (requests c) action);
    [|intros H; inversion H; reflexivity].
  destruct (self_get_headers c action headers_ext) as [e0|] eqn:E;
    [|discriminate].
  intros H. inversion H. subst e0.
  assert (He : e = ValueError); [|now subst].
  unfold self_get_headers, lock_get_headers, get_headers in E.
  destruct (lock_token c);
    destruct (header_pairs (header_lines c action headers_ext)) eqn:Eh;
    try discriminate; inversion E; subst;
    now apply header_pairs_error in Eh.
Qed.

(** The world [execute_request] leaves. *)
Lemma execute_request_world c action path data headers_ext w w' r :
  execute_request c action path data headers_ext w = (w', r) ->
  (exists e, build_request c action path data headers_ext = inl e /\
             w' = w /\ r = inl e) \/
  (exists req, build_request c action path data headers_ext = inr req /\
               w' = fst (session_request action req w)).
Proof.
  unfold execute_request, bind, lift.
  destruct (build_request c action path data headers_ext) as [e|req].
  - intros H. inversion H. left. now exists e.
  - intros H. right. exists req. split; [reflexivity|].
    destruct (session_request action req w) as [w2 [e|resp]]; cbn [fst].
    + now inversion H.
    + revert H. unfold raise, ret.
      repeat match goal with
             | |- context [if ?b then _ else _] => destruct b
             end; intros H; now inversion H.
Qed.

Lemma execute_request_log keep c action path data headers_ext w w' r :
  execute_request c action path data headers_ext w = (w', r) ->
  (keep action = false \/
   (exists resp, r = inr resp) \/
   (exists e, r = inl e /\ is_dispatcher_error e = true)) ->
  log keep (trace w')
  = (log keep (trace w)
     ++ if keep action then [(action, get_url c path)] else [])%list.
Proof.
  intros H Hcase.
  destruct (execute_request_world _ _ _ _ _ _ _ _ H)
    as [(e & Hb & -> & ->) | (req & Hb & ->)].
  - destruct Hcase as [Hk | [(resp & Hr) | (e' & Hr & He)]].
    + rewrite Hk. now rewrite app_nil_r.
    + discriminate.
    + inversion Hr. subst e'.
      rewrite (build_request_error _ _ _ _ _ _ Hb) in He. discriminate.
  - rewrite log_session. now rewrite (build_request_url _ _ _ _ _ _ Hb).
Qed.

Lemma wrap_world {A} c (fn : M A) w w' r :
  wrap_connection_error c fn w = (w', r) ->
  exists r0, fn w = (w', r0) /\
             (forall a, r = inr a -> r0 = inr a).
Proof.
  unfold wrap_connection_error, try_except.
  destruct (fn w) as [w1 [e|a]].
  - destruct e; unfold raise; intros H; inversion H; subst;
      eexists; (split; [reflexivity|]); intros; discriminate.
  - intros H. inversion H. subst. eexists. split; [reflexivity|]. tauto.
Qed.

Lemma check_log keep c remote_path w w' r :
  check c remote_path w = (w', r) ->
  keep "check" = false ->
  log keep (trace w') = log keep (trace w).
Proof.
  unfold check. intros H Hk.
  destruct (wrap_world _ _ _ _ _ H) as (r0 & H0 & _). clear H.
  destruct (disable_check (webdav c)).
  - inversion H0. reflexivity.
  - revert H0. unfold try_except, bind.
    destruct (execute_request c "check" (urn_quote (mkUrn remote_path false))
                BodyNone None w) as [w1 r1] eqn:E.
    assert (Hl : log keep (trace w1) = log keep (trace w)).
    { rewrite (execute_request_log keep _ _ _ _ _ _ _ _ E) by now left.
      rewrite Hk. now rewrite app_nil_r. }
    destruct r1 as [e|resp].
    + destruct e; unfold ret; intros H0; inversion H0; subst; exact Hl.
    + destruct (status_code resp =? 200); unfold ret; intros H0;
        inversion H0; subst; exact Hl.
Qed.

Lemma print_run isprint text w :
  exists w1, print isprint text w = (w1, inr tt) /\
             forall keep, log keep (trace w1) = log keep (trace w).
Proof.
  unfold print. destruct isprint.
  - eexists. split; [reflexivity|]. intros keep. unfold emit. cbn [trace].
    rewrite log_app. simpl. now rewrite app_nil_r.
  - exists w. split; reflexivity.
Qed.

(** *** [mkdir], request by request *)

Lemma mkcol_log keep c path w1 w' b :
  keep "mkdir" = true ->
  try_except
    (response <- execute_request c "mkdir" path BodyNone None ;;
     ret ((status_code response =? 200) || (status_code response =? 201)))
    (fun e =>
       match e with
       | MethodNotSupported _ _ => Some (ret true)
       | _ => None
       end) w1 = (w', inr b) ->
  log keep (trace w')
  = (log keep (trace w1) ++ [("mkdir", get_url c path)])%list.
Proof.
  intros Hk. rewrite mkcol_phase.
  destruct (execute_request c "mkdir" path BodyNone None w1) as [w2 r2] eqn:E.
  pose proof (execute_request_log keep _ _ _ _ _ _ _ _ E) as Hl.
  rewrite Hk in Hl.
  destruct r2 as [e|resp].
  - destruct e; intros H; inversion H; subst.
    apply Hl. right. right. eexists. split; reflexivity.
  - intros H; inversion H; subst. apply Hl. right. left. now exists resp.
Qed.

Lemma mkdir_log keep depth c :
  keep "check" = false -> keep "mkdir" = true ->
  forall p recursive w w' b,
    mkdir depth c p recursive w = (w', inr b) ->
    exists k,
      (recursive = false -> k = 0%nat) /\
      missing_above c k p w /\
      log keep (trace w')
      = (log keep (trace w) ++ mkcols c (ancestors k p))%list.
Proof.
  intros Hkc Hkm.
  induction depth as [|depth IH]; intros p recursive w w' b H;
    [discriminate|].
  cbn [mkdir] in H.
  destruct (wrap_world _ _ _ _ _ H) as (r0 & H0 & Hr0). clear H.
  rewrite (Hr0 b eq_refl) in H0. clear Hr0 r0.
  unfold bind at 1 in H0.
  destruct (check c (urn_parent (mkUrn p true)) w) as [w1 [e|found]] eqn:Ec;
    [discriminate|].
  pose proof (check_log keep _ _ _ _ _ Ec Hkc) as Hl1.
  destruct found; cbn [negb] in H0.
  - unfold bind at 1 in H0. unfold ret at 1 in H0.
    exists 0%nat. split; [reflexivity|]. split; [now exists w1|].
    rewrite (mkcol_log keep _ _ _ _ _ Hkm H0), Hl1. reflexivity.
  - destruct recursive; [|discriminate].
    unfold bind at 1 in H0. unfold bind at 1 in H0.
    destruct (mkdir depth c (urn_parent (mkUrn p true)) true w1)
      as [w2 [e|b2]] eqn:Em; [discriminate|].
    destruct (IH _ _ _ _ _ Em) as (k & _ & Hmiss & Hl2).
    unfold ret at 1 in H0.
    exists (S k). split; [discriminate|].
    split; [exists w1; now split|].
    rewrite (mkcol_log keep _ _ _ _ _ Hkm H0), Hl2, Hl1.
    cbn [ancestors]. unfold mkcols. rewrite map_app, <- app_assoc.
    reflexivity.
Qed.

Lemma mkdir_quiet keep depth c :
  keep "check" = false -> keep "mkdir" = false ->
  forall p recursive w w' r,
    mkdir depth c p recursive w = (w', r) ->
    log keep (trace w') = log keep (trace w).
Proof.
  intros Hkc Hkm.
  induction depth as [|depth IH]; intros p recursive w w' r H.
  - inversion H. reflexivity.
  - cbn [mkdir] in H.
    destruct (wrap_world _ _ _ _ _ H) as (r0 & H0 & _). clear H.
    unfold bind at 1 in H0.
    destruct (check c (urn_parent (mkUrn p true)) w) as [w1 [e|found]] eqn:Ec;
      pose proof (check_log keep _ _ _ _ _ Ec Hkc) as Hl1;
      [inversion H0; now subst|].
    assert (Hmk : forall w2,
      log keep (trace w2) = log keep (trace w) ->
      try_except
        (response <- execute_request c "mkdir" (urn_quote (mkUrn p true))
                       BodyNone None ;;
         ret ((status_code response =? 200)
              || (status_code response =? 201)))
        (fun e =>
           match e with
           | MethodNotSupported _ _ => Some (ret true)
           | _ => None
           end) w2 = (w', r0) ->
      log keep (trace w') = log keep (trace w)).
    { intros w2 Hl2. rewrite mkcol_phase.
      destruct (execute_request c "mkdir" (urn_quote (mkUrn p true))
                  BodyNone None w2) as [w3 r3] eqn:E.
      pose proof (execute_request_log keep _ _ _ _ _ _ _ _ E
                    (or_introl Hkm)) as Hl3.
      rewrite Hkm, app_nil_r, Hl2 in Hl3.
      destruct r3 as [e|resp]; [destruct e|]; intros Hx; inversion Hx;
        now subst. }
    destruct found; cbn [negb] in H0.
    + unfold bind at 1 in H0. unfold ret at 1 in H0.
      now apply (Hmk w1).
    + destruct recursive.
      * unfold bind at 1 in H0. unfold bind at 1 in H0.
        destruct (mkdir depth c (urn_parent (mkUrn p true)) true w1)
          as [w2 [e|b2]] eqn:Em;
          pose proof (IH _ _ _ _ _ Em) as Hl2; rewrite Hl1 in Hl2.
        -- inversion H0. now subst.
        -- unfold ret at 1 in H0. now apply (Hmk w2).
      * unfold bind at 1 in H0. unfold raise at 1 in H0.
        inversion H0. now subst.
Qed.

Lemma mkdir_never_transport depth c p recursive w w' e :
  mkdir depth c p recursive w = (w', inl e) -> is_transport_error e = false.
Proof.
  destruct depth as [|depth]; cbn [mkdir].
  - intros H. inversion H. reflexivity.
  - apply wrap_never_transport.
Qed.

Lemma build_request_raises c action path data headers_ext e :
  build_request c action path data headers_ext = inl e ->
  e = KeyError \/ e = ValueError.
Proof.
  unfold build_request.
  destruct (Py.get (requests c) action);
    [|intros H; inversion H; now left].
  destruct (self_get_headers c action headers_ext) as [e0|] eqn:E;
    [|discriminate].
  intros H. inversion H. subst e0. right.
  unfold self_get_headers, lock_get_headers, get_headers in E.
  destruct (lock_token c);
    destruct (header_pairs (header_lines c action headers_ext)) eqn:Eh;
    try discriminate; inversion E; subst;
    now apply header_pairs_error in Eh.
Qed.

Lemma execute_request_raises c action path data headers_ext w w' e :
  execute_request c action path data headers_ext w = (w', inl e) ->
  e = KeyError \/ e = ValueError \/ is_transport_error e = true
  \/ is_dispatcher_error e = true.
Proof.
  unfold execute_request, bind, lift.
  destruct (build_request c action path data headers_ext) as [e0|req] eqn:Eb.
  - intros H. inversion H. subst e0.
    destruct (build_request_raises _ _ _ _ _ _ Eb); tauto.
  - unfold session_request.
    destruct (server w (sent w) req) as [[x|x]|resp].
    + intros H. inversion H. right. right. now left.
    + intros H. inversion H. right. right. now left.
    + unfold raise, ret.
      repeat match goal with
             | |- context [if ?b then _ else _] => destruct b
             end; intros H; inversion H; right; right; now right.
Qed.

Lemma wrap_recursion_error {A} c (fn : M A) w w' :
  wrap_connection_error c fn w = (w', inl RecursionError) ->
  fn w = (w', inl RecursionError).
Proof.
  unfold wrap_connection_error, try_except.
  destruct (fn w) as [w1 [e|a]]; [|discriminate].
  destruct e; unfold raise; intros H; inversion H; reflexivity.
Qed.

(** [mkdir] does not run out of depth when its depth is above the number
    of the ancestors that are missing. *)
Lemma mkdir_enough_depth c k :
  forall depth p w w',
    missing_above c k p w -> (k < depth)%nat ->
    mkdir depth c p true w <> (w', inl RecursionError).
Proof.
  assert (Hmk : forall path w1 w',
    try_except
      (response <- execute_request c "mkdir" path BodyNone None ;;
       ret ((status_code response =? 200) || (status_code response =? 201)))
      (fun e =>
         match e with
         | MethodNotSupported _ _ => Some (ret true)
         | _ => None
         end) w1 <> (w', inl RecursionError)).
  { intros path w1 w'. rewrite mkcol_phase.
    destruct (execute_request c "mkdir" path BodyNone None w1)
      as [w2 [e|resp]] eqn:E; [|discriminate].
    destruct (execute_request_raises _ _ _ _ _ _ _ _ E)
      as [-> | [-> | [He | He]]]; try discriminate;
      destruct e; try discriminate. }
  induction k as [|k IH]; intros depth p w w' Hm Hlt H;
    (destruct depth as [|depth]; [lia|]);
    cbn [mkdir] in H; apply wrap_recursion_error in H;
    cbn [missing_above] in Hm.
  - destruct Hm as (w1 & Hc). fold (above p) in H.
    rewrite (bind_returns _ _ _ _ _ Hc) in H. cbn [negb] in H.
    erewrite bind_returns in H by reflexivity.
    exact (Hmk _ _ _ H).
  - destruct Hm as (w1 & Hc & Hm). fold (above p) in H.
    rewrite (bind_returns _ _ _ _ _ Hc) in H. cbn [negb] in H.
    unfold bind at 1 in H. unfold bind at 1 in H.
    destruct (mkdir depth c (above p) true w1) as [w2 [e|b]] eqn:Em.
    + inversion H. subst. apply (IH depth (above p) w1 w' Hm); [lia|].
      exact Em.
    + unfold ret at 1 in H. exact (Hmk _ _ _ H).
Qed.

(** *** [upload_file] *)

(** [upload_file] from the check of the remote parent on. *)
Lemma upload_file_reaches_check depth c remote_path local_path progress
    force isprint w :
  os.exists_ w local_path = true ->
  urn_is_dir (mkUrn remote_path false) = false ->
  os.isdir w local_path = false ->
  upload_file depth c remote_path local_path progress force isprint w =
  wrap_connection_error c (
    let u := mkUrn remote_path false in
    found <- check c (urn_parent u) ;;
    (if negb found then
       if force then mkdir depth c (urn_parent u) true ;; ret tt
       else raise (RemoteParentNotFound (urn_path u))
     else ret tt) ;;
    print isprint "Installing packages" ;;
    local_file <- ask_result (fun w => os.read w local_path) ;;
    total <- ask_result (fun w => os.getsize w local_path) ;;
    print isprint "Installed packages" ;;
    match progress with
    | Some cb =>
        execute_request c "upload" (urn_quote u)
          (read_in_chunks c cb total local_file) None ;; ret tt
    | None =>
        execute_request c "upload" (urn_quote u) (BodyFile local_file) None ;;
        ret tt
    end) w.
Proof.
  intros He Hu Hl. unfold upload_file, wrap_connection_error, try_except.
  erewrite bind_returns by (unfold ask; rewrite He; reflexivity).
  cbv beta iota. cbn [negb].
  erewrite bind_returns by reflexivity.
  cbv zeta. rewrite Hu.
  erewrite bind_returns by reflexivity.
  erewrite bind_returns by (unfold ask; rewrite Hl; reflexivity).
  cbv beta iota.
  erewrite bind_returns by reflexivity.
  reflexivity.
Qed.

(** *** [upload_directory] *)

Lemma for_each_skipping {A} (skip : A -> bool) (f : A -> M unit) l w :
  for_each l (fun x => if skip x then ret tt else f x) w
  = for_each (filter (fun x => negb (skip x)) l) f w.
Proof.
  revert w. induction l as [|x l IH]; intros w; [reflexivity|].
  rewrite for_each_cons. cbn [filter].
  destruct (skip x); cbn [negb].
  - unfold ret at 1. apply IH.
  - rewrite for_each_cons. destruct (f x w) as [w1 [e|[]]]; [reflexivity|].
    apply IH.
Qed.

Lemma clean_log keep c remote_path w w' :
  clean c remote_path w = (w', inr tt) ->
  log keep (trace w')
  = (log keep (trace w)
     ++ if keep "clean"
        then [("clean", get_url c (urn_quote (mkUrn remote_path false)))]
        else [])%list.
Proof.
  unfold clean. intros H.
  destruct (wrap_world _ _ _ _ _ H) as (r0 & H0 & Hr0). clear H.
  rewrite (Hr0 tt eq_refl) in H0. unfold bind in H0.
  destruct (execute_request c "clean" (urn_quote (mkUrn remote_path false))
              BodyNone None w) as [w1 [e|resp]] eqn:E; [discriminate|].
  inversion H0. subst w1.
  apply (execute_request_log keep _ _ _ _ _ _ _ _ E).
  right. left. now exists resp.
Qed.

(** C4, as the code has it. A run of [upload_directory] that returns has
    checked the remote directory, deleted it exactly when the check
    answered [True], then created it, and then run [upload], in the
    order of the listing, on each entry of the local directory whose
    name contains none of the texts of [lista]; an entry whose name
    contains one is passed over with no effect. *)
Theorem upload_directory_order depth c remote_path local_path progress
    isprint w w' :
  let u := mkUrn remote_path true in
  upload_directory (S depth) c remote_path local_path progress isprint w
    = (w', inr tt) ->
  exists found w1 w2 w3 names w4,
    check c (urn_path u) w = (w1, inr found) /\
    (if found : bool then clean c (urn_path u) w1 = (w2, inr tt)
     else w2 = w1) /\
    (exists b, mkdir depth c remote_path false w2 = (w3, inr b)) /\
    log changes (trace w3)
    = (log changes (trace w)
       ++ (if found
           then [("clean", get_url c (urn_quote (mkUrn (urn_path u) false)))]
           else [])
       ++ [("mkdir", get_url c (urn_quote u))])%list /\
    listdir local_path w3 = (w3, inr names) /\
    for_each (filter (fun resource_name => negb (aboba resource_name)) names)
      (fun resource_name =>
         upload depth c (Py.drop_backslash (urn_path u ++ resource_name))
           (Py.path_join local_path resource_name) progress isprint) w3
      = (w4, inr tt) /\
    w' = (if isprint then fst (pip_install w4) else w4).
Proof.
  intros u H. cbn [upload_directory] in H. fold u in H.
  destruct (urn_is_dir u); cbn [negb] in H; [|discriminate].
  erewrite bind_returns in H by reflexivity.
  unfold bind at 1 in H. unfold ask at 1 in H.
  destruct (os.isdir w local_path); cbn [negb] in H; [|discriminate].
  erewrite bind_returns in H by reflexivity.
  unfold bind at 1 in H. unfold ask at 1 in H.
  destruct (os.exists_ w local_path); cbn [negb] in H; [|discriminate].
  erewrite bind_returns in H by reflexivity.
  unfold bind at 1 in H.
  destruct (check c (urn_path u) w) as [w1 [e|found]] eqn:Ec;
    [discriminate|].
  pose proof (check_log changes _ _ _ _ _ Ec eq_refl) as Hl1.
  assert (Hclean : exists w2,
    (if found : bool then clean c (urn_path u) else ret tt) w1
      = (w2, inr tt) /\
    (if found : bool then clean c (urn_path u) w1 = (w2, inr tt)
     else w2 = w1) /\
    log changes (trace w2)
    = (log changes (trace w)
       ++ (if found
           then [("clean", get_url c (urn_quote (mkUrn (urn_path u) false)))]
           else []))%list).
  { unfold bind at 1 in H. destruct found.
    - destruct (clean c (urn_path u) w1) as [w2 [e|[]]] eqn:Ecl;
        [discriminate|].
      exists w2. repeat split.
      rewrite (clean_log changes _ _ _ _ Ecl), Hl1. reflexivity.
    - exists w1. repeat split. now rewrite app_nil_r. }
  destruct Hclean as (w2 & Hcl & Hcl' & Hl2).
  rewrite (bind_returns _ _ _ _ _ Hcl) in H.
  unfold bind at 1 in H.
  destruct (mkdir depth c remote_path false w2) as [w3 [e|b]] eqn:Em;
    [discriminate|].
  destruct (mkdir_log changes depth c eq_refl eq_refl _ _ _ _ _ Em)
    as (k & Hk & _ & Hl3).
  rewrite (Hk eq_refl) in Hl3. clear Hk k.
  unfold bind at 1 in H. unfold listdir at 1 in H.
  destruct (os.listdir w3 local_path) as [e|raw] eqn:El; [discriminate|].
  unfold bind at 1 in H.
  rewrite for_each_skipping in H.
  match type of H with
  | context [for_each ?l ?f w3] =>
      destruct (for_each l f w3) as [w4 [e|[]]] eqn:Ef; [discriminate|]
  end.
  exists found, w1, w2, w3.
  eexists. exists w4.
  split; [reflexivity|]. split; [exact Hcl'|].
  split; [now exists b|]. split.
  { rewrite Hl3, Hl2, <- app_assoc. reflexivity. }
  split.
  { unfold listdir. rewrite El. reflexivity. }
  split; [exact Ef|].
  destruct isprint; inversion H; reflexivity.
Qed.

End Upload.

(** * What a method leaves alone *)

Section Keeps.
Context {ext : Externals} {urn : UrnModel} {sub : Subprocess}.
Import ModuleInstaller Trace.

Variable R : World -> World -> Prop.
Variable allowed : string -> Prop.
Hypothesis R_refl : forall w, R w w.
Hypothesis R_trans : forall w1 w2 w3, R w1 w2 -> R w2 w3 -> R w1 w3.
Hypothesis R_request :
  forall action req w,
    allowed action -> R w (fst (session_request action req w)).
Hypothesis R_emit :
  forall e w, request_of e = None -> R w (emit e w).
Hypothesis R_set_file : forall p n w, R w (set_file p n w).

Lemma keeps_ret {A} (a : A) : keeps R (ret a).
Proof. intros w w' r H. inversion H. apply R_refl. Qed.

Lemma keeps_raise {A} e : keeps R (@raise A e).
Proof. intros w w' r H. inversion H. apply R_refl. Qed.

Lemma keeps_lift {A} (x : Result A) : keeps R (lift x).
Proof. intros w w' r H. inversion H. apply R_refl. Qed.

Lemma keeps_ask {A} (f : World -> A) : keeps R (ask f).
Proof. intros w w' r H. inversion H. apply R_refl. Qed.

Lemma keeps_ask_result {A} (f : World -> Result A) : keeps R (ask_result f).
Proof. intros w w' r H. inversion H. apply R_refl. Qed.

Lemma keeps_bind {A B} (m : M A) (k : A -> M B) :
  keeps R m -> (forall a, keeps R (k a)) -> keeps R (bind m k).
Proof.
  intros Hm Hk w w' r. unfold bind.
  destruct (m w) as [w1 [e|a]] eqn:E; intros H.
  - inversion H. subst. exact (Hm _ _ _ E).
  - exact (R_trans _ _ _ (Hm _ _ _ E) (Hk a _ _ _ H)).
Qed.

Lemma keeps_try_except {A} (m : M A) h :
  keeps R m -> (forall e k, h e = Some k -> keeps R k) ->
  keeps R (try_except m h).
Proof.
  intros Hm Hh w w' r. unfold try_except.
  destruct (m w) as [w1 [e|a]] eqn:E; intros H.
  - destruct (h e) as [k|] eqn:Eh.
    + exact (R_trans _ _ _ (Hm _ _ _ E) (Hh _ _ Eh _ _ _ H)).
    + inversion H. subst. exact (Hm _ _ _ E).
  - inversion H. subst. exact (Hm _ _ _ E).
Qed.

Lemma keeps_wrap {A} c (m : M A) :
  keeps R m -> keeps R (wrap_connection_error c m).
Proof.
  intros Hm. apply keeps_try_except; [exact Hm|].
  intros e k. destruct e; intros H; inversion H; apply keeps_raise.
Qed.

Lemma keeps_for_each {A} (l : list A) body :
  (forall x, keeps R (body x)) -> keeps R (for_each l body).
Proof.
  intros Hb. induction l as [|x l IH]; [apply keeps_ret|].
  apply keeps_bind; [apply Hb | intros _; exact IH].
Qed.

Lemma keeps_for_fold {A St} (l : list A) (s : St) body :
  (forall s x, keeps R (body s x)) -> keeps R (for_fold l s body).
Proof.
  intros Hb. revert s. induction l as [|x l IH]; intros s; [apply keeps_ret|].
  apply keeps_bind; [apply Hb | intros s'; apply IH].
Qed.

Lemma keeps_tell e : request_of e = None -> keeps R (tell e).
Proof. intros He w w' r H. inversion H. now apply R_emit. Qed.

Lemma keeps_execute_request c action path data headers_ext :
  allowed action -> keeps R (execute_request c action path data headers_ext).
Proof.
  intros Ha w w' r H.
  destruct (execute_request_world _ _ _ _ _ _ _ _ H)
    as [(e & _ & -> & _) | (req & _ & ->)].
  - apply R_refl.
  - now apply R_request.
Qed.

Lemma keeps_check c remote_path : allowed "check" -> keeps R (check c remote_path).
Proof.
  intros Ha. unfold check. apply keeps_wrap.
  destruct (disable_check (webdav c)); [apply keeps_ret|].
  apply keeps_try_except.
  - apply keeps_bind; [now apply keeps_execute_request|].
    intros resp. destruct (status_code resp =? 200); apply keeps_ret.
  - intros e k. destruct e; intros H; inversion H. apply keeps_ret.
Qed.

Lemma keeps_mkdir depth c :
  allowed "check" -> allowed "mkdir" ->
  forall remote_path recursive, keeps R (mkdir depth c remote_path recursive).
Proof.
  intros Hc Hm. induction depth as [|depth IH]; intros remote_path recursive;
    cbn [mkdir]; [apply keeps_raise|].
  apply keeps_wrap. apply keeps_bind; [now apply keeps_check|].
  intros found. apply keeps_bind.
  - destruct found; cbn [negb]; [apply keeps_ret|].
    destruct recursive; [|apply keeps_raise].
    apply keeps_bind; [apply IH | intros; apply keeps_ret].
  - intros _. apply keeps_try_except.
    + apply keeps_bind; [now apply keeps_execute_request|].
      intros; apply keeps_ret.
    + intros e k. destruct e; intros H; inversion H. apply keeps_ret.
Qed.

Lemma keeps_check_remote_resource c remote_path u :
  allowed "check" -> keeps R (_check_remote_resource c remote_path u).
Proof.
  intros Ha. unfold _check_remote_resource.
  apply keeps_bind; [now apply keeps_check|].
  intros a. destruct a; [apply keeps_ret|].
  apply keeps_bind; [now apply keeps_check|].
  intros b. destruct b; [apply keeps_ret | apply keeps_raise].
Qed.

Lemma keeps_is_dir c remote_path :
  allowed "check" -> allowed "info" -> keeps R (is_dir c remote_path).
Proof.
  intros Hc Hi. unfold is_dir. apply keeps_wrap.
  apply keeps_bind; [now apply keeps_check_remote_resource|].
  intros _. apply keeps_bind; [now apply keeps_execute_request|].
  intros resp. apply keeps_lift.
Qed.

Lemma keeps_info c remote_path :
  allowed "check" -> allowed "info" -> keeps R (info c remote_path).
Proof.
  intros Hc Hi. unfold info. apply keeps_wrap.
  apply keeps_bind; [now apply keeps_check_remote_resource|].
  intros _. apply keeps_bind; [now apply keeps_execute_request|].
  intros resp. apply keeps_lift.
Qed.

Lemma keeps_list c remote_path get_info recursive :
  allowed "check" -> allowed "list" ->
  keeps R (list_ c remote_path get_info recursive).
Proof.
  intros Hc Hl. unfold list_. apply keeps_wrap.
  apply keeps_bind.
  - destruct (negb _); [|apply keeps_ret].
    apply keeps_bind; [now apply keeps_check | intros; apply keeps_ret].
  - intros missing. apply keeps_bind.
    + destruct missing; [apply keeps_raise | apply keeps_ret].
    + intros _. apply keeps_bind; [now apply keeps_execute_request|].
      intros resp. destruct get_info; apply keeps_ret.
Qed.

Lemma keeps_is_local_more_recent c local_path remote_path :
  allowed "check" -> allowed "info" ->
  keeps R (is_local_more_recent c local_path remote_path).
Proof.
  intros Hc Hi. unfold is_local_more_recent. apply keeps_try_except.
  - apply keeps_bind; [now apply keeps_info|].
    intros i. apply keeps_bind; [apply keeps_lift|].
    intros r. apply keeps_bind; [apply keeps_ask_result|].
    intros l. apply keeps_ret.
  - intros e k. destruct e; intros H; inversion H; apply keeps_ret.
Qed.

Lemma keeps_print isprint text : keeps R (print isprint text).
Proof.
  unfold print. destruct isprint; [now apply keeps_tell | apply keeps_ret].
Qed.

Lemma keeps_upload_file depth c remote_path local_path progress force isprint :
  allowed "check" -> allowed "mkdir" -> allowed "upload" ->
  keeps R (upload_file depth c remote_path local_path progress force isprint).
Proof.
  intros Hc Hm Hu. unfold upload_file. apply keeps_wrap.
  apply keeps_bind; [apply keeps_ask|]. intros present.
  apply keeps_bind; [destruct (negb present);
                     [apply keeps_raise | apply keeps_ret]|].
  intros _. cbv zeta.
  apply keeps_bind; [destruct (urn_is_dir _);
                     [apply keeps_raise | apply keeps_ret]|].
  intros _. apply keeps_bind; [apply keeps_ask|]. intros ld.
  apply keeps_bind; [destruct ld; [apply keeps_raise | apply keeps_ret]|].
  intros _. apply keeps_bind; [now apply keeps_check|]. intros found.
  apply keeps_bind.
  { destruct (negb found); [|apply keeps_ret].
    destruct force; [|apply keeps_raise].
    apply keeps_bind; [now apply keeps_mkdir | intros; apply keeps_ret]. }
  intros _. apply keeps_bind; [apply keeps_print|].
  intros _. apply keeps_bind; [apply keeps_ask_result|]. intros local_file.
  apply keeps_bind; [apply keeps_ask_result|]. intros total.
  apply keeps_bind; [apply keeps_print|]. intros _.
  destruct progress;
    (apply keeps_bind;
     [now apply keeps_execute_request | intros; apply keeps_ret]).
Qed.

Lemma keeps_validate_remote c u :
  allowed "check" -> allowed "info" ->
  keeps R (_validate_remote_directory c u).
Proof.
  intros Hc Hi. unfold _validate_remote_directory.
  apply keeps_bind; [now apply keeps_is_dir|].
  intros d. destruct (negb d); [apply keeps_raise | apply keeps_ret].
Qed.

Lemma keeps_validate_local local_directory :
  keeps R (_validate_local_directory local_directory).
Proof.
  unfold _validate_local_directory.
  apply keeps_bind; [apply keeps_ask|]. intros ld.
  apply keeps_bind; [destruct (negb ld);
                     [apply keeps_raise | apply keeps_ret]|].
  intros _. apply keeps_bind; [apply keeps_ask|]. intros present.
  destruct (negb present); [apply keeps_raise | apply keeps_ret].
Qed.

Lemma keeps_listdir directory : keeps R (listdir directory).
Proof.
  intros w w' r. unfold listdir.
  destruct (os.listdir w directory); intros H; inversion H; apply R_refl.
Qed.

Lemma keeps_push depth c :
  (forall a, In a push_actions -> allowed a) ->
  forall remote_directory local_directory,
    keeps R (push depth c remote_directory local_directory).
Proof.
  intros Ha.
  assert (Hc : allowed "check") by (apply Ha; simpl; tauto).
  assert (Hi : allowed "info") by (apply Ha; simpl; tauto).
  assert (Hl : allowed "list") by (apply Ha; simpl; tauto).
  assert (Hm : allowed "mkdir") by (apply Ha; simpl; tauto).
  assert (Hu : allowed "upload") by (apply Ha; simpl; tauto).
  induction depth as [|depth IH]; intros remote_directory local_directory;
    cbn [push]; [apply keeps_raise|].
  apply keeps_bind; [now apply keeps_validate_remote|]. intros _.
  apply keeps_bind; [apply keeps_validate_local|]. intros _.
  apply keeps_bind; [now apply keeps_list|]. intros paths.
  apply keeps_bind; [apply keeps_lift|]. intros names.
  apply keeps_bind; [apply keeps_listdir|]. intros locals.
  apply keeps_for_fold. intros updated name. unfold push_entry.
  apply keeps_bind; [apply keeps_ask|]. intros ld. destruct ld.
  - apply keeps_bind; [now apply keeps_check|]. intros found.
    apply keeps_bind.
    { destruct (negb found); [|apply keeps_ret].
      apply keeps_bind; [now apply keeps_mkdir | intros; apply keeps_ret]. }
    intros _. apply keeps_bind; [apply IH | intros; apply keeps_ret].
  - apply keeps_bind.
    { destruct (Py.mem _ _); [|apply keeps_ret].
      apply keeps_bind; [now apply keeps_is_local_more_recent|].
      intros; apply keeps_ret. }
    intros skip. destruct skip; [apply keeps_ret|].
    apply keeps_bind; [now apply keeps_upload_file | intros; apply keeps_ret].
Qed.

Lemma keeps_clean c remote_path :
  allowed "clean" -> keeps R (clean c remote_path).
Proof.
  intros Ha. unfold clean. apply keeps_wrap.
  apply keeps_bind; [now apply keeps_execute_request | intros; apply keeps_ret].
Qed.

Lemma keeps_upload c (isprint : bool) :
  allowed "check" -> allowed "mkdir" -> allowed "clean" -> allowed "upload" ->
  (isprint = true -> forall w, R w (fst (pip_install w))) ->
  forall depth,
    (forall remote_path local_path progress,
       keeps R (upload depth c remote_path local_path progress isprint)) /\
    (forall remote_path local_path progress,
       keeps R (upload_directory depth c remote_path local_path progress
                  isprint)).
Proof.
  intros Hc Hm Hd Hu Hpip. induction depth as [|depth [IHu IHd]].
  - split; intros; apply keeps_raise.
  - split; intros remote_path local_path progress.
    + cbn [upload]. apply keeps_bind; [apply keeps_ask|]. intros ld.
      destruct ld; [apply IHd | now apply keeps_upload_file].
    + cbn [upload_directory].
      apply keeps_bind; [destruct (negb _);
                         [apply keeps_raise | apply keeps_ret]|].
      intros _. apply keeps_bind; [apply keeps_ask|]. intros ld.
      apply keeps_bind; [destruct (negb ld);
                         [apply keeps_raise | apply keeps_ret]|].
      intros _. apply keeps_bind; [apply keeps_ask|]. intros present.
      apply keeps_bind; [destruct (negb present);
                         [apply keeps_raise | apply keeps_ret]|].
      intros _. apply keeps_bind; [now apply keeps_check|]. intros found.
      apply keeps_bind; [destruct found;
                         [now apply keeps_clean | apply keeps_ret]|].
      intros _. apply keeps_bind; [now apply keeps_mkdir|]. intros _.
      apply keeps_bind; [apply keeps_listdir|]. intros names.
      apply keeps_bind.
      * apply keeps_for_each. intros name.
        destruct (aboba name); [apply keeps_ret | apply IHu].
      * intros _. destruct isprint; [|apply keeps_ret].
        intros w0 w1 r H. inversion H. apply (Hpip eq_refl w0).
Qed.

Lemma keeps_write to chunk : keeps R (write to chunk).
Proof.
  intros w w' r. unfold write.
  assert (He : R w (emit (EvWrite to chunk) w)) by now apply R_emit.
  destruct to as [b|p].
  - intros H. inversion H. subst. exact He.
  - destruct (lfs (emit (EvWrite (SinkFile p) chunk) w) p) as [[m d|m l]|];
      intros H; inversion H; subst;
      exact (R_trans _ _ _ He (R_set_file _ _ _)).
Qed.

Lemma keeps_call_progress progress current total :
  keeps R (call_progress progress current total).
Proof.
  unfold call_progress. destruct progress; [now apply keeps_tell|].
  apply keeps_ret.
Qed.

Lemma keeps_download_file c remote_path local_path progress :
  allowed "check" -> allowed "info" -> allowed "download" ->
  keeps R (download_file c remote_path local_path progress).
Proof.
  intros Hc Hi Hd. unfold download_file. apply keeps_wrap. cbv zeta.
  apply keeps_bind; [now apply keeps_is_dir|]. intros d.
  apply keeps_bind; [destruct d; [apply keeps_raise | apply keeps_ret]|].
  intros _. apply keeps_bind; [apply keeps_ask|]. intros ld.
  apply keeps_bind; [destruct ld; [apply keeps_raise | apply keeps_ret]|].
  intros _. apply keeps_bind; [now apply keeps_check|]. intros found.
  apply keeps_bind; [destruct (negb found);
                     [apply keeps_raise | apply keeps_ret]|].
  intros _. apply keeps_bind.
  { intros w w' r. unfold open_wb.
    destruct (os.isdir w local_path || Py.endswith local_path "/");
      [intros H; inversion H; apply R_refl|].
    destruct (lfs w (os.dirname local_path)) as [[m data|m names]|];
      try (intros H; inversion H; apply R_refl).
    destruct (lfs w local_path); intros H; inversion H; subst.
    - apply R_set_file.
    - exact (R_trans _ _ _ (R_set_file _ _ _) (R_set_file _ _ _)). }
  intros _. apply keeps_bind; [now apply keeps_execute_request|].
  intros response. apply keeps_bind; [apply keeps_lift|]. intros total.
  apply keeps_bind; [apply keeps_call_progress|]. intros _.
  apply keeps_bind; [|intros; apply keeps_ret].
  unfold write_chunks. apply keeps_for_fold. intros current chunk.
  apply keeps_bind; [apply keeps_write|]. intros _.
  apply keeps_bind; [apply keeps_call_progress | intros; apply keeps_ret].
Qed.

Lemma keeps_os_mkdir p : keeps R (os_mkdir p).
Proof.
  intros w w' r. unfold os_mkdir, os.mkdir.
  destruct (lfs w _) as [n|]; [intros H; inversion H; apply R_refl|].
  destruct (lfs w _) as [[m d|m names]|];
    intros H; inversion H; subst; try apply R_refl.
  exact (R_trans _ _ _ (R_set_file _ _ _) (R_set_file _ _ _)).
Qed.

Lemma keeps_pull depth c :
  (forall a, In a pull_actions -> allowed a) ->
  forall remote_directory local_directory,
    keeps R (pull depth c remote_directory local_directory).
Proof.
  intros Ha.
  assert (Hc : allowed "check") by (apply Ha; simpl; tauto).
  assert (Hi : allowed "info") by (apply Ha; simpl; tauto).
  assert (Hl : allowed "list") by (apply Ha; simpl; tauto).
  assert (Hd : allowed "download") by (apply Ha; simpl; tauto).
  induction depth as [|depth IH]; intros remote_directory local_directory;
    cbn [pull]; [apply keeps_raise|].
  apply keeps_bind; [now apply keeps_validate_remote|]. intros _.
  apply keeps_bind; [apply keeps_validate_local|]. intros _.
  apply keeps_bind; [apply keeps_listdir|]. intros locals.
  apply keeps_bind; [now apply keeps_list|]. intros paths.
  apply keeps_bind; [apply keeps_lift|]. intros names.
  apply keeps_for_fold. intros updated name. unfold pull_entry.
  destruct (Py.endswith _ name); [apply keeps_ret|]. cbv zeta.
  destruct (Py.endswith _ "/").
  - apply keeps_bind; [apply keeps_ask|]. intros present.
    apply keeps_bind.
    { destruct (negb present); [|apply keeps_ret].
      apply keeps_bind; [apply keeps_os_mkdir | intros; apply keeps_ret]. }
    intros updated'. apply keeps_bind; [apply IH | intros; apply keeps_ret].
  - apply keeps_bind.
    { destruct (Py.mem _ _); [|apply keeps_ret].
      apply keeps_bind; [now apply keeps_is_local_more_recent|].
      intros; apply keeps_ret. }
    intros skip. destruct skip; [apply keeps_ret|].
    apply keeps_bind; [now apply keeps_download_file|].
    intros; apply keeps_ret.
Qed.

End Keeps.

Section Never.
Context {ext : Externals} {urn : UrnModel} {sub : Subprocess}.
Import ModuleInstaller Trace.

Lemma same_log_refl keep w : same_log keep w w.
Proof. reflexivity. Qed.

Lemma same_log_trans keep w1 w2 w3 :
  same_log keep w1 w2 -> same_log keep w2 w3 -> same_log keep w1 w3.
Proof. unfold same_log. congruence. Qed.

Lemma same_log_request keep action req w :
  keep action = false ->
  same_log keep w (fst (session_request action req w)).
Proof.
  intros Hk. unfold same_log. rewrite log_session, Hk. apply app_nil_r.
Qed.

Lemma same_log_emit keep e w :
  request_of e = None -> same_log keep w (emit e w).
Proof.
  intros He. unfold same_log, emit. cbn [trace]. rewrite log_app.
  destruct e; try discriminate; apply app_nil_r.
Qed.

Lemma same_log_set_file keep p n w : same_log keep w (set_file p n w).
Proof. reflexivity. Qed.

Lemma same_files_trans w1 w2 w3 :
  same_files w1 w2 -> same_files w2 w3 -> same_files w1 w3.
Proof. unfold same_files. congruence. Qed.

Lemma same_files_request action req w :
  same_files w (fst (session_request action req w)).
Proof.
  unfold same_files, session_request. cbn [fst].
  destruct (req_data req); try reflexivity.
  assert (H : forall w0,
    lfs (fold_left (fun w' (k : string * Z * option Z) =>
                      let '(cb, current, total) := k in
                      emit (EvProgress cb current total) w') calls w0)
    = lfs w0).
  { induction calls as [|[[cb cur] tot] calls IH]; intros w0; simpl;
      [reflexivity | now rewrite IH]. }
  now rewrite H.
Qed.

Lemma push_requests_allowed keep depth c remote_directory
    local_directory w :
  leaves_out keep push_actions ->
  log keep (trace (fst (push depth c remote_directory local_directory w)))
  = log keep (trace w).
Proof.
  intros Hk.
  destruct (push depth c remote_directory local_directory w) as [w' r] eqn:E.
  refine (keeps_push (same_log keep) (fun a => keep a = false)
            (same_log_refl keep) (same_log_trans keep) _ _ depth c Hk
            _ _ _ _ _ E).
  - intros action req w0. apply same_log_request.
  - intros e w0. apply same_log_emit.
Qed.

(** X1. Whatever the run of [push] and however it ends, the requests it
    sends are for the actions check, info, list, mkdir and upload: for any
    choice of other actions, none of theirs is added to the trace; so
    [push] deletes nothing and downloads nothing. *)
Theorem push_sends_only_its_requests keep depth c remote_directory
    local_directory w :
  leaves_out keep push_actions ->
  log keep (trace (fst (push depth c remote_directory local_directory w)))
  = log keep (trace w).
Proof. apply push_requests_allowed. Qed.

(** X2. No run of [push] or of [upload_file] changes the local file
    system, and neither does a run of [upload] or of [upload_directory]
    with [isprint] unset, in which [pip_install] is never reached. *)
Theorem uploads_keep_local_files depth c remote_path local_path w :
  lfs (fst (push depth c remote_path local_path w)) = lfs w /\
  (forall progress force isprint,
     lfs (fst (upload_file depth c remote_path local_path progress force
                 isprint w)) = lfs w) /\
  (forall progress,
     lfs (fst (upload depth c remote_path local_path progress false w))
     = lfs w /\
     lfs (fst (upload_directory depth c remote_path local_path progress
                 false w)) = lfs w).
Proof.
  assert (Hr : forall w0, same_files w0 w0) by reflexivity.
  assert (Hq : forall action req w0,
            True -> same_files w0 (fst (session_request action req w0)))
    by (intros; apply same_files_request).
  assert (He : forall e w0, request_of e = None -> same_files w0 (emit e w0))
    by reflexivity.
  assert (Hp : false = true -> forall w0, same_files w0 (fst (pip_install w0)))
    by discriminate.
  split; [|split; [|intros progress; split]].
  - destruct (push depth c remote_path local_path w) as [w' r] eqn:E.
    exact (keeps_push same_files (fun _ => True) Hr same_files_trans Hq He
             depth c (fun _ _ => I) _ _ _ _ _ E).
  - intros progress force isprint.
    destruct (upload_file depth c remote_path local_path progress force
                isprint w) as [w' r] eqn:E.
    exact (keeps_upload_file same_files (fun _ => True) Hr same_files_trans
             Hq He depth c _ _ _ _ _ I I I _ _ _ E).
  - destruct (upload depth c remote_path local_path progress false w)
      as [w' r] eqn:E.
    exact (proj1 (keeps_upload same_files (fun _ => True) Hr same_files_trans
                    Hq He c false I I I I Hp depth) _ _ _ _ _ _ E).
  - destruct (upload_directory depth c remote_path local_path progress
                false w) as [w' r] eqn:E.
    exact (proj2 (keeps_upload same_files (fun _ => True) Hr same_files_trans
                    Hq He c false I I I I Hp depth) _ _ _ _ _ _ E).
Qed.

Lemma pull_requests_allowed keep depth c remote_directory
    local_directory w :
  leaves_out keep pull_actions ->
  log keep (trace (fst (pull depth c remote_directory local_directory w)))
  = log keep (trace w).
Proof.
  intros Hk.
  destruct (pull depth c remote_directory local_directory w) as [w' r] eqn:E.
  refine (keeps_pull (same_log keep) (fun a => keep a = false)
            (same_log_refl keep) (same_log_trans keep) _ _
            (same_log_set_file keep) depth c Hk _ _ _ _ _ E).
  - intros action req w0. apply same_log_request.
  - intros e w0. apply same_log_emit.
Qed.

(** X3. Whatever the run of [pull] and however it ends, the requests it
    sends are for the actions check, info, list and download: it sends
    none that uploads, creates, deletes, moves or copies. *)
Theorem pull_sends_only_its_requests keep depth c remote_directory
    local_directory w :
  leaves_out keep pull_actions ->
  log keep (trace (fst (pull depth c remote_directory local_directory w)))
  = log keep (trace w).
Proof. apply pull_requests_allowed. Qed.

(** X4. [sync] is [pull] and then [push]: when [pull] raises, [sync]
    raises the same in the world [pull] left and nothing is pushed; when
    [pull] returns, [sync] goes on with [push] from the world [pull] left;
    and a run of [sync] sends requests for no action but those of [pull]
    and [push], so it deletes nothing. *)
Theorem sync_pulls_then_pushes depth c remote_directory local_directory w :
  (forall w1 e,
     pull depth c remote_directory local_directory w = (w1, inl e) ->
     sync depth c remote_directory local_directory w = (w1, inl e)) /\
  (forall w1 b,
     pull depth c remote_directory local_directory w = (w1, inr b) ->
     sync depth c remote_directory local_directory w
     = (fst (push depth c remote_directory local_directory w1),
        match snd (push depth c remote_directory local_directory w1) with
        | inl e => inl e
        | inr _ => inr tt
        end)) /\
  (forall keep,
     leaves_out keep (pull_actions ++ push_actions) ->
     log keep (trace (fst (sync depth c remote_directory local_directory w)))
     = log keep (trace w)).
Proof.
  split; [|split].
  - intros w1 e H. unfold sync. now rewrite (bind_raises _ _ _ _ _ H).
  - intros w1 b H. unfold sync. rewrite (bind_returns _ _ _ _ _ H).
    unfold bind.
    destruct (push depth c remote_directory local_directory w1)
      as [w2 [e|b2]]; reflexivity.
  - intros keep Hk.
    assert (Hpull : leaves_out keep pull_actions)
      by (intros a Ha; apply Hk, in_or_app; now left).
    assert (Hpush : leaves_out keep push_actions)
      by (intros a Ha; apply Hk, in_or_app; now right).
    pose proof (pull_requests_allowed keep depth c
                  remote_directory local_directory w Hpull) as H1.
    unfold sync, bind, ret.
    destruct (pull depth c remote_directory local_directory w)
      as [w1 [e|b]]; cbn [fst] in *; [exact H1|].
    pose proof (push_requests_allowed keep depth c
                  remote_directory local_directory w1 Hpush) as H2.
    destruct (push depth c remote_directory local_directory w1)
      as [w2 [e|b2]]; cbn [fst] in *; congruence.
Qed.

End Never.

(** * Options, methods and headers *)

Section Tables.
Context {ext : Externals} {urn : UrnModel} {sub : Subprocess}.
Import ModuleInstaller.

Lemma get_app {V} (l1 l2 : Py.dict V) k :
  Py.get (l1 ++ l2)%list k
  = match Py.get l1 k with Some v => Some v | None => Py.get l2 k end.
Proof.
  induction l1 as [|[k' v'] l1 IH]; simpl; [reflexivity|].
  destruct (String.eqb k k'); [reflexivity | exact IH].
Qed.

(** After a run of assignments the last one to a key is what is found. *)
Lemma get_fold_set {V} (l : list (string * V)) (d : Py.dict V) k :
  Py.get (fold_left (fun d kv => Py.set d (fst kv) (snd kv)) l d) k
  = match Py.get (rev l) k with Some v => Some v | None => Py.get d k end.
Proof.
  induction l as [|[k' v'] l IH] using rev_ind; [reflexivity|].
  rewrite fold_left_app, rev_app_distr. simpl.
  destruct (String.eqb_spec k k') as [->|Hn].
  - apply get_set_same.
  - rewrite get_set_other by exact Hn. exact IH.
Qed.

Lemma get_absent {V} (l : Py.dict V) k :
  (forall k' v, In (k', v) l -> k' <> k) -> Py.get l k = None.
Proof.
  induction l as [|[k' v'] l IH]; intros H; simpl; [reflexivity|].
  destruct (String.eqb_spec k k') as [->|Hn].
  - now destruct (H k' v' (or_introl eq_refl)).
  - apply IH. intros k0 v0 Hin. apply (H k0 v0). now right.
Qed.

Lemma get_options_from keys prefix from_options acc k :
  Py.get
    (fold_left
       (fun _options key =>
          let key_with_prefix := prefix ++ key in
          match Py.get from_options key,
                Py.get from_options key_with_prefix with
          | None, None => Py.set _options key ""
          | Some v, _ => Py.set _options key v
          | None, Some v => Py.set _options key v
          end)
       keys acc) k
  = if Py.mem k keys then
      Some (match Py.get from_options k with
            | Some v => v
            | None =>
                match Py.get from_options (prefix ++ k) with
                | Some v => v
                | None => ""
                end
            end)
    else Py.get acc k.
Proof.
  revert acc. induction keys as [|key keys IH]; intros acc; [reflexivity|].
  cbn [fold_left]. rewrite IH.
  change (Py.mem k (key :: keys)) with (String.eqb k key || Py.mem k keys).
  destruct (Py.mem k keys); [now rewrite orb_true_r|]. rewrite orb_false_r.
  destruct (String.eqb_spec k key) as [->|Hn].
  - destruct (Py.get from_options key);
      [|destruct (Py.get from_options (prefix ++ key))];
      now rewrite get_set_same.
  - destruct (Py.get from_options key);
      [|destruct (Py.get from_options (prefix ++ key))];
      now rewrite get_set_other.
Qed.

(** X5. [get_options] returns a dictionary with exactly the keys of the
    option type; each holds the value the options give under the bare key
    if there is one, else the value they give under the key with the
    prefix, else the empty string; what the options hold under any other
    key is dropped. *)
Theorem get_options_lookup keys prefix from_options k :
  Py.get (get_options keys prefix from_options) k
  = if Py.mem k keys then
      Some (match Py.get from_options k with
            | Some v => v
            | None =>
                match Py.get from_options (prefix ++ k) with
                | Some v => v
                | None => ""
                end
            end)
    else None.
Proof. apply get_options_from. Qed.

(** X6. In a client built by [__init__], the method of an action is the
    one the settings' [override_methods] gives it (the last, if it is given
    several), and without one it is the default of the table; so each of
    the eighteen actions of the table has a method. *)
Theorem init_methods settings action :
  Py.get (requests (init settings)) action
  = match Py.get (rev (override_methods settings)) action with
    | Some m => Some m
    | None => Py.get default_requests action
    end /\
  (In action (map fst default_requests) ->
   exists m, Py.get (requests (init settings)) action = Some m).
Proof.
  assert (H : Py.get (requests (init settings)) action
              = match Py.get (rev (override_methods settings)) action with
                | Some m => Some m
                | None => Py.get default_requests action
                end) by apply get_fold_set.
  split; [exact H|]. intros Hin. rewrite H.
  destruct (Py.get (rev (override_methods settings)) action) as [m|];
    [now exists m|].
  simpl in Hin.
  repeat (destruct Hin as [<- | Hin]; [eexists; reflexivity|]).
  destruct Hin.
Qed.

Lemma header_pairs_spec hs ps :
  header_pairs hs = inr ps ->
  Forall2 (fun h p =>
             exists k v, Py.split_colon h = Some (k, v) /\
                         p = (Py.strip k, Py.strip v)) hs ps.
Proof.
  revert ps. induction hs as [|h hs IH]; simpl; intros ps H.
  - inversion H. constructor.
  - destruct (Py.split_colon h) as [[k v]|] eqn:E; [|discriminate].
    destruct (header_pairs hs) as [e|qs]; [discriminate|].
    inversion H. constructor; [now exists k, v | now apply IH].
Qed.

Lemma header_pairs_fails hs :
  (exists e, header_pairs hs = inl e)
  <-> Exists (fun h => Py.split_colon h = None) hs.
Proof.
  induction hs as [|h hs IH]; simpl.
  - split; [intros (e & H); discriminate | intros H; inversion H].
  - destruct (Py.split_colon h) as [[k v]|] eqn:E.
    + destruct (header_pairs hs) as [e|qs].
      * split; [intros _; right; apply IH; now exists e|].
        intros _. now exists e.
      * split; [intros (e & H); discriminate|].
        intros H. inversion H; subst; [congruence|].
        apply IH in H1. destruct H1 as (e & H1). discriminate.
    + split; [intros _; now left | intros _; now exists ValueError].
Qed.

Lemma header_value hs ps pre line post k v :
  header_pairs hs = inr ps ->
  hs = (pre ++ line :: post)%list ->
  Py.split_colon line = Some (k, v) ->
  (forall l k' v', In l post -> Py.split_colon l = Some (k', v') ->
                   Py.strip k' <> Py.strip k) ->
  Py.get (Py.of_pairs ps) (Py.strip k) = Some (Py.strip v).
Proof.
  intros Hp -> Hl Hpost. apply header_pairs_spec in Hp.
  apply Forall2_app_inv_l in Hp.
  destruct Hp as (ps1 & ps2 & _ & H2 & ->).
  inversion H2 as [|h p hs' ps3 (k0 & v0 & Hs & ->) H3]; subst.
  rewrite Hl in Hs. inversion Hs; subst k0 v0.
  unfold Py.of_pairs. rewrite get_fold_set. cbn [Py.get].
  rewrite rev_app_distr. cbn [rev]. rewrite <- app_assoc, get_app.
  rewrite get_absent.
  - cbn [app Py.get]. now rewrite String.eqb_refl.
  - intros k' v' Hin. apply in_rev in Hin.
    clear - H3 Hin Hpost.
    induction H3 as [|l q post ps3 (k1 & v1 & Hs1 & ->) H3 IH].
    + destruct Hin.
    + destruct Hin as [Heq | Hin].
      * inversion Heq; subst. apply (Hpost l k1 v1); [now left | exact Hs1].
      * apply IH; [|exact Hin].
        intros l0 k0 v0 Hl0. apply Hpost. now right.
Qed.

(** X7. [get_headers] raises, and then [ValueError], exactly when one of
    the header lines has no colon; otherwise, for a line [key: value] that
    no later line repeats the key of, the dictionary holds the value of
    that line under the key, both stripped of blanks: a later line
    overrides an earlier one, so what the caller passes overrides the
    defaults of the action. *)
Theorem later_header_wins c action headers_ext :
  ((exists e, get_headers c action headers_ext = inl e) <->
   Exists (fun h => Py.split_colon h = None)
     (header_lines c action headers_ext)) /\
  (forall e, get_headers c action headers_ext = inl e -> e = ValueError) /\
  (forall d pre line post k v,
     get_headers c action headers_ext = inr d ->
     header_lines c action headers_ext = (pre ++ line :: post)%list ->
     Py.split_colon line = Some (k, v) ->
     (forall l k' v', In l post -> Py.split_colon l = Some (k', v') ->
                      Py.strip k' <> Py.strip k) ->
     Py.get d (Py.strip k) = Some (Py.strip v)).
Proof.
  unfold get_headers. split; [|split].
  - rewrite <- header_pairs_fails.
    destruct (header_pairs (header_lines c action headers_ext)) as [e|ps].
    + split; intros _; now exists e.
    + split; intros (e & H); discriminate.
  - intros e.
    destruct (header_pairs (header_lines c action headers_ext)) as [e0|ps]
      eqn:E; [|discriminate].
    intros H. inversion H. subst. now apply header_pairs_error in E.
  - intros d pre line post k v.
    destruct (header_pairs (header_lines c action headers_ext)) as [e0|ps]
      eqn:E; [discriminate|].
    intros H. inversion H. subst d. now apply (header_value _ _ _ _ _ _ _ E).
Qed.

(** X8. With the toggle off and the request built, when the transport
    cannot connect [check] raises the no-connection error with the host
    name of the settings, and when the transport fails otherwise it raises
    the connection error with the failure; it never raises an exception of
    the transport's own. *)
Theorem check_reports_transport_failure c remote_path w req :
  disable_check (webdav c) = false ->
  build_request c "check" (urn_quote (mkUrn remote_path false)) BodyNone None
    = inr req ->
  (forall cause,
     server w (sent w) req = inl (ConnectionError cause) ->
     snd (check c remote_path w) = inl (NoConnection (hostname (webdav c)))) /\
  (forall cause,
     server w (sent w) req = inl (RequestException cause) ->
     snd (check c remote_path w) = inl (ConnectionException cause)) /\
  (forall e, snd (check c remote_path w) = inl e ->
             is_transport_error e = false).
Proof.
  intros Hd Hb. split; [|split].
  - intros cause Hs. unfold check. rewrite Hd.
    unfold wrap_connection_error, try_except, execute_request, bind, lift,
      session_request. rewrite Hb, Hs. reflexivity.
  - intros cause Hs. unfold check. rewrite Hd.
    unfold wrap_connection_error, try_except, execute_request, bind, lift,
      session_request. rewrite Hb, Hs. reflexivity.
  - intros e He.
    destruct (check c remote_path w) as [w' r] eqn:E. simpl in He. subst r.
    unfold check in E. exact (wrap_never_transport _ _ _ _ _ E).
Qed.

End Tables.

(** * The body of an upload *)

Section Chunks.
Context {ext : Externals} {urn : UrnModel} {sub : Subprocess}.
Import ModuleInstaller.

Lemma substring_whole s : String.substring 0 (String.length s) s = s.
Proof. induction s as [|c s IH]; simpl; [reflexivity | now rewrite IH]. Qed.

Lemma substring_split k s :
  (String.substring 0 k s
   ++ String.substring k (String.length s - k) s)%string = s.
Proof.
  revert k. induction s as [|c s IH]; intros k.
  - destruct k; reflexivity.
  - destruct k as [|k].
    + simpl. now rewrite substring_whole.
    + simpl. now rewrite IH.
Qed.

Lemma substring_take_length k s :
  String.length (String.substring 0 k s) = Nat.min k (String.length s).
Proof.
  revert k. induction s as [|c s IH]; intros k.
  - destruct k; reflexivity.
  - destruct k as [|k]; simpl; [reflexivity | now rewrite IH].
Qed.

Lemma substring_drop_length k s :
  String.length (String.substring k (String.length s - k) s)
  = (String.length s - k)%nat.
Proof.
  revert k. induction s as [|c s IH]; intros k.
  - destruct k; reflexivity.
  - destruct k as [|k]; simpl.
    + now rewrite substring_whole.
    + apply IH.
Qed.

Lemma truthy_length s : Py.truthy s = false <-> String.length s = 0%nat.
Proof. destruct s; simpl; split; congruence. Qed.

Lemma length_append (s1 s2 : string) :
  String.length (s1 ++ s2) = (String.length s1 + String.length s2)%nat.
Proof. induction s1 as [|a s1 IH]; simpl; [reflexivity | now rewrite IH]. Qed.

(** The loop of [read_in_chunks] on what is left of the file. *)
Lemma read_loop_reassembles cb n total :
  0 < n ->
  forall steps rest current,
    current + Py.len rest = total ->
    (String.length rest < steps)%nat ->
    let (ch, calls) := read_loop steps cb n rest current total in
    fold_right String.append "" ch = rest /\
    Forall (fun x => x <> "" /\ Py.len x <= n) ch /\
    Forall (fun x => Py.len x = n) (removelast ch) /\
    calls = Trace.offsets cb total current ch.
Proof.
  intros Hn. induction steps as [|steps IH]; intros rest current Hc Hs;
    [lia|].
  cbn [read_loop]. unfold Py.len in Hc.
  destruct (Z.ltb_spec current total) as [Hlt|Hge].
  - unfold file_read. destruct (Z.ltb_spec n 0) as [|_]; [lia|].
    set (k := Z.to_nat n).
    set (data := String.substring 0 k rest).
    set (rest' := String.substring k (String.length rest - k) rest).
    assert (Hk : (0 < k)%nat) by (unfold k; lia).
    assert (Hlen : String.length data = Nat.min k (String.length rest))
      by apply substring_take_length.
    assert (Hlen' : String.length rest' = (String.length rest - k)%nat)
      by apply substring_drop_length.
    assert (Hrest : (0 < String.length rest)%nat) by lia.
    destruct (Py.truthy data) eqn:Et.
    + cbn [negb].
      specialize (IH rest' (current + Py.len data)).
      destruct (read_loop steps cb n rest' (current + Py.len data) total)
        as [ch calls].
      destruct IH as (Hcat & Hch & Hfull & Hcalls);
        [unfold Py.len; lia | lia |].
      split; [cbn [fold_right]; rewrite Hcat; apply substring_split|].
      split.
      { constructor; [|exact Hch]. split.
        - intros Hd. rewrite Hd in Et. discriminate.
        - unfold Py.len. lia. }
      split; [|now rewrite Hcalls].
      destruct ch as [|x ch]; [constructor|].
      change (removelast (data :: x :: ch))
        with (data :: removelast (x :: ch)).
      constructor; [|exact Hfull].
      assert (Hx : (0 < String.length rest')%nat).
      { rewrite <- Hcat. cbn [fold_right]. rewrite length_append.
        inversion Hch as [|y l (Hy & _) _]; subst.
        destruct x; [now destruct Hy | simpl; lia]. }
      unfold Py.len. lia.
    + apply truthy_length in Et. lia.
  - assert (String.length rest = 0%nat) by lia.
    destruct rest; [|discriminate].
    repeat split; constructor.
Qed.

Lemma offsets_within cb total ch :
  Forall (fun x => x <> "") ch ->
  forall current,
    Forall (fun call =>
              current <= snd (fst call)
              < current + Py.len (fold_right String.append "" ch))
      (Trace.offsets cb total current ch).
Proof.
  induction 1 as [|x ch Hx Hch IH]; intros current; cbn [Trace.offsets];
    [constructor|].
  assert (Hpos : 0 < Py.len x)
    by (destruct x; [now destruct Hx | unfold Py.len; simpl; lia]).
  cbn [fold_right]. unfold Py.len in *. rewrite length_append.
  constructor; [cbn [fst snd]; lia|].
  eapply Forall_impl; [|exact (IH (current + Z.of_nat (String.length x)))].
  intros call Hcall. cbv beta in Hcall. lia.
Qed.

(** X9. With a positive chunk size, the generator [upload_file] hands to
    the transport for a file and its size yields chunks that are not
    empty, none longer than the chunk size and all but the last of that
    size, and that put together are the file.  The callback is called
    once with 0 before the first read, and then once for each chunk, with
    the bytes of the chunks before it, so with 0 a second time for the
    first chunk; each time the total is the size.  For a file that is not
    empty every value told is below the size, so the callback is never
    told that the size was reached; for an empty file there is no chunk
    and the one call tells 0 of 0. *)
Theorem read_in_chunks_reassembles c cb file_object :
  0 < chunk_size c ->
  let total := Py.len file_object in
  exists ch,
    read_in_chunks c cb total file_object
    = BodyChunks ch
        ((cb, 0, Some total) :: Trace.offsets cb total 0 ch) /\
    fold_right String.append "" ch = file_object /\
    Forall (fun x => x <> "" /\ Py.len x <= chunk_size c) ch /\
    Forall (fun x => Py.len x = chunk_size c) (removelast ch) /\
    Forall (fun call => 0 <= snd (fst call) < total)
      (Trace.offsets cb total 0 ch) /\
    (file_object = "" -> ch = []).
Proof.
  intros Hn total. unfold read_in_chunks.
  pose proof (read_loop_reassembles cb (chunk_size c) total Hn
                (S (String.length file_object)) file_object 0 eq_refl
                (Nat.lt_succ_diag_r _)) as H.
  destruct (read_loop (S (String.length file_object)) cb (chunk_size c)
              file_object 0 total) as [ch calls].
  destruct H as (Hcat & Hch & Hfull & ->).
  exists ch. split; [reflexivity|]. split; [exact Hcat|].
  split; [exact Hch|]. split; [exact Hfull|]. split.
  - assert (Hne : Forall (fun x => x <> "") ch)
      by (eapply Forall_impl; [|exact Hch]; now intros x (Hx & _)).
    pose proof (offsets_within cb total ch Hne 0) as Hw.
    rewrite Hcat in Hw. exact Hw.
  - intros ->. destruct ch as [|x ch]; [reflexivity|].
    inversion Hch as [|y l (Hy & _) _]; subst.
    cbn [fold_right] in Hcat. destruct x; [now destruct Hy | discriminate].
Qed.

End Chunks.

(** * Uploads and moves *)

Section Validation.
Context {ext : Externals} {urn : UrnModel} {sub : Subprocess}.
Import ModuleInstaller Trace.

Lemma upload_request_log c path body w w' :
  (execute_request c "upload" path body None ;; ret tt) w = (w', inr tt) ->
  log creates_or_uploads (trace w')
  = (log creates_or_uploads (trace w) ++ [("upload", get_url c path)])%list.
Proof.
  intros Hb. unfold bind in Hb.
  destruct (execute_request c "upload" path body None w)
    as [w5 [e|resp]] eqn:Ex; [discriminate|].
  inversion Hb. subst w5.
  rewrite (execute_request_log creates_or_uploads _ _ _ _ _ _ _ _ Ex).
  - reflexivity.
  - right. left. now exists resp.
Qed.

(** X10. [upload_file] looks at its arguments before anything is sent:
    a local path that is not there raises the local-not-found error, a
    remote path that names a directory raises the option error for
    [remote_path], a local path that is a directory raises the option
    error for [local_path], each in the world as it was.  When the check
    of the remote parent answers [True], a run that returns has sent one
    upload and created no directory, also with [force]. *)
Theorem upload_file_validates_first depth c remote_path local_path progress
    force isprint w :
  let u := mkUrn remote_path false in
  (os.exists_ w local_path = false ->
   upload_file depth c remote_path local_path progress force isprint w
   = (w, inl (LocalResourceNotFound local_path))) /\
  (os.exists_ w local_path = true -> urn_is_dir u = true ->
   upload_file depth c remote_path local_path progress force isprint w
   = (w, inl (OptionNotValid "remote_path" remote_path))) /\
  (os.exists_ w local_path = true -> urn_is_dir u = false ->
   os.isdir w local_path = true ->
   upload_file depth c remote_path local_path progress force isprint w
   = (w, inl (OptionNotValid "local_path" local_path))) /\
  (forall w1 w',
     os.exists_ w local_path = true -> urn_is_dir u = false ->
     os.isdir w local_path = false ->
     check c (urn_parent u) w = (w1, inr true) ->
     upload_file depth c remote_path local_path progress force isprint w
     = (w', inr tt) ->
     log creates_or_uploads (trace w')
     = (log creates_or_uploads (trace w)
        ++ [("upload", get_url c (urn_quote u))])%list).
Proof.
  intros u. split; [|split; [|split]].
  - intros He. unfold upload_file. apply wrap_raises; [|reflexivity].
    erewrite bind_returns by (unfold ask; rewrite He; reflexivity).
    reflexivity.
  - intros He Hu. unfold upload_file. apply wrap_raises; [|reflexivity].
    erewrite bind_returns by (unfold ask; rewrite He; reflexivity).
    cbv beta iota. cbn [negb].
    erewrite bind_returns by reflexivity.
    cbv zeta. fold u. rewrite Hu. reflexivity.
  - intros He Hu Hl. unfold upload_file. apply wrap_raises; [|reflexivity].
    erewrite bind_returns by (unfold ask; rewrite He; reflexivity).
    cbv beta iota. cbn [negb].
    erewrite bind_returns by reflexivity.
    cbv zeta. fold u. rewrite Hu.
    erewrite bind_returns by reflexivity.
    erewrite bind_returns by (unfold ask; rewrite Hl; reflexivity).
    reflexivity.
  - intros w1 w' He Hu Hl Hc H.
    rewrite upload_file_reaches_check in H by assumption.
    destruct (wrap_world _ _ _ _ _ H) as (r0 & H0 & Hr0). clear H.
    rewrite (Hr0 tt eq_refl) in H0. clear Hr0 r0.
    fold u in H0. cbv zeta in H0.
    rewrite (bind_returns _ _ _ _ _ Hc) in H0. cbn [negb] in H0.
    erewrite bind_returns in H0 by reflexivity.
    destruct (print_run isprint "Installing packages" w1)
      as (w3 & Hp3 & Hl3).
    rewrite (bind_returns _ _ _ _ _ Hp3) in H0.
    unfold bind at 1 in H0. unfold ask_result at 1 in H0.
    destruct (os.read w3 local_path) as [e|local_file]; [discriminate|].
    unfold bind at 1 in H0. unfold ask_result at 1 in H0.
    destruct (os.getsize w3 local_path) as [e|total]; [discriminate|].
    destruct (print_run isprint "Installed packages" w3)
      as (w4 & Hp4 & Hl4).
    rewrite (bind_returns _ _ _ _ _ Hp4) in H0.
    assert (Hlog : log creates_or_uploads (trace w')
                   = (log creates_or_uploads (trace w4)
                      ++ [("upload", get_url c (urn_quote u))])%list)
      by (destruct progress; now apply upload_request_log in H0).
    rewrite Hlog, Hl4, Hl3.
    now rewrite (check_log creates_or_uploads _ _ _ _ _ Hc).
Qed.

(** X11. [upload_to] raises the option error for a remote path that
    names a directory, in the world as it was; it raises the
    parent-not-found error, in the world the check left, when the check of
    the remote parent answers [False]; and a run that returns has sent one
    upload and created no directory. *)
Theorem upload_to_needs_parent c buff remote_path w :
  let u := mkUrn remote_path false in
  (urn_is_dir u = true ->
   upload_to c buff remote_path w
   = (w, inl (OptionNotValid "remote_path" remote_path))) /\
  (forall w1,
     urn_is_dir u = false ->
     check c (urn_parent u) w = (w1, inr false) ->
     upload_to c buff remote_path w
     = (w1, inl (RemoteParentNotFound (urn_path u))) /\
     log creates_or_uploads (trace w1) = log creates_or_uploads (trace w)) /\
  (forall w',
     upload_to c buff remote_path w = (w', inr tt) ->
     log creates_or_uploads (trace w')
     = (log creates_or_uploads (trace w)
        ++ [("upload", get_url c (urn_quote u))])%list).
Proof.
  intros u. split; [|split].
  - intros Hu. unfold upload_to. apply wrap_raises; [|reflexivity].
    cbv zeta. fold u. rewrite Hu. reflexivity.
  - intros w1 Hu Hc. split.
    + unfold upload_to. apply wrap_raises; [|reflexivity].
      cbv zeta. fold u. rewrite Hu.
      erewrite bind_returns by reflexivity.
      rewrite (bind_returns _ _ _ _ _ Hc). reflexivity.
    + now apply (check_log creates_or_uploads _ _ _ _ _ Hc).
  - intros w' H. unfold upload_to in H.
    destruct (wrap_world _ _ _ _ _ H) as (r0 & H0 & Hr0). clear H.
    rewrite (Hr0 tt eq_refl) in H0. clear Hr0 r0.
    cbv zeta in H0. fold u in H0.
    destruct (urn_is_dir u); [discriminate|].
    erewrite bind_returns in H0 by reflexivity.
    unfold bind at 1 in H0.
    destruct (check c (urn_parent u) w) as [w1 [e|found]] eqn:Ec;
      [discriminate|].
    destruct found; cbn [negb] in H0; [|discriminate].
    erewrite bind_returns in H0 by reflexivity.
    rewrite (upload_request_log _ _ _ _ _ H0).
    now rewrite (check_log creates_or_uploads _ _ _ _ _ Ec).
Qed.

Lemma header_lines_ext c action x l :
  header_lines c action (Some (x :: l))
  = app (match Py.get (http_header c) action with Some h => h | None => [] end)
      (app (x :: l)
         (if Py.truthy (token (webdav c))
          then ["Authorization: Bearer " ++ token (webdav c)] else [])).
Proof.
  unfold header_lines. destruct (Py.truthy (token (webdav c))).
  - now rewrite <- app_assoc.
  - now rewrite app_nil_r.
Qed.

Lemma self_get_headers_value c action headers_ext d k :
  self_get_headers c action headers_ext = inr d ->
  k <> "Lock-Token" -> k <> "If" ->
  exists ps, header_pairs (header_lines c action headers_ext) = inr ps /\
             Py.get d k = Py.get (Py.of_pairs ps) k.
Proof.
  unfold self_get_headers. intros H Hk1 Hk2.
  destruct (lock_token c) as [lock|];
    unfold lock_get_headers, get_headers in H;
    destruct (header_pairs (header_lines c action headers_ext)) as [e|ps];
    try discriminate; exists ps; (split; [reflexivity|]); inversion H.
  - rewrite !get_set_other; [reflexivity | | ]; congruence.
  - reflexivity.
Qed.

Lemma token_line_key (c : Client) (P : Prop) l k' v' :
  In l (if Py.truthy (token (webdav c))
        then ["Authorization: Bearer " ++ token (webdav c)] else []) ->
  Py.split_colon l = Some (k', v') ->
  (Py.strip k' = "Authorization" -> P) -> P.
Proof.
  intros Hin Hs HP.
  destruct (Py.truthy (token (webdav c))); [|destruct Hin].
  destruct Hin as [<- | []]. cbn in Hs. inversion Hs. subst k' v'.
  apply HP. reflexivity.
Qed.

(** X12. [move] raises the resource-not-found error when the check of
    the source answers [False], and the parent-not-found error when that
    of the parent of the destination does, each in the world the check
    left, so that no MOVE is sent; with both found it goes on, from the
    world the checks left, with the one request for the action [move],
    on the quoted source, with the two header lines of the destination
    and of the flag; and the request built from those lines carries the
    URL of the destination, stripped of blanks, under [Destination] and
    [T] or [F] under [Overwrite], as [overwrite] is set or not. *)
Theorem move_checks_and_headers c remote_path_from remote_path_to
    (overwrite : bool) w :
  let urn_from := mkUrn remote_path_from false in
  let urn_to := mkUrn remote_path_to false in
  (forall w1,
     check c (urn_path urn_from) w = (w1, inr false) ->
     move c remote_path_from remote_path_to overwrite w
     = (w1, inl (RemoteResourceNotFound (urn_path urn_from))) /\
     log moves (trace w1) = log moves (trace w)) /\
  (forall w1 w2,
     check c (urn_path urn_from) w = (w1, inr true) ->
     check c (urn_parent urn_to) w1 = (w2, inr false) ->
     move c remote_path_from remote_path_to overwrite w
     = (w2, inl (RemoteParentNotFound (urn_path urn_to))) /\
     log moves (trace w2) = log moves (trace w)) /\
  (forall w1 w2,
     check c (urn_path urn_from) w = (w1, inr true) ->
     check c (urn_parent urn_to) w1 = (w2, inr true) ->
     move c remote_path_from remote_path_to overwrite w
     = wrap_connection_error c
         (execute_request c "move" (urn_quote urn_from) BodyNone
            (Some ["Destination: " ++ get_url c (urn_quote urn_to);
                   "Overwrite: " ++ (if overwrite then "T" else "F")]) ;;
          ret tt) w2) /\
  (forall req,
     build_request c "move" (urn_quote urn_from) BodyNone
       (Some ["Destination: " ++ get_url c (urn_quote urn_to);
              "Overwrite: " ++ (if overwrite then "T" else "F")])
     = inr req ->
     Py.get (req_headers req) "Destination"
     = Some (Py.strip (" " ++ get_url c (urn_quote urn_to))) /\
     Py.get (req_headers req) "Overwrite"
     = Some (if overwrite then "T" else "F")).
Proof.
  intros urn_from urn_to. split; [|split; [|split]].
  - intros w1 Hc. split.
    + unfold move. apply wrap_raises; [|reflexivity]. cbv zeta.
      fold urn_from. rewrite (bind_returns _ _ _ _ _ Hc). reflexivity.
    + now apply (check_log moves _ _ _ _ _ Hc).
  - intros w1 w2 Hc1 Hc2. split.
    + unfold move. apply wrap_raises; [|reflexivity]. cbv zeta.
      fold urn_from. rewrite (bind_returns _ _ _ _ _ Hc1). cbn [negb].
      erewrite bind_returns by reflexivity.
      fold urn_to. rewrite (bind_returns _ _ _ _ _ Hc2). reflexivity.
    + rewrite (check_log moves _ _ _ _ _ Hc2) by reflexivity.
      now apply (check_log moves _ _ _ _ _ Hc1).
  - intros w1 w2 Hc1 Hc2.
    unfold move, wrap_connection_error, try_except. cbv zeta.
    fold urn_from. rewrite (bind_returns _ _ _ _ _ Hc1). cbn [negb].
    erewrite bind_returns by reflexivity.
    fold urn_to. rewrite (bind_returns _ _ _ _ _ Hc2). cbn [negb].
    erewrite bind_returns by reflexivity. reflexivity.
  - intros req. unfold build_request.
    destruct (Py.get (requests c) "move") as [method|]; [|discriminate].
    destruct (self_get_headers c "move" _) as [e|hdrs] eqn:Eh;
      [discriminate|].
    intros H. inversion H. subst req. clear H. cbn [req_headers].
    set (dest := get_url c (urn_quote urn_to)) in *.
    set (flag := if overwrite then "T" else "F") in *.
    split.
    + destruct (self_get_headers_value _ _ _ _ "Destination" Eh)
        as (ps & Ep & ->); try discriminate.
      rewrite header_lines_ext in Ep.
      apply (header_value _ _ _ ("Destination: " ++ dest) _
               "Destination" (" " ++ dest) Ep eq_refl eq_refl).
      intros l k' v' Hin Hs.
      destruct Hin as [<- | Hin].
      * inversion Hs. discriminate.
      * apply (token_line_key c _ _ _ _ Hin Hs). intros ->. discriminate.
    + destruct (self_get_headers_value _ _ _ _ "Overwrite" Eh)
        as (ps & Ep & ->); try discriminate.
      rewrite header_lines_ext in Ep.
      assert (Hf : Py.strip (" " ++ flag) = flag)
        by (subst flag; destruct overwrite; reflexivity).
      rewrite <- Hf.
      apply (header_value _ _
               (app (match Py.get (http_header c) "move" with
                     | Some h => h | None => [] end)
                    ["Destination: " ++ dest])
               ("Overwrite: " ++ flag)
               (if Py.truthy (token (webdav c))
                then ["Authorization: Bearer " ++ token (webdav c)] else [])
               "Overwrite" (" " ++ flag) Ep).
      * now rewrite <- app_assoc.
      * reflexivity.
      * intros l k' v' Hin Hs.
        apply (token_line_key c _ _ _ _ Hin Hs). intros ->. discriminate.
Qed.

End Validation.

(** * Downloads *)

Section Downloads.
Context {ext : Externals} {urn : UrnModel} {sub : Subprocess}.
Import ModuleInstaller Trace.

Lemma is_dir_log keep c remote_path w w' r :
  is_dir c remote_path w = (w', r) ->
  keep "check" = false -> keep "info" = false ->
  log keep (trace w') = log keep (trace w).
Proof.
  intros H Hc Hi.
  refine (keeps_is_dir (same_log keep) (fun a => keep a = false)
            (same_log_refl keep) (same_log_trans keep) _ c remote_path
            Hc Hi _ _ _ H).
  intros action req w0. apply same_log_request.
Qed.

Lemma is_dir_files c remote_path w w' r :
  is_dir c remote_path w = (w', r) -> lfs w' = lfs w.
Proof.
  intros H.
  refine (keeps_is_dir same_files (fun _ => True) _ same_files_trans _
            c remote_path I I _ _ _ H).
  - reflexivity.
  - intros action req w0 _. apply same_files_request.
Qed.

Lemma check_files c remote_path w w' r :
  check c remote_path w = (w', r) -> lfs w' = lfs w.
Proof.
  intros H.
  refine (keeps_check same_files (fun _ => True) _ same_files_trans _
            c remote_path I _ _ _ H).
  - reflexivity.
  - intros action req w0 _. apply same_files_request.
Qed.

Lemma execute_request_files c action path data headers_ext w w' r :
  execute_request c action path data headers_ext w = (w', r) ->
  lfs w' = lfs w.
Proof.
  intros H.
  refine (keeps_execute_request same_files (fun _ => True) _ _
            c action path data headers_ext I _ _ _ H).
  - reflexivity.
  - intros a req w0 _. apply same_files_request.
Qed.

(** X13. The three downloads look before they fetch.  When [is_dir]
    answers [True] for the remote path each raises the option error for
    [remote_path]; when it answers [False] and the check of the path
    answers [False] each raises the resource-not-found error
    ([download_file] after it has found the local path not to be a
    directory).  In both cases no download request has been sent and the
    local files are as they were: [download_file] has not yet opened the
    local file. *)
Theorem downloads_look_first c remote_path w :
  let u := mkUrn remote_path false in
  (forall w1,
     is_dir c (urn_path u) w = (w1, inr true) ->
     let e := OptionNotValid "remote_path" remote_path in
     download_iter c remote_path w = (w1, inl e) /\
     (forall buff progress,
        download_from c buff remote_path progress w = (w1, inl e)) /\
     (forall local_path progress,
        download_file c remote_path local_path progress w = (w1, inl e)) /\
     log downloads (trace w1) = log downloads (trace w) /\
     lfs w1 = lfs w) /\
  (forall w1 w2,
     is_dir c (urn_path u) w = (w1, inr false) ->
     check c (urn_path u) w1 = (w2, inr false) ->
     let e := RemoteResourceNotFound (urn_path u) in
     download_iter c remote_path w = (w2, inl e) /\
     (forall buff progress,
        download_from c buff remote_path progress w = (w2, inl e)) /\
     (forall local_path progress,
        os.isdir w1 local_path = false ->
        download_file c remote_path local_path progress w = (w2, inl e)) /\
     log downloads (trace w2) = log downloads (trace w) /\
     lfs w2 = lfs w).
Proof.
  intros u. split.
  - intros w1 Hd e. split; [|split; [|split; [|split]]].
    + unfold download_iter. apply wrap_raises; [|reflexivity]. cbv zeta.
      fold u. rewrite (bind_returns _ _ _ _ _ Hd). reflexivity.
    + intros buff progress.
      unfold download_from. apply wrap_raises; [|reflexivity]. cbv zeta.
      fold u. rewrite (bind_returns _ _ _ _ _ Hd). reflexivity.
    + intros local_path progress.
      unfold download_file. apply wrap_raises; [|reflexivity]. cbv zeta.
      fold u. rewrite (bind_returns _ _ _ _ _ Hd). reflexivity.
    + now apply (is_dir_log downloads _ _ _ _ _ Hd).
    + now apply (is_dir_files _ _ _ _ _ Hd).
  - intros w1 w2 Hd Hc e. split; [|split; [|split; [|split]]].
    + unfold download_iter. apply wrap_raises; [|reflexivity]. cbv zeta.
      fold u. rewrite (bind_returns _ _ _ _ _ Hd).
      erewrite bind_returns by reflexivity.
      rewrite (bind_returns _ _ _ _ _ Hc). reflexivity.
    + intros buff progress.
      unfold download_from. apply wrap_raises; [|reflexivity]. cbv zeta.
      fold u. rewrite (bind_returns _ _ _ _ _ Hd).
      erewrite bind_returns by reflexivity.
      rewrite (bind_returns _ _ _ _ _ Hc). reflexivity.
    + intros local_path progress Hl.
      unfold download_file. apply wrap_raises; [|reflexivity]. cbv zeta.
      fold u. rewrite (bind_returns _ _ _ _ _ Hd).
      erewrite bind_returns by reflexivity.
      erewrite bind_returns by (unfold ask; rewrite Hl; reflexivity).
      erewrite bind_returns by reflexivity.
      rewrite (bind_returns _ _ _ _ _ Hc). reflexivity.
    + rewrite (check_log downloads _ _ _ _ _ Hc) by reflexivity.
      now apply (is_dir_log downloads _ _ _ _ _ Hd).
    + rewrite (check_files _ _ _ _ _ Hc).
      now apply (is_dir_files _ _ _ _ _ Hd).
Qed.

Lemma call_progress_files progress current total w :
  exists w', call_progress progress current total w = (w', inr tt) /\
             lfs w' = lfs w.
Proof.
  unfold call_progress. destruct progress as [cb|];
    eexists; split; reflexivity.
Qed.

Lemma append_empty (s : string) : (s ++ "")%string = s.
Proof. induction s as [|a s IH]; simpl; [reflexivity | now rewrite IH]. Qed.

Lemma append_append (s1 s2 s3 : string) :
  ((s1 ++ s2) ++ s3)%string = (s1 ++ (s2 ++ s3))%string.
Proof. induction s1 as [|a s1 IH]; simpl; [reflexivity | now rewrite IH]. Qed.

Lemma write_chunks_file c p progress total current l w m d :
  lfs w p = Some (LFile m d) ->
  exists w' n,
    for_fold l current (fun current chunk =>
      write (SinkFile p) chunk ;;
      let current := current + chunk_size c in
      call_progress progress current total ;;
      ret current) w = (w', inr n) /\
    lfs w' p = Some (LFile m (d ++ fold_right String.append "" l)).
Proof.
  revert current w d. induction l as [|ch l IH]; intros current w d Hf.
  - exists w, current. split; [reflexivity|].
    cbn [fold_right]. now rewrite append_empty.
  - set (w1 := set_file p (LFile m (d ++ ch)) (emit (EvWrite (SinkFile p) ch) w)).
    assert (Hw : write (SinkFile p) ch w = (w1, inr tt)).
    { unfold write. cbn [emit lfs]. rewrite Hf. reflexivity. }
    destruct (call_progress_files progress (current + chunk_size c) total w1)
      as (w2 & Hp & Hl2).
    assert (Hf2 : lfs w2 p = Some (LFile m (d ++ ch))).
    { rewrite Hl2. unfold w1, set_file. cbn [lfs].
      now rewrite String.eqb_refl. }
    destruct (IH (current + chunk_size c) w2 (d ++ ch) Hf2)
      as (w' & n & Hrun & Hfin).
    exists w', n. split.
    + rewrite for_fold_cons. unfold bind at 1. rewrite Hw.
      cbv zeta. unfold bind at 1. rewrite Hp. unfold ret at 1.
      exact Hrun.
    + rewrite Hfin. cbn [fold_right]. now rewrite append_append.
Qed.

Lemma open_wb_run p w w' :
  open_wb p w = (w', inr tt) ->
  Py.endswith p "/" = false /\
  lfs w' p = Some (LFile (clock w) "") /\
  exists m names, lfs w (os.dirname p) = Some (LDir m names).
Proof.
  unfold open_wb. destruct (os.isdir w p); [discriminate|].
  destruct (Py.endswith p "/"); [discriminate|]. cbn [orb].
  destruct (lfs w (os.dirname p)) as [[m d|m names]|]; try discriminate.
  intros H. inversion H. split; [reflexivity|]. split.
  - unfold set_file. cbn [lfs]. now rewrite String.eqb_refl.
  - now exists m, names.
Qed.

Lemma open_wb_needs_parent p w :
  (forall m names, lfs w (os.dirname p) <> Some (LDir m names)) ->
  open_wb p w = (w, inl (OSError p)).
Proof.
  intros Hn. unfold open_wb.
  destruct (os.isdir w p || Py.endswith p "/"); [reflexivity|].
  destruct (lfs w (os.dirname p)) as [[m d|m names]|]; try reflexivity.
  now destruct (Hn m names).
Qed.

(** X14. [download_file] opens the local file for writing before it
    sends the request.  With the remote path found to be a file and the
    local path not a directory: when the directory of the local path is
    not there the call raises the error of the system, with no request
    for the file sent and the local files as they were; once the file is
    open, when the request or the reading of the length fails the call
    raises and the local file is left empty, whatever it held; otherwise
    the call returns and the local file holds the chunks of the
    response, in order, and nothing else. *)
Theorem download_file_stores_body c remote_path local_path progress
    w w1 w2 :
  let u := mkUrn remote_path false in
  is_dir c (urn_path u) w = (w1, inr false) ->
  os.isdir w1 local_path = false ->
  check c (urn_path u) w1 = (w2, inr true) ->
  ((forall m names,
      lfs w (os.dirname local_path) <> Some (LDir m names)) ->
   download_file c remote_path local_path progress w
   = (w2, inl (OSError local_path)) /\
   log downloads (trace w2) = log downloads (trace w) /\
   lfs w2 = lfs w) /\
  (forall w3 w4 r,
     open_wb local_path w2 = (w3, inr tt) ->
     execute_request c "download" (urn_quote u) BodyNone None w3 = (w4, r) ->
     match r with
     | inl e =>
         (exists e',
            download_file c remote_path local_path progress w
            = (w4, inl e')) /\
         os.read w4 local_path = inr ""
     | inr response =>
         match total_of (header_get response "content-length") with
         | inl e =>
             download_file c remote_path local_path progress w
             = (w4, inl e) /\
             os.read w4 local_path = inr ""
         | inr _ =>
             exists w',
               download_file c remote_path local_path progress w
               = (w', inr tt) /\
               os.read w' local_path
               = inr (fold_right String.append "" (chunks response))
         end
     end).
Proof.
  intros u Hd Hl Hc.
  assert (Hfiles : lfs w2 = lfs w).
  { rewrite (check_files _ _ _ _ _ Hc). exact (is_dir_files _ _ _ _ _ Hd). }
  assert (Hstart : forall k : M unit,
     (d <- is_dir c (urn_path u) ;;
      (if d : bool then raise (OptionNotValid "remote_path" remote_path)
       else ret tt) ;;
      ld <- ask (fun w => os.isdir w local_path) ;;
      (if ld : bool then raise (OptionNotValid "local_path" local_path)
       else ret tt) ;;
      found <- check c (urn_path u) ;;
      (if negb found then raise (RemoteResourceNotFound (urn_path u))
       else ret tt) ;;
      k) w = k w2).
  { intros k. rewrite (bind_returns _ _ _ _ _ Hd).
    erewrite bind_returns by reflexivity.
    erewrite bind_returns by (unfold ask; rewrite Hl; reflexivity).
    erewrite bind_returns by reflexivity.
    rewrite (bind_returns _ _ _ _ _ Hc). cbn [negb].
    now erewrite bind_returns by reflexivity. }
  split.
  - intros Hn. split; [|split; [|exact Hfiles]].
    + unfold download_file. apply wrap_raises; [|reflexivity].
      cbv zeta. fold u. rewrite Hstart.
      erewrite bind_raises; [reflexivity|].
      apply open_wb_needs_parent. now rewrite Hfiles.
    + rewrite (check_log downloads _ _ _ _ _ Hc) by reflexivity.
      now apply (is_dir_log downloads _ _ _ _ _ Hd).
  - intros w3 w4 r Ho Hx.
    destruct (open_wb_run _ _ _ Ho) as (Hs & Hf3 & _).
    assert (Hf4 : lfs w4 local_path = Some (LFile (clock w2) ""))
      by now rewrite (execute_request_files _ _ _ _ _ _ _ _ Hx).
    assert (Hread : forall w0 d,
              lfs w0 local_path = Some (LFile (clock w2) d) ->
              os.read w0 local_path = inr d).
    { intros w0 d H0. unfold os.read, os.node. now rewrite Hs, H0. }
    destruct r as [e|response].
    + split; [|now apply Hread].
      unfold download_file, wrap_connection_error, try_except. cbv zeta.
      fold u. rewrite Hstart. rewrite (bind_returns _ _ _ _ _ Ho).
      rewrite (bind_raises _ _ _ _ _ Hx).
      destruct e; eexists; reflexivity.
    + destruct (total_of (header_get response "content-length"))
        as [e|total] eqn:Et.
      * split; [|now apply Hread].
        assert (He : e = ValueError).
        { revert Et. unfold total_of.
          destruct (header_get response "content-length") as [t|];
            [|discriminate].
          destruct (Py.int t); [discriminate|]. now intros [= <-]. }
        subst e. unfold download_file. apply wrap_raises; [|reflexivity].
        cbv zeta. fold u. rewrite Hstart.
        rewrite (bind_returns _ _ _ _ _ Ho).
        rewrite (bind_returns _ _ _ _ _ Hx).
        unfold bind at 1, lift. rewrite Et. reflexivity.
      * destruct (call_progress_files progress 0 total w4)
          as (w5 & Hp & Hl5).
        assert (Hf5 : lfs w5 local_path = Some (LFile (clock w2) ""))
          by now rewrite Hl5.
        destruct (write_chunks_file c local_path progress total 0
                    (chunks response) w5 (clock w2) "" Hf5)
          as (w' & n & Hrun & Hfin).
        exists w'. split; [|now apply Hread].
        unfold download_file. apply wrap_returns. cbv zeta. fold u.
        rewrite Hstart. rewrite (bind_returns _ _ _ _ _ Ho).
        rewrite (bind_returns _ _ _ _ _ Hx).
        unfold bind at 1, lift. rewrite Et.
        rewrite (bind_returns _ _ _ _ _ Hp).
        cbv zeta in Hrun. unfold write_chunks. unfold bind at 1.
        rewrite Hrun. reflexivity.
Qed.

(** X15. In the loop of [pull], for a remote name that is a file: when
    the name is among the local names the comparison is made, and the
    file is passed over, with [updated] as it was, only when the
    comparison returns [True]; when it returns [False] or [None], and
    when the name is not among the local names, the file is downloaded
    and [updated] becomes [True].  So a comparison that could not be made
    makes [pull] overwrite the local file. *)
Theorem comparison_decides_pull recurse c u local_directory names updated
    name w :
  let local_path := Py.path_join local_directory name in
  let remote_path := urn_path u ++ name in
  Py.endswith (urn_path u) name = false ->
  Py.endswith (urn_path (mkUrn remote_path false)) "/" = false ->
  (Py.mem name names = false ->
   pull_entry recurse c u local_directory names updated name w
   = (download_file c remote_path local_path None ;; ret true) w) /\
  (forall w1 r,
     Py.mem name names = true ->
     is_local_more_recent c local_path remote_path w = (w1, inr r) ->
     (r = Some true ->
      pull_entry recurse c u local_directory names updated name w
      = (w1, inr updated)) /\
     (r <> Some true ->
      pull_entry recurse c u local_directory names updated name w
      = (download_file c remote_path local_path None ;; ret true) w1)).
Proof.
  intros local_path remote_path He Hf. split.
  - intros Hm. unfold pull_entry. rewrite He. cbv zeta.
    fold remote_path. rewrite Hf, Hm.
    erewrite bind_returns by reflexivity. reflexivity.
  - intros w1 r Hm Hr. split.
    + intros ->. unfold pull_entry. rewrite He. cbv zeta.
      fold remote_path local_path. rewrite Hf, Hm.
      erewrite bind_returns
        by (erewrite bind_returns by exact Hr; reflexivity).
      reflexivity.
    + intros Hn. unfold pull_entry. rewrite He. cbv zeta.
      fold remote_path local_path. rewrite Hf, Hm.
      erewrite bind_returns
        by (erewrite bind_returns by exact Hr; reflexivity).
      destruct r as [[|]|]; [now destruct Hn | reflexivity | reflexivity].
Qed.

End Downloads.

(** * Uploads below a missing parent *)

Section Parents.
Context {ext : Externals} {urn : UrnModel} {sub : Subprocess}.
Import ModuleInstaller Trace.

Lemma mkdir_files depth c remote_path recursive w w' r :
  mkdir depth c remote_path recursive w = (w', r) -> lfs w' = lfs w.
Proof.
  intros H.
  refine (keeps_mkdir same_files (fun _ => True) _ same_files_trans _
            depth c I I remote_path recursive _ _ _ H).
  - reflexivity.
  - intros action req w0 _. apply same_files_request.
Qed.

Lemma print_files isprint text w :
  lfs (fst (print isprint text w)) = lfs w.
Proof. unfold print. now destruct isprint. Qed.

Lemma upload_request_sent c path body w w' :
  (execute_request c "upload" path body None ;; ret tt) w = (w', inr tt) ->
  exists req,
    build_request c "upload" path body None = inr req /\
    sent w' = (sent w ++ [req])%list /\
    req_data req = body /\ req_url req = get_url c path.
Proof.
  intros Hb. unfold bind in Hb.
  destruct (execute_request c "upload" path body None w)
    as [w5 [e|resp]] eqn:Ex; [discriminate|].
  inversion Hb. subst w5.
  destruct (execute_request_world _ _ _ _ _ _ _ _ Ex)
    as [(e & _ & _ & He) | (req & Hreq & ->)]; [discriminate|].
  exists req. split; [exact Hreq|].
  split; [apply sent_session_request|].
  split; [|exact (build_request_url _ _ _ _ _ _ Hreq)].
  revert Hreq. unfold build_request.
  destruct (Py.get (requests c) "upload"); [|discriminate].
  destruct (self_get_headers c "upload" None); [discriminate|].
  intros H. now inversion H.
Qed.

(** C6, as the code has it. For a local file and a remote path that is
    not a directory's, when the check of the remote parent answers
    [False], which it does only with the toggle of the checks off:
    without [force], [upload_file] raises the parent-not-found error in
    the world the check left, so nothing is created or uploaded; with
    [force], a run that returns has sent the MKCOL requests for the
    parent and for the ancestors above it that the checks found missing,
    up to the first one found, the topmost first, and after them, as its
    last request, the upload, whose body is the local file (in chunks
    with a callback); when the creation of the parents raises,
    [upload_file] raises the same and uploads nothing; and the creation
    does not run out of depth when the depth is above the number of the
    missing ancestors. *)
Theorem upload_file_missing_parent depth c remote_path local_path progress
    isprint w w1 :
  let u := mkUrn remote_path false in
  os.exists_ w local_path = true ->
  urn_is_dir u = false ->
  os.isdir w local_path = false ->
  check c (urn_parent u) w = (w1, inr false) ->
  disable_check (webdav c) = false /\
  (upload_file depth c remote_path local_path progress false isprint w
     = (w1, inl (RemoteParentNotFound (urn_path u))) /\
   log creates_or_uploads (trace w1) = log creates_or_uploads (trace w)) /\
  (forall w',
     upload_file depth c remote_path local_path progress true isprint w
       = (w', inr tt) ->
     exists k,
       missing_above c k (urn_parent u) w1 /\
       log creates_or_uploads (trace w')
       = (log creates_or_uploads (trace w)
          ++ mkcols c (ancestors k (urn_parent u))
          ++ [("upload", get_url c (urn_quote u))])%list /\
       exists data before req,
         os.read w local_path = inr data /\
         sent w' = (before ++ [req])%list /\
         req_url req = get_url c (urn_quote u) /\
         req_data req
         = match progress with
           | Some cb => read_in_chunks c cb (Py.len data) data
           | None => BodyFile data
           end) /\
  (forall w2 e,
     mkdir depth c (urn_parent u) true w1 = (w2, inl e) ->
     upload_file depth c remote_path local_path progress true isprint w
       = (w2, inl e) /\
     log uploads (trace w2) = log uploads (trace w)) /\
  (forall k w2,
     missing_above c k (urn_parent u) w1 -> (k < depth)%nat ->
     mkdir depth c (urn_parent u) true w1 <> (w2, inl RecursionError)).
Proof.
  intros u Hex Hu Hld Hc. split; [|split; [|split; [|split]]];
    [| | | |intros k w2; apply mkdir_enough_depth].
  - destruct (disable_check (webdav c)) eqn:Ed; [|reflexivity].
    rewrite (check_disabled _ _ _ Ed) in Hc. discriminate.
  - split.
    + rewrite upload_file_reaches_check by assumption.
      apply wrap_raises; [|reflexivity]. fold u.
      rewrite (bind_returns _ _ _ _ _ Hc). reflexivity.
    + now apply (check_log creates_or_uploads _ _ _ _ _ Hc).
  - intros w' H.
    rewrite upload_file_reaches_check in H by assumption.
    destruct (wrap_world _ _ _ _ _ H) as (r0 & H0 & Hr0). clear H.
    rewrite (Hr0 tt eq_refl) in H0. clear Hr0 r0.
    fold u in H0. cbv zeta in H0.
    rewrite (bind_returns _ _ _ _ _ Hc) in H0. cbn [negb] in H0.
    unfold bind at 1 in H0. unfold bind at 1 in H0.
    destruct (mkdir depth c (urn_parent u) true w1) as [w2 [e|b]] eqn:Em;
      [discriminate|].
    destruct (mkdir_log creates_or_uploads depth c eq_refl eq_refl
                _ _ _ _ _ Em) as (k & _ & Hmiss & Hl2).
    unfold ret at 1 in H0.
    destruct (print_run isprint "Installing packages" w2)
      as (w3 & Hp3 & Hl3).
    rewrite (bind_returns _ _ _ _ _ Hp3) in H0.
    assert (Hf3 : lfs w3 = lfs w).
    { pose proof (print_files isprint "Installing packages" w2) as Hf.
      rewrite Hp3 in Hf. cbn [fst] in Hf. rewrite Hf.
      rewrite (mkdir_files _ _ _ _ _ _ _ Em).
      exact (check_files _ _ _ _ _ Hc). }
    assert (Hread : os.read w3 local_path = os.read w local_path)
      by (unfold os.read, os.node; now rewrite Hf3).
    unfold bind at 1 in H0. unfold ask_result at 1 in H0.
    destruct (os.read w3 local_path) as [e|local_file] eqn:Er;
      [discriminate|].
    unfold bind at 1 in H0. unfold ask_result at 1 in H0.
    assert (Hsize : os.getsize w3 local_path = inr (Py.len local_file))
      by (unfold os.getsize; now rewrite Er).
    rewrite Hsize in H0.
    destruct (print_run isprint "Installed packages" w3)
      as (w4 & Hp4 & Hl4).
    rewrite (bind_returns _ _ _ _ _ Hp4) in H0.
    exists k. split; [exact Hmiss|].
    assert (Hup : forall body,
      (execute_request c "upload" (urn_quote u) body None ;; ret tt) w4
        = (w', inr tt) ->
      log creates_or_uploads (trace w')
      = (log creates_or_uploads (trace w4)
         ++ [("upload", get_url c (urn_quote u))])%list /\
      exists req,
        sent w' = (sent w4 ++ [req])%list /\
        req_url req = get_url c (urn_quote u) /\ req_data req = body).
    { intros body Hb. split.
      - unfold bind in Hb.
        destruct (execute_request c "upload" (urn_quote u) body None w4)
          as [w5 [e|resp]] eqn:Ex; [discriminate|].
        inversion Hb. subst w5.
        rewrite (execute_request_log creates_or_uploads _ _ _ _ _ _ _ _ Ex).
        + reflexivity.
        + right. left. now exists resp.
      - destruct (upload_request_sent _ _ _ _ _ Hb)
          as (req & _ & Hs & Hd & Hurl).
        now exists req. }
    assert (Hboth :
      log creates_or_uploads (trace w')
      = (log creates_or_uploads (trace w4)
         ++ [("upload", get_url c (urn_quote u))])%list /\
      exists req,
        sent w' = (sent w4 ++ [req])%list /\
        req_url req = get_url c (urn_quote u) /\
        req_data req
        = match progress with
          | Some cb => read_in_chunks c cb (Py.len local_file) local_file
          | None => BodyFile local_file
          end).
    { destruct progress as [cb|]; now apply Hup in H0. }
    destruct Hboth as (Hl & req & Hs & Hurl & Hdata).
    split.
    + rewrite Hl, Hl4, Hl3, Hl2, <- app_assoc.
      now rewrite (check_log creates_or_uploads _ _ _ _ _ Hc).
    + exists local_file, (sent w4), req.
      split; [now rewrite <- Hread|]. now split.
  - intros w2 e Hm. split.
    + rewrite upload_file_reaches_check by assumption.
      apply wrap_raises; [|exact (mkdir_never_transport _ _ _ _ _ _ _ Hm)].
      fold u. cbv zeta.
      rewrite (bind_returns _ _ _ _ _ Hc). cbn [negb].
      erewrite bind_raises; [reflexivity|].
      now erewrite bind_raises by exact Hm.
    + rewrite (mkdir_quiet uploads _ _ eq_refl eq_refl _ _ _ _ _ Hm).
      now apply (check_log uploads _ _ _ _ _ Hc).
Qed.

End Parents.

(** * Parsing and locks *)

Section Parsing.
Context {ext : Externals} {urn : UrnModel} {sub : Subprocess}.
Import ModuleInstaller WebDavXmlUtils Trace.

Lemma flat_map_map {A B C} (f : A -> list B) (g : A -> list C)
    (h : B -> C) l :
  (forall x, g x = map h (f x)) -> flat_map g l = map h (flat_map f l).
Proof.
  intros H. induction l as [|x l IH]; [reflexivity|].
  cbn [flat_map]. now rewrite map_app, IH, H.
Qed.

(** X16. The two parsers of a listing agree: the resources
    [parse_get_list_response] returns are, one for one and in the same
    order, those built from the path, with the separator put before it,
    and the directory flag of the entries
    [parse_get_list_info_response] returns; content that does not parse
    gives the empty list with both. *)
Theorem list_parsers_agree content :
  parse_get_list_response content
  = map (fun i => mkUrn (separate ++ li_path i) (li_isdir i))
      (parse_get_list_info_response content) /\
  (forall raw, content = Malformed raw ->
     parse_get_list_response content = [] /\
     parse_get_list_info_response content = []).
Proof.
  split.
  - unfold parse_get_list_response, parse_get_list_info_response.
    destruct (fromstring content) as [e|tree]; [reflexivity|].
    apply flat_map_map. intros response. unfold urn_of, list_info_of.
    destruct (hd_error (findall_desc "{DAV:}href" response)); reflexivity.
  - intros raw ->. split; reflexivity.
Qed.

Lemma first_response_for_spec n_path prefix path responses :
  match first_response_for n_path prefix path responses with
  | inr resp =>
      exists before after,
        responses = (before ++ resp :: after)%list /\
        answers_for n_path prefix resp /\
        Forall (fun r => ~ answers_for n_path prefix r) before
  | inl e =>
      (e = RemoteResourceNotFound path /\
       Forall (fun r => ~ answers_for n_path prefix r) responses) \/
      (e = AttributeError /\
       exists before r after,
         responses = (before ++ r :: after)%list /\
         findtext_child "{DAV:}href" r = None /\
         Forall (fun r => ~ answers_for n_path prefix r) (before ++ [r]))
  end.
Proof.
  induction responses as [|resp rest IH]; cbn [first_response_for].
  - left. split; [reflexivity | constructor].
  - cbv zeta.
    destruct (compare_path n_path (findtext_child "{DAV:}href" resp)) eqn:E1.
    { exists [], rest. split; [reflexivity|]. split; [now left | constructor]. }
    destruct (findtext_child "{DAV:}href" resp) as [h|] eqn:Eh.
    + destruct (compare_path n_path (Some (without_prefix prefix h))) eqn:E2.
      { exists [], rest. split; [reflexivity|]. split; [|constructor].
        right. exists h. now split. }
      assert (Hno : ~ answers_for n_path prefix resp).
      { unfold answers_for. rewrite Eh. intros [H | (h' & Hh & H)].
        - congruence.
        - inversion Hh. subst h'. congruence. }
      destruct (first_response_for n_path prefix path rest) as [e|found].
      * destruct IH as [(-> & Hall) | (-> & before & r & after & -> & Hr & Hall)].
        -- left. split; [reflexivity | now constructor].
        -- right. split; [reflexivity|].
           exists (resp :: before), r, after.
           split; [reflexivity|]. split; [exact Hr|]. now constructor.
      * destruct IH as (before & after & -> & Hans & Hall).
        exists (resp :: before), after.
        split; [reflexivity|]. split; [exact Hans | now constructor].
    + right. split; [reflexivity|].
      exists [], resp, rest. split; [reflexivity|]. split; [exact Eh|].
      constructor; [|constructor].
      unfold answers_for. rewrite Eh. intros [H | (h' & Hh & _)]; congruence.
Qed.

Lemma first_response_for_finds n_path prefix path before resp after :
  Forall (fun r => findtext_child "{DAV:}href" r <> None /\
                   ~ answers_for n_path prefix r) before ->
  answers_for n_path prefix resp ->
  first_response_for n_path prefix path (before ++ resp :: after)%list
  = inr resp.
Proof.
  intros Hbefore Hresp.
  induction Hbefore as [|r before (Hhref & Hno) _ IH];
    cbn [app first_response_for]; cbv zeta.
  - destruct Hresp as [H | (h & Hh & H)].
    + now rewrite H.
    + destruct (compare_path n_path (findtext_child "{DAV:}href" resp));
        [reflexivity|].
      rewrite Hh. now rewrite H.
  - destruct (compare_path n_path (findtext_child "{DAV:}href" r)) eqn:E1;
      [destruct Hno; now left|].
    destruct (findtext_child "{DAV:}href" r) as [h|] eqn:Eh;
      [|now destruct Hhref].
    destruct (compare_path n_path (Some (without_prefix prefix h))) eqn:E2;
      [|exact IH].
    destruct Hno. right. exists h. split; [exact Eh | exact E2].
Qed.

(** X17. [extract_response_for_path] returns the first response, among
    the children of the root, whose [href] compares equal to the
    normalized path, as it is or with the prefix of the host taken off:
    a response that does, with before it only responses that have an
    [href] and do not, is returned; and what is returned is such a
    response, with none before it that does.  When none does it raises
    the resource-not-found error for the path.  For content that does not
    parse it raises the method-not-supported error, and names [is_dir]
    in it; so does [parse_info_response]. *)
Theorem extract_response_is_first path hostname :
  (forall tree before resp after,
     findall_child "{DAV:}response" tree = (before ++ resp :: after)%list ->
     Forall (fun r => findtext_child "{DAV:}href" r <> None /\
                      ~ answers_for (normalize_path path)
                          (urlparse_path hostname) r) before ->
     answers_for (normalize_path path) (urlparse_path hostname) resp ->
     extract_response_for_path (Xml tree) path hostname = inr resp) /\
  (forall tree resp,
     extract_response_for_path (Xml tree) path hostname = inr resp ->
     exists before after,
       findall_child "{DAV:}response" tree = (before ++ resp :: after)%list /\
       answers_for (normalize_path path) (urlparse_path hostname) resp /\
       Forall (fun r => ~ answers_for (normalize_path path)
                            (urlparse_path hostname) r) before) /\
  (forall tree,
     Forall (fun r => findtext_child "{DAV:}href" r <> None /\
                      ~ answers_for (normalize_path path)
                          (urlparse_path hostname) r)
       (findall_child "{DAV:}response" tree) ->
     extract_response_for_path (Xml tree) path hostname
     = inl (RemoteResourceNotFound path)) /\
  (forall raw,
     extract_response_for_path (Malformed raw) path hostname
     = inl (MethodNotSupported "is_dir" hostname) /\
     parse_info_response (Malformed raw) path hostname
     = inl (MethodNotSupported "is_dir" hostname)).
Proof.
  split; [|split; [|split]].
  - intros tree before resp after Hl Hbefore Hresp.
    unfold extract_response_for_path. cbn [fromstring]. cbv zeta.
    rewrite Hl. now apply first_response_for_finds.
  - intros tree resp H. unfold extract_response_for_path in H.
    cbn [fromstring] in H. cbv zeta in H.
    pose proof (first_response_for_spec (normalize_path path)
                  (urlparse_path hostname) path
                  (findall_child "{DAV:}response" tree)) as Hs.
    rewrite H in Hs. exact Hs.
  - intros tree Hall. unfold extract_response_for_path.
    cbn [fromstring]. cbv zeta.
    pose proof (first_response_for_spec (normalize_path path)
                  (urlparse_path hostname) path
                  (findall_child "{DAV:}response" tree)) as Hs.
    destruct (first_response_for _ _ _ _) as [e|resp].
    + destruct Hs as [(-> & _) | (_ & before & r & after & Hl & Hr & _)];
        [reflexivity|].
      rewrite Hl in Hall. apply Forall_app in Hall.
      destruct Hall as (_ & Hall). inversion Hall as [|x l (Hx & _) Hrest].
      contradiction.
    + destruct Hs as (before & after & Hl & Hans & _).
      rewrite Hl in Hall. apply Forall_app in Hall.
      destruct Hall as (_ & Hall). inversion Hall as [|x l (_ & Hx) Hrest].
      contradiction.
  - intros raw. split; reflexivity.
Qed.

Lemma lock_headers c path lock action headers_ext d :
  self_get_headers (lock_self (lock_client c path lock)) action headers_ext
  = inr d ->
  Py.get d "Lock-Token" = Some lock /\
  Py.get d "If" = Some ("(" ++ lock ++ ")").
Proof.
  unfold self_get_headers, lock_client. cbn [lock_self lock_token].
  unfold lock_get_headers.
  destruct (get_headers _ action headers_ext) as [e|d0]; [discriminate|].
  intros H. inversion H. split.
  - rewrite get_set_other by discriminate. apply get_set_same.
  - apply get_set_same.
Qed.

Lemma lock_gives_lock_client c remote_path timeout w w' l :
  lock c remote_path timeout w = (w', inr l) ->
  exists tok, l = lock_client c (urn_quote (mkUrn remote_path false)) tok.
Proof.
  intros H. unfold lock in H.
  destruct (wrap_world _ _ _ _ _ H) as (r0 & H0 & Hr0). clear H.
  rewrite (Hr0 l eq_refl) in H0. clear Hr0 r0. cbv zeta in H0.
  unfold bind at 1 in H0.
  destruct (execute_request c "lock" _ _ _ w) as [w1 [e|response]];
    [discriminate|].
  destruct (header_get response "Lock-Token") as [tok|]; [|discriminate].
  inversion H0. now exists tok.
Qed.

(** X18. A call of [lock] that returns gives a lock client for the
    quoted path, with the token the server sent under [Lock-Token], the
    settings and the methods of the client; every request that lock
    client builds goes to the same host and carries the token under
    [Lock-Token] and, in brackets, under [If], whatever the headers of
    the action and of the caller say; and the lock request itself asks
    for a timeout only when the timeout is positive. *)
Theorem lock_client_carries_token c remote_path timeout w w' l :
  lock c remote_path timeout w = (w', inr l) ->
  exists tok,
    l = lock_client c (urn_quote (mkUrn remote_path false)) tok /\
    (exists req response,
       sent w' = (sent w ++ [req])%list /\
       build_request c "lock" (urn_quote (mkUrn remote_path false))
         (BodyText
            "<D:lockinfo xmlns:D='DAV:'><D:lockscope><D:exclusive/></D:lockscope><D:locktype><D:write/></D:locktype></D:lockinfo>")
         (if 0 <? timeout
          then Some ["Timeout: Second-" ++ Py.str_of_int timeout]
          else None) = inr req /\
       server w (sent w) req = inr response /\
       header_get response "Lock-Token" = Some tok) /\
    (forall action path data headers_ext req,
       build_request (lock_self l) action path data headers_ext = inr req ->
       req_url req = get_url c path /\
       Py.get (req_headers req) "Lock-Token" = Some tok /\
       Py.get (req_headers req) "If" = Some ("(" ++ tok ++ ")")).
Proof.
  intros H. unfold lock in H.
  destruct (wrap_world _ _ _ _ _ H) as (r0 & H0 & Hr0). clear H.
  rewrite (Hr0 l eq_refl) in H0. clear Hr0 r0. cbv zeta in H0.
  unfold bind at 1 in H0.
  destruct (execute_request c "lock" _ _ _ w) as [w1 [e|response]] eqn:Ex;
    [discriminate|].
  destruct (header_get response "Lock-Token") as [tok|] eqn:Et;
    [|discriminate].
  inversion H0. subst w1. clear H0. exists tok.
  split; [reflexivity|]. split.
  - revert Ex. unfold execute_request, bind at 1, lift.
    destruct (build_request c "lock" _ _ _) as [e|req] eqn:Eb;
      [discriminate|].
    unfold bind at 1.
    destruct (session_request "lock" req w) as [w2 [e|resp]] eqn:Es;
      [discriminate|].
    intros Hrest.
    assert (Hw : w2 = w' /\ resp = response).
    { revert Hrest. unfold raise, ret.
      repeat match goal with
             | |- context [if ?b then _ else _] => destruct b
             end; intros Hrest; inversion Hrest; now split. }
    destruct Hw as (-> & ->).
    exists req, response.
    assert (Hw' : w' = fst (session_request "lock" req w))
      by now rewrite Es.
    split.
    + rewrite Hw'. apply sent_session_request.
    + split; [reflexivity|]. split; [|exact Et].
      revert Es. unfold session_request.
      destruct (server w (sent w) req) as [[cause|cause]|resp];
        intros Es; inversion Es. reflexivity.
  - intros action path data headers_ext req Hb.
    split.
    + apply (build_request_url _ _ _ _ _ _ Hb).
    + revert Hb. unfold build_request.
      destruct (Py.get _ action) as [method|]; [|discriminate].
      destruct (self_get_headers _ action headers_ext) as [e|hdrs] eqn:Eh;
        [discriminate|].
      intros Hb. inversion Hb. cbn [req_headers].
      exact (lock_headers _ _ _ _ _ _ Eh).
Qed.

Lemma lock_exit_log l w req :
  build_request (lock_self l) "unlock" (lock_path l) BodyNone None = inr req ->
  log unlocks (trace (fst (lock_exit l w)))
  = (log unlocks (trace w) ++ [("unlock", req_url req)])%list.
Proof.
  intros Hb. unfold lock_exit, bind.
  destruct (execute_request (lock_self l) "unlock" (lock_path l) BodyNone
              None w) as [w1 r] eqn:Ex.
  assert (Hl : log unlocks (trace w1)
               = (log unlocks (trace w) ++ [("unlock", req_url req)])%list).
  { destruct (execute_request_world _ _ _ _ _ _ _ _ Ex)
      as [(e & Hb' & _) | (req' & Hb' & ->)]; [congruence|].
    rewrite Hb in Hb'. inversion Hb'. subst req'.
    now rewrite log_session. }
  destruct r as [e|resp]; cbn [fst]; [exact Hl|].
  unfold tell, emit. cbn [fst trace]. rewrite log_app, Hl.
  cbn [log]. now rewrite app_nil_r.
Qed.

(** X19. [with client.lock(...)] unlocks on the way out, however the
    body ends: with the lock taken and the unlock method known, the run
    sends one unlock request, for the locked path, after all the body
    did; a value is returned only if the body returned it, and an error
    of the body reaches the caller unless the unlock raises one of its
    own. *)
Theorem with_lock_unlocks {A} c remote_path timeout (body : Client -> M A)
    w w0 l w1 r method :
  lock c remote_path timeout w = (w0, inr l) ->
  Py.get (requests c) "unlock" = Some method ->
  body (lock_self l) w0 = (w1, r) ->
  exists w2 r',
    with_lock c remote_path timeout body w = (w2, r') /\
    log unlocks (trace w2)
    = (log unlocks (trace w1)
       ++ [("unlock", get_url c (urn_quote (mkUrn remote_path false)))])%list /\
    (forall a, r' = inr a -> r = inr a) /\
    (forall e, r = inl e ->
       r' = inl e \/ exists e', snd (lock_exit l w1) = inl e' /\ r' = inl e').
Proof.
  intros Hl Hm Hb.
  destruct (lock_gives_lock_client c remote_path timeout w w0 l Hl)
    as (tok & ->).
  set (p := urn_quote (mkUrn remote_path false)) in *.
  set (l := lock_client c p tok) in *.
  assert (Hreq : exists req,
            build_request (lock_self l) "unlock" (lock_path l) BodyNone None
            = inr req /\ req_url req = get_url c p).
  { unfold build_request.
    change (requests (lock_self l)) with (requests c). rewrite Hm.
    destruct (self_get_headers (lock_self l) "unlock" None) as [e|hdrs] eqn:Eh.
    - exfalso. revert Eh. unfold self_get_headers, lock_get_headers,
        get_headers, header_lines.
      cbn [lock_self l lock_client lock_token http_header webdav].
      change (Py.get default_http_header "unlock") with (@None (list string)).
      cbv iota.
      destruct (Py.truthy (token (webdav c))); cbn; discriminate.
    - eexists. split; [reflexivity|]. reflexivity. }
  destruct Hreq as (req & Hreq & Hurl).
  pose proof (lock_exit_log l w1 req Hreq) as Hlog. rewrite Hurl in Hlog.
  unfold with_lock. rewrite (bind_returns _ _ _ _ _ Hl). rewrite Hb.
  destruct (lock_exit l w1) as [w2 [e'|u]] eqn:Ee; cbn [fst snd] in *.
  - destruct r as [e|a]; exists w2, (inl e');
      (split; [reflexivity|]); (split; [exact Hlog|]);
      (split; [intros; discriminate|]); intros e0 H0; try discriminate.
    right. exists e'. now split.
  - destruct r as [e|a].
    + exists w2, (inl e). split; [reflexivity|]. split; [exact Hlog|].
      split; [intros; discriminate|]. intros e0 H0. now left.
    + exists w2, (inr a). split; [reflexivity|]. split; [exact Hlog|].
      split; [tauto|]. intros; discriminate.
Qed.

End Parsing.

(** * What is looked at first *)

Section Guards.
Context {ext : Externals} {urn : UrnModel} {sub : Subprocess}.
Import ModuleInstaller Trace.

(** X20. [info] and [is_dir] look for the resource before they ask about
    it: when the check of the path answers [True] no second check is
    made; when it answers [False] the path is checked again as a
    directory, and when that answers [False] too both raise the
    resource-not-found error with the path as it was given, having sent
    nothing but checks. *)
Theorem resource_is_checked_first c remote_path w :
  let u := mkUrn remote_path false in
  (forall w1,
     check c (urn_path u) w = (w1, inr true) ->
     _check_remote_resource c remote_path u w = (w1, inr tt)) /\
  (forall w1 w2 b,
     check c (urn_path u) w = (w1, inr false) ->
     check c (urn_path (mkUrn remote_path true)) w1 = (w2, inr b) ->
     _check_remote_resource c remote_path u w
     = (w2, if b then inr tt else inl (RemoteResourceNotFound remote_path))) /\
  (forall w1 w2,
     check c (urn_path u) w = (w1, inr false) ->
     check c (urn_path (mkUrn remote_path true)) w1 = (w2, inr false) ->
     info c remote_path w = (w2, inl (RemoteResourceNotFound remote_path)) /\
     is_dir c remote_path w = (w2, inl (RemoteResourceNotFound remote_path)) /\
     forall keep, keep "check" = false ->
                  log keep (trace w2) = log keep (trace w)).
Proof.
  intros u.
  assert (H2 : forall w1 w2 b,
     check c (urn_path u) w = (w1, inr false) ->
     check c (urn_path (mkUrn remote_path true)) w1 = (w2, inr b) ->
     _check_remote_resource c remote_path u w
     = (w2, if b then inr tt else inl (RemoteResourceNotFound remote_path))).
  { intros w1 w2 b Ha Hb. unfold _check_remote_resource.
    rewrite (bind_returns _ _ _ _ _ Ha), (bind_returns _ _ _ _ _ Hb).
    now destruct b. }
  split; [|split; [exact H2|]].
  - intros w1 Ha. unfold _check_remote_resource.
    now rewrite (bind_returns _ _ _ _ _ Ha).
  - intros w1 w2 Ha Hb. pose proof (H2 w1 w2 false Ha Hb) as Hr.
    split; [|split].
    + unfold info. apply wrap_raises; [|reflexivity]. cbv zeta. fold u.
      now rewrite (bind_raises _ _ _ _ _ Hr).
    + unfold is_dir. apply wrap_raises; [|reflexivity]. cbv zeta. fold u.
      now rewrite (bind_raises _ _ _ _ _ Hr).
    + intros keep Hk. rewrite (check_log keep _ _ _ _ _ Hb Hk).
      exact (check_log keep _ _ _ _ _ Ha Hk).
Qed.

Lemma isdir_exists w p : os.isdir w p = true -> os.exists_ w p = true.
Proof.
  unfold os.isdir, os.exists_. destruct (os.node w p) as [[m d|m l]|];
    [discriminate | reflexivity | discriminate].
Qed.

Lemma validate_local_directory_run local_directory w :
  _validate_local_directory local_directory w
  = (w, if os.isdir w local_directory then inr tt
        else inl (OptionNotValid "local_path" local_directory)).
Proof.
  unfold _validate_local_directory, bind, ask.
  destruct (os.isdir w local_directory) eqn:E; [|reflexivity].
  cbn [negb]. unfold ret at 1. now rewrite (isdir_exists _ _ E).
Qed.

(** X21. [push], [pull] and [sync] validate their directories before
    anything else.  The validation of the local directory returns when
    the path is a directory and raises the option error for [local_path]
    otherwise, with nothing changed: its second test, for a path that
    does not exist, is never the one that raises.  When [is_dir] answers
    [False] for the remote directory the three raise the option error
    for [remote_path], and when it answers [True] and the local path is
    no directory they raise the option error for [local_path], in the
    world [is_dir] left. *)
Theorem directories_are_validated_first depth c remote_directory
    local_directory w :
  let u := mkUrn remote_directory true in
  _validate_local_directory local_directory w
  = (w, if os.isdir w local_directory then inr tt
        else inl (OptionNotValid "local_path" local_directory)) /\
  (forall w1,
     is_dir c (urn_path u) w = (w1, inr false) ->
     let e := OptionNotValid "remote_path" (urn_path u) in
     push (S depth) c remote_directory local_directory w = (w1, inl e) /\
     pull (S depth) c remote_directory local_directory w = (w1, inl e) /\
     sync (S depth) c remote_directory local_directory w = (w1, inl e)) /\
  (forall w1,
     is_dir c (urn_path u) w = (w1, inr true) ->
     os.isdir w1 local_directory = false ->
     let e := OptionNotValid "local_path" local_directory in
     push (S depth) c remote_directory local_directory w = (w1, inl e) /\
     pull (S depth) c remote_directory local_directory w = (w1, inl e) /\
     sync (S depth) c remote_directory local_directory w = (w1, inl e)).
Proof.
  intros u. split; [apply validate_local_directory_run|]. split.
  - intros w1 Hd e.
    assert (Hv : _validate_remote_directory c u w = (w1, inl e)).
    { unfold _validate_remote_directory.
      now rewrite (bind_returns _ _ _ _ _ Hd). }
    assert (Hpush : push (S depth) c remote_directory local_directory w
                    = (w1, inl e)).
    { cbn [push]. cbv zeta. fold u. now rewrite (bind_raises _ _ _ _ _ Hv). }
    assert (Hpull : pull (S depth) c remote_directory local_directory w
                    = (w1, inl e)).
    { cbn [pull]. cbv zeta. fold u. now rewrite (bind_raises _ _ _ _ _ Hv). }
    split; [exact Hpush|]. split; [exact Hpull|].
    unfold sync. now rewrite (bind_raises _ _ _ _ _ Hpull).
  - intros w1 Hd Hl e.
    assert (Hv : _validate_remote_directory c u w = (w1, inr tt)).
    { unfold _validate_remote_directory.
      now rewrite (bind_returns _ _ _ _ _ Hd). }
    assert (Hv2 : _validate_local_directory local_directory w1 = (w1, inl e)).
    { rewrite validate_local_directory_run. now rewrite Hl. }
    assert (Hpush : push (S depth) c remote_directory local_directory w
                    = (w1, inl e)).
    { cbn [push]. cbv zeta. fold u. rewrite (bind_returns _ _ _ _ _ Hv).
      now rewrite (bind_raises _ _ _ _ _ Hv2). }
    assert (Hpull : pull (S depth) c remote_directory local_directory w
                    = (w1, inl e)).
    { cbn [pull]. cbv zeta. fold u. rewrite (bind_returns _ _ _ _ _ Hv).
      now rewrite (bind_raises _ _ _ _ _ Hv2). }
    split; [exact Hpush|]. split; [exact Hpull|].
    unfold sync. now rewrite (bind_raises _ _ _ _ _ Hpull).
Qed.

(** X22. [upload_directory], for a remote path that names a directory,
    looks at the local path before anything is sent: when it is no
    directory the call raises the option error for [local_path] in the
    world as it was; when it is one, neither test of the local path
    raises, the test for a path that is not there included, and the call
    goes on to the check of the remote directory, whose error, if it
    raises, is the error of the call. *)
Theorem upload_directory_validates_first depth c remote_path local_path
    progress isprint w :
  let u := mkUrn remote_path true in
  urn_is_dir u = true ->
  (os.isdir w local_path = false ->
   upload_directory (S depth) c remote_path local_path progress isprint w
   = (w, inl (OptionNotValid "local_path" local_path))) /\
  (os.isdir w local_path = true ->
   forall w1 e,
     check c (urn_path u) w = (w1, inl e) ->
     upload_directory (S depth) c remote_path local_path progress isprint w
     = (w1, inl e)).
Proof.
  intros u Hu. split.
  - intros Hl. cbn [upload_directory]. cbv zeta. fold u. rewrite Hu.
    cbn [negb]. erewrite bind_returns by reflexivity.
    erewrite bind_returns by (unfold ask; rewrite Hl; reflexivity).
    reflexivity.
  - intros Hl w1 e Hc. cbn [upload_directory]. cbv zeta. fold u.
    rewrite Hu. cbn [negb]. erewrite bind_returns by reflexivity.
    erewrite bind_returns by (unfold ask; rewrite Hl; reflexivity).
    cbn [negb]. erewrite bind_returns by reflexivity.
    erewrite bind_returns
      by (unfold ask; rewrite (isdir_exists _ _ Hl); reflexivity).
    cbn [negb]. erewrite bind_returns by reflexivity.
    now rewrite (bind_raises _ _ _ _ _ Hc).
Qed.

(** X23. [copy] raises the resource-not-found error when the check of
    the source answers [False] and the parent-not-found error when that
    of the parent of the destination does, with no COPY sent.  A request
    it builds carries the URL of the destination, stripped of blanks,
    under [Destination]; it carries the depth under [Depth] when
    [is_dir] answered [True] for the source, and no [Depth] at all, with
    the headers of the class, when it answered [False]. *)
Theorem copy_checks_and_headers c remote_path_from remote_path_to depth w :
  let urn_from := mkUrn remote_path_from false in
  let urn_to := mkUrn remote_path_to false in
  let destination := "Destination: " ++ get_url c (urn_quote urn_to) in
  (forall w1,
     check c (urn_path urn_from) w = (w1, inr false) ->
     copy c remote_path_from remote_path_to depth w
     = (w1, inl (RemoteResourceNotFound (urn_path urn_from)))) /\
  (forall w1 w2,
     check c (urn_path urn_from) w = (w1, inr true) ->
     check c (urn_parent urn_to) w1 = (w2, inr false) ->
     copy c remote_path_from remote_path_to depth w
     = (w2, inl (RemoteParentNotFound (urn_path urn_to)))) /\
  (forall w1 w2 w3 (d : bool),
     check c (urn_path urn_from) w = (w1, inr true) ->
     check c (urn_parent urn_to) w1 = (w2, inr true) ->
     is_dir c (urn_path urn_from) w2 = (w3, inr d) ->
     copy c remote_path_from remote_path_to depth w
     = wrap_connection_error c
         (execute_request c "copy" (urn_quote urn_from) BodyNone
            (Some (destination
                   :: if d then ["Depth: " ++ Py.str_of_int depth] else [])) ;;
          ret tt) w3) /\
  (forall (d : bool) req,
     build_request c "copy" (urn_quote urn_from) BodyNone
       (Some (destination
              :: if d then ["Depth: " ++ Py.str_of_int depth] else []))
     = inr req ->
     Py.get (req_headers req) "Destination"
     = Some (Py.strip (" " ++ get_url c (urn_quote urn_to))) /\
     (d = true ->
      Py.get (req_headers req) "Depth"
      = Some (Py.strip (" " ++ Py.str_of_int depth))) /\
     (d = false -> http_header c = default_http_header ->
      Py.get (req_headers req) "Depth" = None)).
Proof.
  intros urn_from urn_to destination. split; [|split; [|split]].
  - intros w1 Hc. unfold copy. apply wrap_raises; [|reflexivity]. cbv zeta.
    fold urn_from. rewrite (bind_returns _ _ _ _ _ Hc). reflexivity.
  - intros w1 w2 Hc1 Hc2.
    unfold copy. apply wrap_raises; [|reflexivity]. cbv zeta.
    fold urn_from. rewrite (bind_returns _ _ _ _ _ Hc1). cbn [negb].
    erewrite bind_returns by reflexivity.
    fold urn_to. rewrite (bind_returns _ _ _ _ _ Hc2). reflexivity.
  - intros w1 w2 w3 d Hc1 Hc2 Hd.
    unfold copy, wrap_connection_error, try_except. cbv zeta.
    fold urn_from. rewrite (bind_returns _ _ _ _ _ Hc1). cbn [negb].
    erewrite bind_returns by reflexivity.
    fold urn_to. rewrite (bind_returns _ _ _ _ _ Hc2). cbn [negb].
    erewrite bind_returns by reflexivity.
    rewrite (bind_returns _ _ _ _ _ Hd).
    destruct d; reflexivity.
  - intros d req. unfold build_request.
    destruct (Py.get (requests c) "copy") as [method|]; [|discriminate].
    destruct (self_get_headers c "copy" _) as [e|hdrs] eqn:Eh;
      [discriminate|].
    intros H. inversion H. subst req. clear H. cbn [req_headers].
    set (dest := get_url c (urn_quote urn_to)) in *.
    set (tail := if d then ["Depth: " ++ Py.str_of_int depth] else [])
      in *.
    split; [|split].
    + destruct (self_get_headers_value _ _ _ _ "Destination" Eh)
        as (ps & Ep & ->); try discriminate.
      rewrite header_lines_ext in Ep.
      apply (header_value _ _ _ destination _
               "Destination" (" " ++ dest) Ep eq_refl eq_refl).
      intros l k' v' Hin Hs. apply in_app_or in Hin.
      destruct Hin as [Hin | Hin].
      * subst tail. destruct d; [|destruct Hin].
        destruct Hin as [<- | []]. inversion Hs. discriminate.
      * apply (token_line_key c _ _ _ _ Hin Hs). intros ->. discriminate.
    + intros ->. subst tail.
      destruct (self_get_headers_value _ _ _ _ "Depth" Eh)
        as (ps & Ep & ->); try discriminate.
      rewrite header_lines_ext in Ep.
      apply (header_value _ _
               (app (match Py.get (http_header c) "copy" with
                     | Some h => h | None => [] end)
                    [destination])
               ("Depth: " ++ Py.str_of_int depth)
               (if Py.truthy (token (webdav c))
                then ["Authorization: Bearer " ++ token (webdav c)] else [])
               "Depth" (" " ++ Py.str_of_int depth) Ep).
      * now rewrite <- app_assoc.
      * reflexivity.
      * intros l k' v' Hin Hs.
        apply (token_line_key c _ _ _ _ Hin Hs). intros ->. discriminate.
    + intros -> Hh. subst tail.
      destruct (self_get_headers_value _ _ _ _ "Depth" Eh)
        as (ps & Ep & ->); try discriminate.
      rewrite header_lines_ext, Hh in Ep.
      destruct (Py.truthy (token (webdav c))); cbn in Ep;
        inversion Ep; reflexivity.
Qed.

(** X24. With the parent found by the check, when the server's answer
    to the MKCOL is returned by the dispatcher [mkdir] answers whether
    the status was 200 or 201, so [False] and no error for any other
    status below 400; the MKCOL is the one request it adds to those that
    create or upload. *)
Theorem mkdir_answers_by_status depth c remote_path recursive w w1 w2
    response :
  let directory_urn := mkUrn remote_path true in
  check c (urn_parent directory_urn) w = (w1, inr true) ->
  execute_request c "mkdir" (urn_quote directory_urn) BodyNone None w1
  = (w2, inr response) ->
  mkdir (S depth) c remote_path recursive w
  = (w2, inr ((status_code response =? 200)
              || (status_code response =? 201))) /\
  status_code response < 400 /\
  log creates_or_uploads (trace w2)
  = (log creates_or_uploads (trace w)
     ++ [("mkdir", get_url c (urn_quote directory_urn))])%list.
Proof.
  intros directory_urn Hc Hx. split; [|split].
  - cbn [mkdir]. apply wrap_returns. cbv zeta.
    fold directory_urn. rewrite (bind_returns _ _ _ _ _ Hc). cbn [negb].
    erewrite bind_returns by reflexivity.
    unfold try_except. now rewrite (bind_returns _ _ _ _ _ Hx).
  - revert Hx. unfold execute_request, bind, lift.
    destruct (build_request c "mkdir" _ _ _) as [e|req]; [discriminate|].
    destruct (session_request "mkdir" req w1) as [w3 [e|resp]];
      [discriminate|].
    unfold raise, ret.
    destruct (status_code resp =? 507); [discriminate|].
    destruct (status_code resp =? 404); [discriminate|].
    destruct (status_code resp =? 423); [discriminate|].
    destruct (status_code resp =? 405); [discriminate|].
    destruct (Z.geb_spec (status_code resp) 400) as [Hge|Hlt];
      [discriminate|].
    intros Heq. inversion Heq. subst. exact Hlt.
  - rewrite (execute_request_log creates_or_uploads _ _ _ _ _ _ _ _ Hx)
      by (right; left; now exists response).
    now rewrite (check_log creates_or_uploads _ _ _ _ _ Hc).
Qed.

Lemma parse_free_space_not_transport content hostname e :
  WebDavXmlUtils.parse_free_space_response content hostname = inl e ->
  is_transport_error e = false.
Proof.
  unfold WebDavXmlUtils.parse_free_space_response.
  destruct (fromstring content) as [e0|tree] eqn:Ef.
  - destruct content; inversion Ef. discriminate.
  - destruct (find_desc "{DAV:}quota-available-bytes" tree) as [node|].
    + unfold WebDavXmlUtils.int_of_text. destruct (text_of node) as [t|].
      * destruct (Py.int t); [discriminate|]. now intros [= <-].
      * now intros [= <-].
    + now intros [= <-].
Qed.

(** X25. [clean] and [free] send their one request with no check before
    it.  For a request that is built and answered, the request is the
    only one added to those sent; [clean] returns on a status below 400
    and on 404 raises the resource-not-found error with the quoted path;
    [free] asks with the property document for the quota as body and, on
    a status below 400, gives what the parser makes of the content. *)
Theorem clean_and_free_send_one_request c w req response :
  server w (sent w) req = inr response ->
  (forall remote_path,
     let u := mkUrn remote_path false in
     build_request c "clean" (urn_quote u) BodyNone None = inr req ->
     sent (fst (clean c remote_path w)) = (sent w ++ [req])%list /\
     (status_code response < 400 ->
      snd (clean c remote_path w) = inr tt) /\
     (status_code response = 404 ->
      snd (clean c remote_path w)
      = inl (RemoteResourceNotFound (urn_quote u)))) /\
  (build_request c "free" ""
     (BodyXml WebDavXmlUtils.create_free_space_request_content) None
   = inr req ->
   sent (fst (free c w)) = (sent w ++ [req])%list /\
   (status_code response < 400 ->
    snd (free c w)
    = WebDavXmlUtils.parse_free_space_response (content response)
        (hostname (webdav c)))).
Proof.
  intros Hs. split.
  - intros remote_path u Hb.
    pose proof (execute_request_status _ _ _ _ _ _ _ _ Hb Hs) as Hx.
    assert (Hw : fst (clean c remote_path w)
                 = fst (session_request "clean" req w)).
    { destruct (clean c remote_path w) as [w' r] eqn:E. cbn [fst].
      unfold clean in E.
      destruct (wrap_world _ _ _ _ _ E) as (r0 & H0 & _).
      revert H0. cbv zeta. fold u. unfold bind. rewrite Hx.
      destruct (if status_code response <? 400 then _ else _);
        intros H0; now inversion H0. }
    split; [rewrite Hw; apply sent_session_request|]. split.
    + intros Hlt. unfold clean. erewrite wrap_returns; [reflexivity|].
      cbv zeta. fold u. unfold bind. rewrite Hx.
      destruct (Z.ltb_spec (status_code response) 400); [reflexivity|lia].
    + intros H404. unfold clean. erewrite wrap_raises; [reflexivity| |].
      * cbv zeta. fold u. unfold bind. rewrite Hx, H404. reflexivity.
      * reflexivity.
  - intros Hb.
    pose proof (execute_request_status _ _ _ _ _ _ _ _ Hb Hs) as Hx.
    assert (Hw : fst (free c w) = fst (session_request "free" req w)).
    { destruct (free c w) as [w' r] eqn:E. cbn [fst].
      unfold free in E.
      destruct (wrap_world _ _ _ _ _ E) as (r0 & H0 & _).
      revert H0. cbv zeta. unfold bind, lift. rewrite Hx.
      destruct (if status_code response <? 400 then _ else _);
        intros H0; now inversion H0. }
    split; [rewrite Hw; apply sent_session_request|].
    intros Hlt.
    assert (Hrun :
      (response <- execute_request c "free" ""
                     (BodyXml WebDavXmlUtils.create_free_space_request_content)
                     None ;;
       lift (WebDavXmlUtils.parse_free_space_response (content response)
               (hostname (webdav c)))) w
      = (fst (session_request "free" req w),
         WebDavXmlUtils.parse_free_space_response (content response)
           (hostname (webdav c)))).
    { unfold bind, lift. rewrite Hx.
      destruct (Z.ltb_spec (status_code response) 400); [reflexivity|lia]. }
    unfold free. cbv zeta.
    destruct (WebDavXmlUtils.parse_free_space_response (content response)
                (hostname (webdav c))) as [e|v] eqn:Ep.
    + erewrite wrap_raises; [reflexivity | exact Hrun |].
      exact (parse_free_space_not_transport _ _ _ Ep).
    + erewrite wrap_returns; [reflexivity | exact Hrun].
Qed.

End Guards.

(** * The scenarios *)

Section Scenarios.
#[local] Existing Instance lib.
#[local] Existing Instance spec_urn.
#[local] Existing Instance Scenario.installing.
Import ModuleInstaller WebDavXmlUtils Trace Scenario.

(** A 404 is the resource-not-found error with the path asked for. *)
Lemma execute_request_classifies_404 :
  snd (execute_request client "info" "/x" BodyNone None (always 404))
  = inl (RemoteResourceNotFound "/x").
Proof.
  pose proof (execute_request_classifies client "info" "/x" BodyNone None
                (always 404) _ (reply 404) eq_refl eq_refl) as H.
  exact (proj1 (proj2 H) eq_refl).
Defined.

(** With the toggle off, a 404 to the HEAD request makes [check] answer
    [False]. *)
Lemma check_answers_404 : snd (check client "/x" (always 404)) = inr false.
Proof.
  pose proof (proj2 (check_answers client "/x" (always 404)) eq_refl
                _ (reply 404) eq_refl eq_refl) as H.
  exact (proj1 (proj2 (proj2 H)) eq_refl).
Defined.

(** A 500 to the HEAD request makes [check] raise: it does not answer
    [False]. *)
Lemma check_raises_on_500 :
  snd (check client "/x" (always 500))
  = inl (ResponseErrorCode "https://dav.example.org/x" 500 (Malformed ""))
  /\ snd (check client "/x" (always 500)) <> inr false.
Proof. split; [reflexivity | discriminate]. Qed.

(** On a server that answers 405 to MKCOL, [mkdir] returns [True]. *)
Lemma mkdir_without_mkcol :
  snd (mkdir 1 client "/new/" false no_mkcol) = inr true.
Proof.
  pose proof (proj1 (mkdir_swallows_method_not_supported 0 client "/new/"
                       false no_mkcol) _ (or_introl eq_refl)) as H.
  exact (f_equal snd (proj1 H _ _ _ eq_refl)).
Defined.

(** [check] swallows an error of the dispatcher too: the request raises
    resource-not-found, and [check] returns [False]. *)
Lemma check_swallows_not_found :
  snd (execute_request client "check" (urn_quote (mkUrn "/x" false))
         BodyNone None (always 404))
  = inl (RemoteResourceNotFound "/x")
  /\ snd (check client "/x" (always 404)) = inr false.
Proof. split; reflexivity. Qed.

(** With the token [abc] the request carries it, and no credentials,
    though the login and the password are set. *)
Lemma token_client_request :
  exists req,
    build_request token_client "list" "/docs/" BodyNone None = inr req /\
    Py.get (req_headers req) "Authorization" = Some "Bearer abc" /\
    req_auth req = None.
Proof.
  eexists. split; [reflexivity|].
  pose proof (token_takes_precedence token_client "list" "/docs/" BodyNone
                None _ eq_refl) as [H _].
  assert (Ht : token (webdav token_client) <> "") by discriminate.
  destruct (H Ht) as (_ & H1 & H2). exact (conj H1 H2).
Defined.

(** A body that is not XML: [free] returns the empty string. *)
Lemma free_of_malformed :
  snd (free client (always 207)) = inr (FreeStr "").
Proof.
  refine (proj1 (proj2 (free_space_parsing "")) client (always 207) _
            (reply 207) "" eq_refl eq_refl _ eq_refl).
  reflexivity.
Defined.

(** A body that has the node, without text, raises method-not-supported
    as well. *)
Lemma empty_quota_not_supported :
  find_desc "{DAV:}quota-available-bytes" empty_quota <> None /\
  parse_free_space_response (Xml empty_quota) "h"
  = inl (MethodNotSupported "free" "h").
Proof. split; [discriminate | reflexivity]. Qed.

(** Scenario A: the listing of [/docs/]. *)
Lemma list_docs :
  snd (list_ client "/docs/" false false docs) = inr ["file.txt"].
Proof.
  assert (Hr : urn_path (mkUrn "/docs/" true) <> root) by discriminate.
  pose proof (list_excludes_queried_directory client "/docs/" false docs
                _ _ _ (or_intror (conj Hr eq_refl)) eq_refl) as H.
  exact (f_equal snd
           (proj2 (proj2 H) _ _ _ _ _ eq_refl eq_refl eq_refl eq_refl
              eq_refl eq_refl)).
Defined.

(** A download of five bytes in one chunk, into a buffer and into a
    file: the callback is told 0 and then 65536. *)
Lemma download_from_reports :
  (exists w3 w',
     download_from client "buf" "/c.txt" (Some "cb")
       (remote_file "Thu, 01 Jan 1970 00:01:40 GMT") = (w', inr tt) /\
     reports "cb" (SinkBuffer "buf") (Some 5) ["hello"] w3 w') /\
  (exists w3 w',
     download_file client "/c.txt" "local/c.txt" (Some "cb")
       (remote_file "Thu, 01 Jan 1970 00:01:40 GMT") = (w', inr tt) /\
     reports "cb" (SinkFile "local/c.txt") (Some 5) ["hello"] w3 w').
Proof.
  pose proof (download_reports_progress client "cb" "/c.txt" eq_refl)
    as (H1 & H2 & _).
  split.
  - eexists.
    refine (H1 "buf" (remote_file "Thu, 01 Jan 1970 00:01:40 GMT")
              _ _ _ _ (Some 5) eq_refl eq_refl eq_refl eq_refl).
  - eexists.
    refine (H2 "local/c.txt" (remote_file "Thu, 01 Jan 1970 00:01:40 GMT")
              _ _ _ _ _ (Some 5) eq_refl eq_refl eq_refl eq_refl eq_refl
              eq_refl).
Defined.

(** What that download leaves in the trace after its requests. *)
Lemma download_from_calls :
  progress_calls
    (trace (fst (download_from client "buf" "/c.txt" (Some "cb")
                   (remote_file "Thu, 01 Jan 1970 00:01:40 GMT"))))
  = [(0, Some 5); (65536, Some 5)].
Proof. reflexivity. Qed.

(** The remote time cannot be read: the comparison is [None], and the
    loop of [push] passes the file over.  The remote file is newer: the
    comparison is [False], and the loop passes the file over. *)
Lemma comparison_skips :
  snd (is_local_more_recent client "local/c.txt" "/c.txt"
         (remote_file "yesterday")) = inr None /\
  snd (push_entry (push 2 client) 2 client (mkUrn "/" true) "local"
         ["c.txt"] false "c.txt" (remote_file "yesterday")) = inr false /\
  snd (push_entry (push 2 client) 2 client (mkUrn "/" true) "local"
         ["c.txt"] false "c.txt"
         (remote_file "Thu, 01 Jan 1970 00:01:40 GMT")) = inr false.
Proof.
  pose proof (comparison_decides_push client) as (_ & H2 & H3).
  split; [|split].
  - exact (f_equal snd
             (proj1 (H2 "local/c.txt" "/c.txt" (remote_file "yesterday")
                       _ _ eq_refl) eq_refl)).
  - assert (Hn : None <> Some true) by discriminate.
    exact (f_equal snd
             (proj1 (H3 (push 2 client) 2%nat (mkUrn "/" true) "local"
                       ["c.txt"] false "c.txt" [] (remote_file "yesterday")
                       _ None eq_refl eq_refl eq_refl Hn))).
  - assert (Hn : Some false <> Some true) by discriminate.
    exact (f_equal snd
             (proj1 (H3 (push 2 client) 2%nat (mkUrn "/" true) "local"
                       ["c.txt"] false "c.txt" []
                       (remote_file "Thu, 01 Jan 1970 00:01:40 GMT")
                       _ (Some false) eq_refl eq_refl eq_refl Hn))).
Defined.

(** Scenario D: the only local file is older than its remote
    counterpart; [push] uploads nothing and returns [False]. *)
Lemma push_older_file :
  let run := push 3 client "/" "local"
               (remote_file "Thu, 01 Jan 1970 00:01:40 GMT") in
  snd run = inr false /\ log uploads (trace (fst run)) = [].
Proof. split; reflexivity. Qed.

(** C2. The comparison is not possible, and is not [None]: with the
    remote file not there the metadata cannot be fetched, and
    [is_local_more_recent] raises the resource-not-found error of
    [info]; with the remote file listed without a modification time the
    time cannot be read, and it raises the [TypeError] of the date
    parser. *)
Lemma comparison_raises_not_found :
  snd (info client "/c.txt" (always 404))
  = inl (RemoteResourceNotFound "/c.txt") /\
  snd (is_local_more_recent client "local/c.txt" "/c.txt" (always 404))
  = inl (RemoteResourceNotFound "/c.txt") /\
  snd (is_local_more_recent client "local/c.txt" "/c.txt" (always 404))
  <> inr None /\
  modified (get_info_from_response
              (Elem "{DAV:}response" [] None
                 [Elem "{DAV:}href" [] (Some "/c.txt") [];
                  Elem "{DAV:}propstat" [] None
                    [Elem "{DAV:}prop" [] None
                       [Elem "{DAV:}resourcetype" [] None []]]])) = None /\
  snd (is_local_more_recent client "local/c.txt" "/c.txt" undated)
  = inl TypeError.
Proof.
  split; [reflexivity|]. split; [reflexivity|]. split; [discriminate|].
  split; reflexivity.
Qed.

(** With the checks turned off, an upload below a directory that is not
    there is sent all the same, and it is the server that refuses it. *)
Lemma upload_file_unchecked :
  snd (check client "/a/b/" refusing) = inr false /\
  snd (upload_file 5 unchecked "/a/b/c.txt" "local/c.txt" None false false
         refusing)
  = inl (ResponseErrorCode "https://dav.example.org/a/b/c.txt" 409
           (Malformed "")) /\
  snd (upload_file 5 unchecked "/a/b/c.txt" "local/c.txt" None false false
         refusing)
  <> inl (RemoteParentNotFound "/a/b/c.txt") /\
  log creates_or_uploads
    (trace (fst (upload_file 5 unchecked "/a/b/c.txt" "local/c.txt" None
                   false false refusing)))
  = [("upload", "https://dav.example.org/a/b/c.txt")].
Proof.
  split; [reflexivity|]. split; [reflexivity|].
  split; [discriminate | reflexivity].
Qed.

(** Scenario B without [force]: the error, and nothing sent but the
    check.  With [force]: the parents, then the upload of the file. *)
Lemma upload_file_scenario :
  snd (upload_file 5 client "/a/b/c.txt" "local/c.txt" None false false bare)
  = inl (RemoteParentNotFound "/a/b/c.txt") /\
  exists k,
    missing_above client k "/a/b/"
      (fst (check client "/a/b/" bare)) /\
    log creates_or_uploads
      (trace (fst (upload_file 5 client "/a/b/c.txt" "local/c.txt" None
                     true false bare)))
    = (mkcols client (ancestors k "/a/b/")
       ++ [("upload", "https://dav.example.org/a/b/c.txt")])%list /\
    exists data before req,
      os.read bare "local/c.txt" = inr data /\
      sent (fst (upload_file 5 client "/a/b/c.txt" "local/c.txt" None
                   true false bare)) = (before ++ [req])%list /\
      req_url req = "https://dav.example.org/a/b/c.txt" /\
      req_data req = BodyFile data.
Proof.
  pose proof (upload_file_missing_parent 5 client "/a/b/c.txt" "local/c.txt"
                None false bare _ eq_refl eq_refl eq_refl eq_refl)
    as (_ & (H1 & _) & H2 & _).
  split; [exact (f_equal snd H1)|].
  exact (H2 _ eq_refl).
Defined.

(** Scenario B, request by request. *)
Lemma upload_file_creates_top_down :
  log creates_or_uploads
    (trace (fst (upload_file 5 client "/a/b/c.txt" "local/c.txt" None
                   true false bare)))
  = [("mkdir", "https://dav.example.org/a/");
     ("mkdir", "https://dav.example.org/a/b/");
     ("upload", "https://dav.example.org/a/b/c.txt")].
Proof. reflexivity. Qed.

(** The upload of [proj] to [/backup/], which is there: deleted, made,
    and [main.py] uploaded. *)
Lemma upload_directory_scenario :
  exists found w1 w2 w3 names w4,
    check client "/backup/" backup = (w1, inr found) /\
    (if found : bool then clean client "/backup/" w1 = (w2, inr tt)
     else w2 = w1) /\
    (exists b, mkdir 4 client "/backup/" false w2 = (w3, inr b)) /\
    log changes (trace w3)
    = (log changes (trace backup)
       ++ (if found
           then [("clean", get_url client (urn_quote (mkUrn "/backup/" false)))]
           else [])
       ++ [("mkdir", get_url client (urn_quote (mkUrn "/backup/" true)))])%list
    /\ listdir "proj" w3 = (w3, inr names) /\
    for_each (filter (fun resource_name => negb (aboba resource_name)) names)
      (fun resource_name =>
         upload 4 client (Py.drop_backslash ("/backup/" ++ resource_name))
           (Py.path_join "proj" resource_name) None false) w3
      = (w4, inr tt) /\
    fst (upload_directory 5 client "/backup/" "proj" None false backup) = w4.
Proof.
  exact (upload_directory_order 4 client "/backup/" "proj" None false backup
           _ eq_refl).
Defined.

(** [utils.py] is in the local directory, the run returns, and the only
    upload is that of [main.py]. *)
Lemma upload_directory_skips_utils :
  let run := upload_directory 5 client "/backup/" "proj" None false backup in
  os.listdir backup "proj" = inr ["main.py"; "utils.py"] /\
  snd run = inr tt /\
  log changes (trace (fst run))
  = [("clean", "https://dav.example.org/backup/");
     ("mkdir", "https://dav.example.org/backup/");
     ("upload", "https://dav.example.org/backup/main.py")].
Proof. split; [reflexivity | split; reflexivity]. Qed.

(** [push] sends no DELETE and no GET. *)
Lemma push_deletes_nothing :
  log (fun a => String.eqb a "clean" || String.eqb a "download")
    (trace (fst (push 3 client "/" "local" (remote_file "yesterday")))) = [].
Proof.
  refine (push_sends_only_its_requests
            (fun a => String.eqb a "clean" || String.eqb a "download")
            3 client "/" "local" (remote_file "yesterday") _).
  intros a Ha. repeat (destruct Ha as [<- | Ha]; [reflexivity|]).
  destruct Ha.
Defined.

(** [pull] sends nothing that changes the server. *)
Lemma pull_changes_nothing_remote :
  log changes
    (trace (fst (pull 3 client "/" "local" (remote_file "yesterday")))) = [].
Proof.
  refine (pull_sends_only_its_requests changes 3 client "/" "local"
            (remote_file "yesterday") _).
  intros a Ha. repeat (destruct Ha as [<- | Ha]; [reflexivity|]).
  destruct Ha.
Defined.

(** [sync] sends no DELETE. *)
Lemma sync_deletes_nothing :
  log (String.eqb "clean")
    (trace (fst (sync 3 client "/" "local" (remote_file "yesterday")))) = [].
Proof.
  refine (proj2 (proj2 (sync_pulls_then_pushes 3 client "/" "local"
                          (remote_file "yesterday")))
            (String.eqb "clean") _).
  intros a Ha. repeat (destruct Ha as [<- | Ha]; [reflexivity|]).
  destruct Ha.
Defined.

(** The client of the scenarios knows the method of [unlock]. *)
Lemma init_knows_unlock :
  exists m, Py.get (requests client) "unlock" = Some m.
Proof.
  refine (proj2 (init_methods settings "unlock") _).
  cbn. tauto.
Defined.

(** A recursive listing: the [Depth] of the caller replaces that of the
    action. *)
Lemma recursive_list_depth :
  exists d,
    get_headers client "list" (Some ["Depth:infinity"]) = inr d /\
    Py.get d "Depth" = Some "infinity".
Proof.
  eexists. split; [reflexivity|].
  refine (proj2 (proj2 (later_header_wins client "list"
                          (Some ["Depth:infinity"])))
            _ ["Accept: */*"; "Depth: 1"] "Depth:infinity" [] "Depth"
            "infinity" eq_refl eq_refl eq_refl _).
  intros l k' v' [].
Defined.

(** The server cannot be reached: [check] raises the no-connection
    error. *)
Lemma check_offline :
  snd (check client "/x" offline)
  = inl (NoConnection "https://dav.example.org").
Proof.
  pose proof (check_reports_transport_failure client "/x" offline _
                eq_refl eq_refl) as (H & _).
  exact (H "refused" eq_refl).
Defined.

(** Five bytes are one chunk, and the callback is told 0 twice. *)
Lemma read_in_chunks_hello :
  read_in_chunks client "cb" 5 "hello"
  = BodyChunks ["hello"] [("cb", 0, Some 5); ("cb", 0, Some 5)] /\
  exists ch,
    read_in_chunks client "cb" 5 "hello"
    = BodyChunks ch (("cb", 0, Some 5) :: offsets "cb" 5 0 ch) /\
    fold_right String.append "" ch = "hello" /\
    Forall (fun x => x <> "" /\ Py.len x <= 65536) ch /\
    Forall (fun x => Py.len x = 65536) (removelast ch) /\
    Forall (fun call => 0 <= snd (fst call) < 5) (offsets "cb" 5 0 ch) /\
    ("hello" = "" -> ch = []).
Proof.
  split; [reflexivity|].
  exact (read_in_chunks_reassembles client "cb" "hello" eq_refl).
Defined.

(** A local file that is not there; and an upload beside the root. *)
Lemma upload_file_guards :
  upload_file 5 client "/a/b/c.txt" "local/missing" None true false bare
  = (bare, inl (LocalResourceNotFound "local/missing")) /\
  log creates_or_uploads
    (trace (fst (upload_file 5 client "/c.txt" "local/c.txt" None true
                   false bare)))
  = [("upload", "https://dav.example.org/c.txt")].
Proof.
  split.
  - exact (proj1 (upload_file_validates_first 5 client "/a/b/c.txt"
                    "local/missing" None true false bare) eq_refl).
  - exact (proj2 (proj2 (proj2 (upload_file_validates_first 5 client
                                  "/c.txt" "local/c.txt" None true false
                                  bare)))
             _ _ eq_refl eq_refl eq_refl eq_refl eq_refl).
Defined.

(** The parent of the remote path is not there. *)
Lemma upload_to_without_parent :
  snd (upload_to client "data" "/a/b/c.txt" bare)
  = inl (RemoteParentNotFound "/a/b/c.txt").
Proof.
  exact (f_equal snd
           (proj1 (proj1 (proj2 (upload_to_needs_parent client "data"
                                   "/a/b/c.txt" bare))
                     _ eq_refl eq_refl))).
Defined.

(** The source is not there; the source is there, and the request is
    sent; and the headers of that request. *)
Lemma move_scenario :
  snd (move client "/c.txt" "/d.txt" false bare)
  = inl (RemoteResourceNotFound "/c.txt") /\
  move client "/c.txt" "/d.txt" false (remote_file "yesterday")
  = wrap_connection_error client
      (execute_request client "move" "/c.txt" BodyNone
         (Some ["Destination: https://dav.example.org/d.txt";
                "Overwrite: F"]) ;;
       ret tt)%method
      (fst (check client "/"
              (fst (check client "/c.txt" (remote_file "yesterday"))))) /\
  exists req,
    build_request client "move" "/c.txt" BodyNone
      (Some ["Destination: https://dav.example.org/d.txt"; "Overwrite: F"])
    = inr req /\
    Py.get (req_headers req) "Destination"
    = Some "https://dav.example.org/d.txt" /\
    Py.get (req_headers req) "Overwrite" = Some "F".
Proof.
  pose proof (move_checks_and_headers client "/c.txt" "/d.txt" false bare)
    as (H1 & _ & _ & H4).
  pose proof (move_checks_and_headers client "/c.txt" "/d.txt" false
                (remote_file "yesterday")) as (_ & _ & H3 & _).
  split; [exact (f_equal snd (proj1 (H1 _ eq_refl)))|].
  split; [exact (H3 _ _ eq_refl eq_refl)|].
  eexists. split; [reflexivity|]. exact (H4 _ eq_refl).
Defined.

(** The root is a directory, and is not downloaded; a file that is gone
    by the time it is checked is not found. *)
Lemma downloads_refused :
  snd (download_iter client "/" (remote_file "yesterday"))
  = inl (OptionNotValid "remote_path" "/") /\
  snd (download_file client "/c.txt" "local/c.txt" None vanishing)
  = inl (RemoteResourceNotFound "/c.txt") /\
  lfs (fst (download_file client "/c.txt" "local/c.txt" None vanishing))
    "local/c.txt" = Some (LFile 10 "hello").
Proof.
  pose proof (downloads_look_first client "/" (remote_file "yesterday"))
    as (H1 & _).
  pose proof (downloads_look_first client "/c.txt" vanishing) as (_ & H2).
  split; [exact (f_equal snd (proj1 (H1 _ eq_refl)))|].
  destruct (H2 _ _ eq_refl eq_refl) as (_ & _ & H3 & _ & H4).
  split.
  - exact (f_equal snd (H3 "local/c.txt" None eq_refl)).
  - rewrite (H3 "local/c.txt" None eq_refl). cbn [fst]. now rewrite H4.
Defined.

(** The two chunks end up in the local file, in place of what it held;
    and nothing is fetched into a directory that is not there. *)
Lemma download_file_two_chunks :
  os.read chunked "local/c.txt" = inr "hello" /\
  (exists w',
     download_file client "/c.txt" "local/c.txt" None chunked = (w', inr tt) /\
     os.read w' "local/c.txt" = inr "hello!") /\
  snd (download_file client "/c.txt" "nowhere/c.txt" None chunked)
  = inl (OSError "nowhere/c.txt").
Proof.
  split; [reflexivity|]. split.
  - pose proof (download_file_stores_body client "/c.txt" "local/c.txt" None
                  chunked) as H.
    cbv zeta in H. pose proof (H _ _ eq_refl eq_refl eq_refl) as (_ & H2).
    exact (H2 _ _ _ eq_refl eq_refl).
  - pose proof (download_file_stores_body client "/c.txt" "nowhere/c.txt"
                  None chunked) as H.
    cbv zeta in H. pose proof (H _ _ eq_refl eq_refl eq_refl) as (H1 & _).
    assert (Hn : forall m names,
              lfs chunked (os.dirname "nowhere/c.txt")
              <> Some (LDir m names)) by (intros m names; discriminate).
    exact (f_equal snd (proj1 (H1 Hn))).
Defined.

(** The remote time cannot be read: [pull] downloads the file. *)
Lemma comparison_downloads :
  snd (is_local_more_recent client "local/c.txt" "/c.txt"
         (remote_file "yesterday")) = inr None /\
  pull_entry (pull 2 client) client (mkUrn "/" true) "local" ["c.txt"]
    false "c.txt" (remote_file "yesterday")
  = (download_file client "/c.txt" "local/c.txt" None ;; ret true)%method
      (fst (is_local_more_recent client "local/c.txt" "/c.txt"
              (remote_file "yesterday"))).
Proof.
  split; [reflexivity|].
  assert (Hn : @None bool <> Some true) by discriminate.
  exact (proj2 (proj2 (comparison_decides_pull (pull 2 client) client
                         (mkUrn "/" true) "local" ["c.txt"] false "c.txt"
                         (remote_file "yesterday") eq_refl eq_refl)
                  _ None eq_refl eq_refl) Hn).
Defined.

(** Content that is no XML lists nothing. *)
Lemma list_parsers_of_malformed :
  parse_get_list_response (Malformed "<") = [] /\
  parse_get_list_info_response (Malformed "<") = [].
Proof.
  exact (proj2 (list_parsers_agree (Malformed "<")) "<" eq_refl).
Defined.

(** The response for [/c.txt] is the second of the listing, and it is
    the one returned. *)
Lemma extract_second_response :
  extract_response_for_path
    (multistatus [("/", true, None); ("/c.txt", false, None)])
    "/c.txt" "https://dav.example.org"
  = inr (entry ("/c.txt", false, None)).
Proof.
  refine (proj1 (extract_response_is_first "/c.txt" "https://dav.example.org")
            (Elem "{DAV:}multistatus" [] None
               (map entry [("/", true, None); ("/c.txt", false, None)]))
            [entry ("/", true, None)] (entry ("/c.txt", false, None)) []
            eq_refl _ _).
  - constructor; [|constructor]. split; [discriminate|].
    intros [H | (h & Hh & H)]; [discriminate|].
    inversion Hh. subst h. discriminate.
  - left. reflexivity.
Defined.

(** The lock client of a granted lock. *)
Lemma granted_lock :
  exists w',
    lock client "/c.txt" 60 locking
    = (w', inr (lock_client client "/c.txt" "opaque-1")) /\
    exists req,
      build_request (lock_self (lock_client client "/c.txt" "opaque-1"))
        "upload" "/c.txt" (BodyFile "x") None = inr req /\
      Py.get (req_headers req) "Lock-Token" = Some "opaque-1" /\
      Py.get (req_headers req) "If" = Some "(opaque-1)".
Proof.
  eexists. split; [reflexivity|].
  destruct (lock_client_carries_token client "/c.txt" 60 locking _ _ eq_refl)
    as (tok & Hl & _ & H).
  eexists. split; [reflexivity|].
  assert (Ht : tok = "opaque-1") by (inversion Hl; reflexivity).
  rewrite Ht in H.
  exact (proj2 (H "upload" "/c.txt" (BodyFile "x") None _ eq_refl)).
Defined.

(** A delete under a lock: the unlock follows it. *)
Lemma with_lock_scenario :
  exists w2 r',
    with_lock client "/c.txt" 0 (fun c => clean c "/c.txt") locking
    = (w2, r') /\
    log unlocks (trace w2) = [("unlock", "https://dav.example.org/c.txt")].
Proof.
  destruct (with_lock_unlocks client "/c.txt" 0 (fun c => clean c "/c.txt")
              locking _ _ _ _ "UNLOCK" eq_refl eq_refl eq_refl)
    as (w2 & r' & H1 & H2 & _).
  exists w2, r'. split; [exact H1 | exact H2].
Defined.

(** Neither check finds the resource: nothing is asked about it. *)
Lemma info_of_missing :
  snd (info client "/x" (always 404)) = inl (RemoteResourceNotFound "/x") /\
  snd (is_dir client "/x" (always 404)) = inl (RemoteResourceNotFound "/x").
Proof.
  destruct (proj2 (proj2 (resource_is_checked_first client "/x" (always 404)))
              _ _ eq_refl eq_refl) as (H1 & H2 & _).
  split; [exact (f_equal snd H1) | exact (f_equal snd H2)].
Defined.

(** The local directory is not there: the option error, not the
    local-not-found one. *)
Lemma push_without_local_directory :
  snd (push 3 client "/" "nowhere" (remote_file "yesterday"))
  = inl (OptionNotValid "local_path" "nowhere") /\
  snd (sync 3 client "/" "nowhere" (remote_file "yesterday"))
  = inl (OptionNotValid "local_path" "nowhere").
Proof.
  pose proof (directories_are_validated_first 2 client "/" "nowhere"
                (remote_file "yesterday")) as (_ & _ & H).
  pose proof (H _ eq_refl) as H0.
  destruct (H0 eq_refl) as (H1 & _ & H3).
  split; [exact (f_equal snd H1) | exact (f_equal snd H3)].
Defined.

(** The local path of an upload of a directory is not one. *)
Lemma upload_directory_without_local :
  upload_directory 5 client "/backup/" "nowhere" None false backup
  = (backup, inl (OptionNotValid "local_path" "nowhere")).
Proof.
  exact (proj1 (upload_directory_validates_first 4 client "/backup/"
                  "nowhere" None false backup eq_refl) eq_refl).
Defined.

(** The source is not there; and the headers of the copy of a
    directory. *)
Lemma copy_scenario :
  snd (copy client "/c.txt" "/d.txt" 1 bare)
  = inl (RemoteResourceNotFound "/c.txt") /\
  exists req,
    build_request client "copy" "/c.txt" BodyNone
      (Some ["Destination: https://dav.example.org/d.txt"; "Depth: 1"])
    = inr req /\
    Py.get (req_headers req) "Destination"
    = Some "https://dav.example.org/d.txt" /\
    Py.get (req_headers req) "Depth" = Some "1".
Proof.
  pose proof (copy_checks_and_headers client "/c.txt" "/d.txt" 1 bare)
    as (H1 & _ & _ & H4).
  split; [exact (f_equal snd (H1 _ eq_refl))|].
  eexists. split; [reflexivity|].
  destruct (H4 true _ eq_refl) as (Hd & Hp & _).
  split; [exact Hd | exact (Hp eq_refl)].
Defined.

(** A directory beside the root, on a server that answers 201. *)
Lemma mkdir_beside_root :
  snd (mkdir 1 client "/a/" false bare) = inr true /\
  log creates_or_uploads (trace (fst (mkdir 1 client "/a/" false bare)))
  = [("mkdir", "https://dav.example.org/a/")].
Proof.
  pose proof (fun w1 => mkdir_answers_by_status 0 client "/a/" false bare
                          w1) as H.
  cbv zeta in H. pose proof (fun w2 r => H _ w2 r eq_refl) as H0.
  destruct (H0 _ _ eq_refl) as (H1 & _ & H3).
  split; [exact (f_equal snd H1)|].
  rewrite H1. exact H3.
Defined.

(** A delete that the server accepts. *)
Lemma clean_scenario :
  snd (clean client "/x" (always 204)) = inr tt /\
  length (sent (fst (clean client "/x" (always 204)))) = 1%nat.
Proof.
  destruct (proj1 (clean_and_free_send_one_request client (always 204) _
                     (reply 204) eq_refl) "/x" eq_refl) as (H1 & H2 & _).
  split; [apply H2; reflexivity | now rewrite H1].
Defined.

End Scenarios.
